(** * NewsOne backend: article workflow and account administration

    A shallow embedding of the Express/Mongoose handlers of the NewsOne
    backend (routes/editorRoutes.js, routes/adminRoutes.js,
    routes/publicRoutes.js, routes/authRoutes.js, config/auth.js,
    middleware/auth.js, models/Article.js, models/Editor.js, index.js).

    - JavaScript strings are modelled by [string]: sequences of code
      units below 256 (the Latin-1 part of UTF-16).
    - The two MongoDB collections are finite maps from ObjectIds to
      documents; an ObjectId is the 96-bit number its 24 hexadecimal
      digits denote.
    - Every handler is a function from the request and the database to a
      response and the new database; an exception raised inside a
      handler's [try] block is a value of [exn], turned into the 500
      response by the handler's [catch].
    - index.js starts the seed of the first admin on every request and
      does not wait for it: [Index.handle] is the four routers alone,
      [Index.app] a request to the application, with the seed scheduled
      before, around or after what the route does. *)

From Stdlib Require Import ZArith NArith Ascii String List Bool Lia Permutation.
From Stdlib Require Import Sorted.
From stdpp Require Import base option gmap strings list.

Local Open Scope string_scope.
Local Open Scope list_scope.

(** ** JavaScript string primitives *)

Module JS.

(** WhiteSpace and LineTerminator code units below 256: TAB, LF, VT, FF,
    CR, SP and NBSP. *)
Definition is_space (c : ascii) : bool :=
  let n := N_of_ascii c in
  ((9 <=? n) && (n <=? 13) || (n =? 32) || (n =? 160))%N.

(** Code units below 256 that [toLowerCase] changes: A-Z, and the Latin-1
    capitals U+00C0-U+00DE without the multiplication sign U+00D7. *)
Definition is_upper (c : ascii) : bool :=
  let n := N_of_ascii c in
  ((65 <=? n) && (n <=? 90) ||
   (192 <=? n) && (n <=? 222) && negb (n =? 215))%N.

Definition lower_char (c : ascii) : ascii :=
  if is_upper c then ascii_of_N (N_of_ascii c + 32) else c.

(** [String.prototype.toLowerCase] *)
Fixpoint toLowerCase (s : string) : string :=
  match s with
  | EmptyString => EmptyString
  | String c r => String (lower_char c) (toLowerCase r)
  end.

(** [String.prototype.trimStart] *)
Fixpoint trimStart (s : string) : string :=
  match s with
  | EmptyString => EmptyString
  | String c r => if is_space c then trimStart r else s
  end.

(** [String.prototype.trimEnd] *)
Fixpoint trimEnd (s : string) : string :=
  match s with
  | EmptyString => EmptyString
  | String c r =>
      match trimEnd r with
      | EmptyString => if is_space c then EmptyString else String c EmptyString
      | r' => String c r'
      end
  end.

(** [String.prototype.trim] *)
Definition trim (s : string) : string := trimEnd (trimStart s).

(** [s.split(",")]: the pieces between commas; never the empty list. *)
Fixpoint split_comma (s : string) : list string :=
  match s with
  | EmptyString => [EmptyString]
  | String c r =>
      if Ascii.eqb c "," then EmptyString :: split_comma r
      else match split_comma r with
           | [] => [String c EmptyString]
           | h :: t => String c h :: t
           end
  end.

(** Truthiness of a string value: every string but the empty one. *)
Definition truthy (s : string) : bool :=
  match s with EmptyString => false | _ => true end.

(** Truthiness of a possibly [undefined] string. *)
Definition truthy_opt (o : option string) : bool :=
  match o with Some s => truthy s | None => false end.

(** [[...new Set(l)]]: the elements of [l] in order of first insertion;
    [seen] is the content of the set so far. *)
Fixpoint set_spread (seen l : list string) : list string :=
  match l with
  | [] => []
  | x :: r =>
      if existsb (String.eqb x) seen then set_spread seen r
      else x :: set_spread (x :: seen) r
  end.

(** [a.includes(x)] on an array of strings *)
Definition includes (a : list string) (x : string) : bool :=
  existsb (String.eqb x) a.

(** A string with no leading and no trailing white space. *)
Definition first_char (s : string) : option ascii :=
  match s with EmptyString => None | String c _ => Some c end.

Fixpoint last_char (s : string) : option ascii :=
  match s with
  | EmptyString => None
  | String c EmptyString => Some c
  | String _ r => last_char r
  end.

Definition space_opt (o : option ascii) : bool :=
  match o with Some c => is_space c | None => false end.

Definition is_trimmed (s : string) : bool :=
  negb (space_opt (first_char s)) && negb (space_opt (last_char s)).

(** A string with no capital letter. *)
Fixpoint is_lowercase (s : string) : bool :=
  match s with
  | EmptyString => true
  | String c r => negb (is_upper c) && is_lowercase r
  end.

(** A number as the handlers get one: a literal of the code, or
    [Number(s)] of a text of the request, which is left unevaluated. *)
Inductive number :=
| Lit (z : Z)
| Number (s : string).

(** [Number(q)] for [const { q = z } = req.query] *)
Definition number_of (z : Z) (q : option string) : number :=
  match q with
  | Some s => Number s
  | None => Lit z
  end.

End JS.

(** ** Category normalisation (routes/editorRoutes.js) *)

(** The [categories] value of a request body: absent, a string, or an
    array of strings. *)
Inductive cat_input :=
| CatUndefined
| CatString (s : string)
| CatArray (l : list string).

(** The array [cats] before the duplicates are removed. *)
Definition category_candidates (input : cat_input) : list string :=
  let cats :=
    match input with
    | CatArray l => l
    | CatString s =>
        if JS.truthy (JS.trim s)
        then List.filter JS.truthy (List.map JS.trim (JS.split_comma s))
        else []
    | CatUndefined => []
    end in
  List.map (fun c => JS.trim (JS.toLowerCase c)) cats.

Definition normalizeCategories (input : cat_input) : list string :=
  let cats := JS.set_spread [] (category_candidates input) in
  match cats with
  | [] => ["latest"]
  | _ => cats
  end.


(** ** ObjectIds (bson) *)

Module ObjectId.

(** An ObjectId is 12 bytes, here the number its 24 hexadecimal digits
    denote. *)
Definition t := N.

Definition hex_value (c : ascii) : option N :=
  let n := N_of_ascii c in
  if ((48 <=? n) && (n <=? 57))%N then Some (n - 48)%N
  else if ((97 <=? n) && (n <=? 102))%N then Some (n - 87)%N
  else if ((65 <=? n) && (n <=? 70))%N then Some (n - 55)%N
  else None.

Fixpoint parse_hex (acc : N) (s : string) : option N :=
  match s with
  | EmptyString => Some acc
  | String c r =>
      match hex_value c with
      | Some d => parse_hex (16 * acc + d)%N r
      | None => None
      end
  end.

(** Casting a route parameter or a token field to an ObjectId: the
    string has to match [/^[0-9a-fA-F]{24}$/], as in bson 6 (earlier
    versions also take any string of 12 bytes). [None] is Mongoose's
    CastError. *)
Definition cast (s : string) : option t :=
  if Nat.eqb (String.length s) 24 then parse_hex 0 s else None.

(** [mongoose.Types.ObjectId.isValid] on a string *)
Definition isValid (s : string) : bool :=
  match cast s with Some _ => true | None => false end.

Definition hex_digit (d : N) : ascii :=
  if (d <? 10)%N then ascii_of_N (48 + d) else ascii_of_N (87 + d).

Fixpoint to_hex (digits : nat) (n : N) (acc : string) : string :=
  match digits with
  | O => acc
  | S k => to_hex k (n / 16)%N (String (hex_digit (n mod 16)%N) acc)
  end.

(** [String(id)], [id.toString()] and the JSON form of an ObjectId. *)
Definition toString (n : t) : string := to_hex 24 n EmptyString.

(** The ObjectIds proper: 96 bits. *)
Definition bound : N := (2 ^ 96)%N.

End ObjectId.

(** ** models/Article.js *)

Module Article.

Record doc := mk {
  title : string;
  summary : string;
  content : string;
  categories : list string;
  imageUrl : string;
  source : string;
  status : string;
  author : ObjectId.t;
  publishedAt : option Z;
  createdAt : Z;
  updatedAt : Z
}.

#[global] Instance doc_eq_dec : EqDecision doc.
Proof. solve_decision. Defined.

Definition CATEGORIES : list string :=
  ["latest"; "business"; "sports"; "entertainment"; "political";
   "international"; "tech"; "automobile"; "law"; "other"].

Definition STATUSES : list string := ["draft"; "in_review"; "published"].

(** Assignments to the paths of a document run the setters the schema
    declares: [trim] on title, summary, imageUrl and source, [lowercase]
    and [trim] on every category. *)
Definition set_title (v : string) (a : doc) : doc :=
  mk (JS.trim v) (summary a) (content a) (categories a) (imageUrl a)
     (source a) (status a) (author a) (publishedAt a) (createdAt a) (updatedAt a).

Definition set_summary (v : string) (a : doc) : doc :=
  mk (title a) (JS.trim v) (content a) (categories a) (imageUrl a)
     (source a) (status a) (author a) (publishedAt a) (createdAt a) (updatedAt a).

Definition set_content (v : string) (a : doc) : doc :=
  mk (title a) (summary a) v (categories a) (imageUrl a)
     (source a) (status a) (author a) (publishedAt a) (createdAt a) (updatedAt a).

Definition set_category (c : string) : string := JS.trim (JS.toLowerCase c).

Definition set_categories (v : list string) (a : doc) : doc :=
  mk (title a) (summary a) (content a) (List.map set_category v) (imageUrl a)
     (source a) (status a) (author a) (publishedAt a) (createdAt a) (updatedAt a).

Definition set_imageUrl (v : string) (a : doc) : doc :=
  mk (title a) (summary a) (content a) (categories a) (JS.trim v)
     (source a) (status a) (author a) (publishedAt a) (createdAt a) (updatedAt a).

Definition set_source (v : string) (a : doc) : doc :=
  mk (title a) (summary a) (content a) (categories a) (imageUrl a)
     (JS.trim v) (status a) (author a) (publishedAt a) (createdAt a) (updatedAt a).

Definition set_status (v : string) (a : doc) : doc :=
  mk (title a) (summary a) (content a) (categories a) (imageUrl a)
     (source a) v (author a) (publishedAt a) (createdAt a) (updatedAt a).

Definition set_publishedAt (v : option Z) (a : doc) : doc :=
  mk (title a) (summary a) (content a) (categories a) (imageUrl a)
     (source a) (status a) (author a) v (createdAt a) (updatedAt a).

Definition set_updatedAt (v : Z) (a : doc) : doc :=
  mk (title a) (summary a) (content a) (categories a) (imageUrl a)
     (source a) (status a) (author a) (publishedAt a) (createdAt a) v.

(** Validation before a write: [required] on title and content (the
    empty string does not satisfy it), [enum] on every category and on
    the status. *)
Definition validate (a : doc) : bool :=
  JS.truthy (title a) && JS.truthy (content a)
  && forallb (JS.includes CATEGORIES) (categories a)
  && JS.includes STATUSES (status a).

End Article.

(** ** models/Editor.js *)

Module Editor.

Record doc := mk {
  name : string;
  email : string;
  password : string;
  role : string;
  createdAt : Z;
  updatedAt : Z
}.

#[global] Instance doc_eq_dec : EqDecision doc.
Proof. solve_decision. Defined.

Definition ROLES : list string := ["admin"; "user"].

(** Setters of the schema: [trim] on name and email. *)
Definition set_name (v : string) (e : doc) : doc :=
  mk (JS.trim v) (email e) (password e) (role e) (createdAt e) (updatedAt e).

Definition set_email (v : string) (e : doc) : doc :=
  mk (name e) (JS.trim v) (password e) (role e) (createdAt e) (updatedAt e).

Definition set_password (v : string) (e : doc) : doc :=
  mk (name e) (email e) v (role e) (createdAt e) (updatedAt e).

Definition set_role (v : string) (e : doc) : doc :=
  mk (name e) (email e) (password e) v (createdAt e) (updatedAt e).

Definition set_updatedAt (v : Z) (e : doc) : doc :=
  mk (name e) (email e) (password e) (role e) (createdAt e) v.

(** [required] on name, email and password, [enum] on role. *)
Definition validate (e : doc) : bool :=
  JS.truthy (name e) && JS.truthy (email e) && JS.truthy (password e)
  && JS.includes ROLES (role e).

End Editor.

(** ** The database and the Mongoose operations the handlers use *)

Record db := mkDb {
  editors : gmap N Editor.doc;
  articles : gmap N Article.doc
}.

Definition with_editors (m : gmap N Editor.doc) (d : db) : db :=
  mkDb m (articles d).

Definition with_articles (m : gmap N Article.doc) (d : db) : db :=
  mkDb (editors d) m.

(** What a handler's [try] block can raise. *)
Inductive exn :=
| CastError          (* a value that is no ObjectId where one is expected *)
| ValidationError    (* the document does not satisfy its schema *)
| DuplicateKeyError  (* E11000: [_id] or the unique index on email *)
| SyntaxError        (* [new RegExp] on an ill-formed pattern *)
| TypeError.         (* a method called on [undefined] *)

Inductive result (A : Type) :=
| Ok (a : A)
| Throw (e : exn).

Arguments Ok {A} a.
Arguments Throw {A} e.

Definition bind {A B : Type} (r : result A) (k : A -> result B) : result B :=
  match r with
  | Ok a => k a
  | Throw e => Throw e
  end.

Notation "'let*' x ':=' r 'in' k" := (bind r (fun x => k))
  (at level 10, x pattern, r at level 100, k at level 200).

Module Mongoose.

(** The cast of a string where the schema or [_id] has an ObjectId. *)
Definition castObjectId (s : string) : result ObjectId.t :=
  match ObjectId.cast s with
  | Some k => Ok k
  | None => Throw CastError
  end.

(** [Model.findOne(filter)]: the first document of the collection that
    satisfies the filter. *)
Definition findOne {A : Type} (filter : N -> A -> bool) (m : gmap N A)
  : option (N * A) :=
  List.find (fun kv => filter (fst kv) (snd kv)) (map_to_list m).

(** [Model.findById(k)] *)
Definition findById {A : Type} (k : ObjectId.t) (m : gmap N A) : option A :=
  m !! k.

(** [Model.findOne({ _id: k, ...filter })]: the [_id] selects at most one
    document, which has to satisfy the rest of the filter. *)
Definition findOneWithId {A : Type} (k : ObjectId.t) (filter : A -> bool)
  (m : gmap N A) : option A :=
  match m !! k with
  | Some a => if filter a then Some a else None
  | None => None
  end.

(** [Model.find(filter)] *)
Definition find {A : Type} (filter : N -> A -> bool) (m : gmap N A)
  : list (N * A) :=
  List.filter (fun kv => filter (fst kv) (snd kv)) (map_to_list m).

(** [Model.countDocuments(filter)] *)
Definition countDocuments {A : Type} (filter : N -> A -> bool) (m : gmap N A)
  : nat :=
  List.length (find filter m).

(** [Article.create(a)] with the [_id] the driver generated: validation,
    then the insertion with both timestamps set. *)
Definition createArticle (now : Z) (id : ObjectId.t) (a : Article.doc) (d : db)
  : result (Article.doc * db) :=
  if negb (Article.validate a) then Throw ValidationError
  else match articles d !! id with
       | Some _ => Throw DuplicateKeyError
       | None =>
           let a' := Article.mk (Article.title a) (Article.summary a)
                       (Article.content a) (Article.categories a)
                       (Article.imageUrl a) (Article.source a)
                       (Article.status a) (Article.author a)
                       (Article.publishedAt a) now now in
           Ok (a', with_articles (<[id := a']> (articles d)) d)
       end.

(** [article.save()] on a document loaded as [loaded] and since changed
    to [a]: validation, then the write; [updatedAt] moves only when some
    path was modified. *)
Definition saveArticle (now : Z) (id : ObjectId.t) (loaded a : Article.doc)
  (d : db) : result (Article.doc * db) :=
  if negb (Article.validate a) then Throw ValidationError
  else if decide (a = loaded) then Ok (a, d)
  else let a' := Article.set_updatedAt now a in
       Ok (a', with_articles (<[id := a']> (articles d)) d).

(** The unique index on [email]: some other document holds [em]. *)
Definition emailTaken (id : ObjectId.t) (em : string)
  (m : gmap N Editor.doc) : bool :=
  existsb (fun kv => negb (N.eqb (fst kv) id) && String.eqb (Editor.email (snd kv)) em)
          (map_to_list m).

(** [Editor.create(e)]: validation, then the insertion, which the
    unique index refuses when another account holds the email. *)
Definition createEditor (now : Z) (id : ObjectId.t) (e : Editor.doc) (d : db)
  : result (Editor.doc * db) :=
  if negb (Editor.validate e) then Throw ValidationError
  else match editors d !! id with
       | Some _ => Throw DuplicateKeyError
       | None =>
           if emailTaken id (Editor.email e) (editors d)
           then Throw DuplicateKeyError
           else
             let e' := Editor.mk (Editor.name e) (Editor.email e)
                         (Editor.password e) (Editor.role e) now now in
             Ok (e', with_editors (<[id := e']> (editors d)) d)
       end.

(** [editor.save()]: as for an article; a modified email is checked
    against the unique index. *)
Definition saveEditor (now : Z) (id : ObjectId.t) (loaded e : Editor.doc)
  (d : db) : result (Editor.doc * db) :=
  if negb (Editor.validate e) then Throw ValidationError
  else if decide (e = loaded) then Ok (e, d)
  else if negb (String.eqb (Editor.email e) (Editor.email loaded))
          && emailTaken id (Editor.email e) (editors d)
       then Throw DuplicateKeyError
       else let e' := Editor.set_updatedAt now e in
            Ok (e', with_editors (<[id := e']> (editors d)) d).

End Mongoose.

(** ** What a request gets from outside the handler *)

Record env := mkEnv {
  now : Z;                                  (* [new Date()], in milliseconds *)
  freshId : ObjectId.t;                     (* the [_id] of a created document *)
  hashPassword : string -> string;          (* bcrypt.hash(pw, 10) *)
  comparePassword : string -> string -> bool; (* bcrypt.compare(pw, hash) *)
  randomPassword : string;                  (* generateRandomPassword() *)
  JWT_SECRET : string;
  RegExp_i : string -> option (string -> bool);
    (* [new RegExp(pattern, "i")]: [None] when the pattern is ill-formed,
       else the [test] of the expression *)
  limit_of : string -> result (option nat);
    (* what [query.limit(parseInt(limit, 10))] makes of the text: the
       query fails, returns every document, or returns the first [n] *)
  skip_limit : JS.number -> JS.number -> result (nat * option nat)
    (* what [query.skip((page - 1) * limit).limit(limit)] makes of the two
       numbers: the query fails, or so many documents are skipped and so
       many returned at most *)
}.

(** ** Responses *)

(** [populate("author", "name email")] and [populate("author", "name")] *)
Record author_view := mkAuthor {
  author_id : ObjectId.t;
  author_name : string;
  author_email : option string
}.

(** An element of the public list:
    [select("title summary content imageUrl categories source publishedAt
    createdAt author")] with the author populated. *)
Record public_view := mkPublic {
  pv_id : ObjectId.t;
  pv_title : string;
  pv_summary : string;
  pv_content : string;
  pv_imageUrl : string;
  pv_categories : list string;
  pv_source : string;
  pv_publishedAt : option Z;
  pv_createdAt : Z;
  pv_author : option author_view
}.

Record editor_view := mkEditorView {
  ev_id : ObjectId.t;
  ev_name : string;
  ev_email : string;
  ev_role : string;
  ev_createdAt : option Z
}.

(** The payload of a token: [{ id, email, role }] (config/auth.js). *)
Record claims := mkClaims {
  id : string;
  email : string;
  role : string
}.

(** A signed token: the payload, when it was issued and when it expires
    (seconds), and the secret it was signed with. *)
Record token := mkToken {
  tok_claims : claims;
  tok_iat : Z;
  tok_exp : Z;
  tok_key : string
}.

(** ** The list routes of the editor and of the admin *)

Module Lists.

(** What a list route answers: an error message or the documents. *)
Inductive listing (A : Type) :=
| Failed (message : string)
| Listed (items : list A).

Arguments Failed {A} message.
Arguments Listed {A} items.

(** [sort({ field: -1 })]: the greatest value of the field first. *)
Fixpoint insert_desc {A : Type} (field : A -> Z) (x : A) (l : list A) : list A :=
  match l with
  | [] => [x]
  | y :: r =>
      if (field y <=? field x)%Z then x :: l else y :: insert_desc field x r
  end.

Definition sort_desc {A : Type} (field : A -> Z) (l : list A) : list A :=
  fold_right (insert_desc field) [] l.

(** [query.limit(parseInt(limit, 10))]: [count] is what the driver makes
    of the text of the limit: the query fails, every document is
    returned, or the first [n] are. *)
Definition limited {A : Type} (count : string -> result (option nat))
  (limit : option string) (l : list A) : result (list A) :=
  match limit with
  | Some s =>
      if JS.truthy s
      then match count s with
           | Ok (Some n) => Ok (firstn n l)
           | Ok None => Ok l
           | Throw x => Throw x
           end
      else Ok l
  | None => Ok l
  end.

Definition answer {A : Type} (r : result (list A)) : nat * listing A :=
  match r with
  | Ok items => (200, Listed items)
  | Throw _ => (500, Failed "Server error")
  end.

(** GET /api/editor/articles *)
Definition editorArticles (count : string -> result (option nat))
  (user : claims) (status limit : option string) (d : db)
  : nat * listing (N * Article.doc) :=
  answer
    (let* author := Mongoose.castObjectId (id user) in
     let filter (_ : N) (a : Article.doc) :=
       N.eqb (Article.author a) author
       && match status with
          | Some s =>
              if JS.truthy s then String.eqb (Article.status a) s else true
          | None => true
          end in
     let query :=
       sort_desc (fun kv => Article.updatedAt (snd kv))
         (Mongoose.find filter (articles d)) in
     limited count limit query).

(** GET /api/admin/editors, with
    [select("name email role createdAt updatedAt")] *)
Record listed_editor := mkListed {
  le_id : ObjectId.t;
  le_name : string;
  le_email : string;
  le_role : string;
  le_createdAt : Z;
  le_updatedAt : Z
}.

Definition select (kv : N * Editor.doc) : listed_editor :=
  let x := snd kv in
  mkListed (fst kv) (Editor.name x) (Editor.email x) (Editor.role x)
    (Editor.createdAt x) (Editor.updatedAt x).

Definition adminEditors (count : string -> result (option nat))
  (limit : option string) (d : db) : nat * listing listed_editor :=
  answer
    (let query :=
       sort_desc (fun kv => Editor.createdAt (snd kv))
         (Mongoose.find (fun _ _ => true) (editors d)) in
     let* found := limited count limit query in
     Ok (List.map select found)).

End Lists.

(** ** The bodies of the responses *)

Inductive body :=
| Message (message : string)
| MessageArticle (message : string) (_id : ObjectId.t) (article : Article.doc)
| OneArticle (_id : ObjectId.t) (article : Article.doc)
| OnePopulated (_id : ObjectId.t) (article : Article.doc)
    (author : option author_view)
| PublicArticles (articles : list public_view)
| MessageEditor (message : string) (editor : editor_view)
| OneEditor (editor : editor_view)
| PasswordReset (message : string) (email : string) (newPassword : string)
| AdminOverview (totalEditors totalArticles publishedArticles draftArticles
    pendingReviews : nat)
| EditorOverview (totalArticles drafts published inReview : nat)
| LoggedIn (t : token) (user : editor_view)
| EditorArticles (items : list (ObjectId.t * Article.doc))
| Editors (items : list Lists.listed_editor)
| AdminArticles (items : list (ObjectId.t * Article.doc * option author_view))
    (total : nat) (page limit : JS.number)
| Sent (text : string).

Record response := mkResponse {
  code : nat;
  payload : body
}.

Definition json (c : nat) (b : body) : response := mkResponse c b.

(** The [catch] of every handler: the error is logged, the client gets
    500, and nothing was written. *)
Definition catch500 (d : db) (r : result (response * db)) : response * db :=
  match r with
  | Ok x => x
  | Throw _ => (json 500 (Message "Server error"), d)
  end.

(** ** config/auth.js and middleware/auth.js *)

Module Auth.

(** ["7d"], in seconds *)
Definition JWT_EXPIRES_IN : Z := 604800.

(** [jwt.sign(payload, secret, { expiresIn })] at time [now] *)
Definition jwt_sign (p : claims) (secret : string) (expiresIn : Z) (now : Z)
  : token :=
  mkToken p (now / 1000) (now / 1000 + expiresIn) secret.

(** [jwt.verify(token, secret)] at time [now]: the payload, or [None]
    where the library throws (wrong signature, expired). *)
Definition jwt_verify (t : token) (secret : string) (now : Z) : option claims :=
  if String.eqb (tok_key t) secret && (now / 1000 <? tok_exp t)%Z
  then Some (tok_claims t)
  else None.

Definition generateToken (e : env) (uid : ObjectId.t) (user : Editor.doc)
  : token :=
  jwt_sign (mkClaims (ObjectId.toString uid) (Editor.email user)
              (Editor.role user))
           (JWT_SECRET e) JWT_EXPIRES_IN (now e).

(** Reading a property of the verified payload [req.user] by name; a
    property the payload does not have reads as [undefined]. *)
Definition prop (u : claims) (name : string) : option string :=
  if String.eqb name "id" then Some (id u)
  else if String.eqb name "email" then Some (email u)
  else if String.eqb name "role" then Some (role u)
  else None.

(** [String(v)] on a string or [undefined] *)
Definition String_of (v : option string) : string :=
  match v with
  | Some s => s
  | None => "undefined"
  end.

(** The Authorization header: absent, carrying a token, or carrying
    something [jwt.verify] cannot read. *)
Inductive authorization :=
| NoHeader
| Bearer (t : token)
| Unreadable.

Definition authMiddleware (e : env) (header : authorization)
  (next : claims -> db -> response * db) (d : db) : response * db :=
  match header with
  | NoHeader => (json 401 (Message "No token"), d)
  | Unreadable => (json 401 (Message "Invalid token"), d)
  | Bearer t =>
      match jwt_verify t (JWT_SECRET e) (now e) with
      | Some user => next user d
      | None => (json 401 (Message "Invalid token"), d)
      end
  end.

(** [adminOnly]: exported by the middleware, mounted on no route. *)
Definition adminOnly (user : claims) (next : db -> response * db) (d : db)
  : response * db :=
  if negb (String.eqb (role user) "admin")
  then (json 403 (Message "Admin only"), d)
  else next d.

End Auth.

(** ** routes/editorRoutes.js *)

(** [v || dflt] on a possibly [undefined] string *)
Definition or_else (v : option string) (dflt : string) : string :=
  match v with
  | Some s => if JS.truthy s then s else dflt
  | None => dflt
  end.

Definition is_set {A : Type} (o : option A) : bool :=
  match o with Some _ => true | None => false end.

(** [if (v !== undefined) a.path = v] *)
Definition assign {A D : Type} (v : option A) (set : A -> D -> D) (a : D) : D :=
  match v with
  | Some x => set x a
  | None => a
  end.

(** [if (v) a.path = v] *)
Definition assign_truthy {D : Type} (v : option string)
  (set : string -> D -> D) (a : D) : D :=
  match v with
  | Some x => if JS.truthy x then set x a else a
  | None => a
  end.

Record article_body := mkArticleBody {
  b_title : option string;
  b_summary : option string;
  b_content : option string;
  b_categories : cat_input;
  b_imageUrl : option string;
  b_source : option string;
  b_status : option string
}.

Record profile_body := mkProfileBody {
  p_name : option string;
  p_email : option string;
  p_password : option string;
  p_role : option string
}.

Record password_body := mkPasswordBody {
  currentPassword : option string;
  newPassword : option string
}.

Definition view_of (k : ObjectId.t) (e : Editor.doc) (created : bool)
  : editor_view :=
  mkEditorView k (Editor.name e) (Editor.email e) (Editor.role e)
    (if created then Some (Editor.createdAt e) else None).

(** The block both PUT /api/editor/me and PUT /api/admin/editors/:id
    run on the [email] of the body:
    [if (email && email !== editor.email) { existing = findOne({ email,
    _id: { $ne: editor._id } }); if (existing) return 400;
    editor.email = email }]. [None] is the early return. The filter of
    the query is cast with the schema's [trim]. *)
Definition changeEmail (k : ObjectId.t) (v : option string)
  (loaded : Editor.doc) (m : gmap N Editor.doc) : option Editor.doc :=
  match v with
  | Some em =>
      if JS.truthy em && negb (String.eqb em (Editor.email loaded))
      then match Mongoose.findOne
                   (fun k' x => String.eqb (Editor.email x) (JS.trim em)
                                && negb (N.eqb k' k)) m with
           | Some _ => None
           | None => Some (Editor.set_email em loaded)
           end
      else Some loaded
  | None => Some loaded
  end.

Module EditorRoutes.

(** POST /api/editor/articles *)
Definition createArticle (e : env) (user : claims) (b : article_body) (d : db)
  : response * db :=
  catch500 d
    (match b_title b, b_content b with
     | Some title, Some content =>
         if negb (JS.truthy title) || negb (JS.truthy content)
         then Ok (json 400 (Message "Title and content are required"), d)
         else
           let cats := normalizeCategories (b_categories b) in
           let* author := Mongoose.castObjectId (id user) in
           let a :=
             Article.mk (JS.trim title)
               (JS.trim (or_else (b_summary b) ""))
               content
               (List.map Article.set_category cats)
               (JS.trim (or_else (b_imageUrl b) ""))
               (JS.trim (or_else (b_source b) ""))
               (or_else (b_status b) "draft")
               author
               (match b_status b with
                | Some st => if String.eqb st "published" then Some (now e) else None
                | None => None
                end)
               0 0 in
           let* (article, d') := Mongoose.createArticle (now e) (freshId e) a d in
           Ok (json 201 (MessageArticle "Article created successfully"
                           (freshId e) article), d')
     | _, _ => Ok (json 400 (Message "Title and content are required"), d)
     end).

(** The first part of PUT /articles/:id: the assignments of the fields
    other than the status. *)
Definition assign_fields (b : article_body) (a : Article.doc) : Article.doc :=
  let a := assign (b_title b) Article.set_title a in
  let a := assign (b_summary b) Article.set_summary a in
  let a := assign (b_content b) Article.set_content a in
  let a := assign (b_imageUrl b) Article.set_imageUrl a in
  let a := assign (b_source b) Article.set_source a in
  match b_categories b with
  | CatUndefined => a
  | categories => Article.set_categories (normalizeCategories categories) a
  end.

(** PUT /api/editor/articles/:id *)
Definition updateArticle (e : env) (user : claims) (param_id : string)
  (b : article_body) (d : db) : response * db :=
  catch500 d
    (let* k := Mongoose.castObjectId param_id in
     let* uid := Mongoose.castObjectId (id user) in
     match Mongoose.findOneWithId k
             (fun a => N.eqb (Article.author a) uid) (articles d) with
     | None => Ok (json 404 (Message "Article not found"), d)
     | Some loaded =>
         let a := assign_fields b loaded in
         match b_status b with
         | Some status =>
             if negb (JS.includes Article.STATUSES status)
             then Ok (json 400 (Message "Invalid status value"), d)
             else
               let a := Article.set_status status a in
               let a :=
                 if String.eqb status "published"
                    && negb (is_set (Article.publishedAt a))
                 then Article.set_publishedAt (Some (now e)) a
                 else a in
               let* (article, d') := Mongoose.saveArticle (now e) k loaded a d in
               Ok (json 200 (MessageArticle "Article updated successfully"
                               k article), d')
         | None =>
             let* (article, d') := Mongoose.saveArticle (now e) k loaded a d in
             Ok (json 200 (MessageArticle "Article updated successfully"
                             k article), d')
         end
     end).

(** GET /api/editor/articles/:id *)
Definition getArticle (user : claims) (param_id : string) (d : db)
  : response * db :=
  catch500 d
    (let* k := Mongoose.castObjectId param_id in
     let* uid := Mongoose.castObjectId (id user) in
     match Mongoose.findOneWithId k
             (fun a => N.eqb (Article.author a) uid) (articles d) with
     | None => Ok (json 404 (Message "Article not found"), d)
     | Some article => Ok (json 200 (OneArticle k article), d)
     end).

(** GET /api/editor/overview *)
Definition overview (user : claims) (d : db) : response * db :=
  catch500 d
    (let* author := Mongoose.castObjectId (id user) in
     let own (a : Article.doc) := N.eqb (Article.author a) author in
     let total := Mongoose.countDocuments (fun _ a => own a) (articles d) in
     let drafts :=
       Mongoose.countDocuments
         (fun _ a => own a && String.eqb (Article.status a) "draft")
         (articles d) in
     let published :=
       Mongoose.countDocuments
         (fun _ a => own a && String.eqb (Article.status a) "published")
         (articles d) in
     let inReview :=
       Mongoose.countDocuments
         (fun _ a => own a && String.eqb (Article.status a) "in_review")
         (articles d) in
     Ok (json 200 (EditorOverview total drafts published inReview), d)).

(** GET /api/editor/me *)
Definition getMe (user : claims) (d : db) : response * db :=
  catch500 d
    (let* k := Mongoose.castObjectId (id user) in
     match Mongoose.findById k (editors d) with
     | None => Ok (json 404 (Message "Editor not found"), d)
     | Some editor => Ok (json 200 (OneEditor (view_of k editor true)), d)
     end).

(** PUT /api/editor/me *)
Definition updateMe (e : env) (user : claims) (b : profile_body) (d : db)
  : response * db :=
  catch500 d
    (let* k := Mongoose.castObjectId (id user) in
     match Mongoose.findById k (editors d) with
     | None => Ok (json 404 (Message "Editor not found"), d)
     | Some loaded =>
         match changeEmail k (p_email b) loaded (editors d) with
         | None =>
             Ok (json 400 (Message "Email is already in use by another user"), d)
         | Some ed =>
             let ed := assign_truthy (p_name b) Editor.set_name ed in
             let* (editor, d') := Mongoose.saveEditor (now e) k loaded ed d in
             Ok (json 200 (MessageEditor "Profile updated successfully"
                             (view_of k editor false)), d')
         end
     end).

(** PUT /api/editor/change-password *)
Definition changePassword (e : env) (user : claims) (b : password_body)
  (d : db) : response * db :=
  catch500 d
    (match currentPassword b, newPassword b with
     | Some current, Some new =>
         if negb (JS.truthy current) || negb (JS.truthy new)
         then Ok (json 400 (Message "Current and new password are required"), d)
         else
           let* k := Mongoose.castObjectId (id user) in
           match Mongoose.findById k (editors d) with
           | None => Ok (json 404 (Message "Editor not found"), d)
           | Some loaded =>
               if negb (comparePassword e current (Editor.password loaded))
               then Ok (json 400 (Message "Current password is incorrect"), d)
               else
                 let ed := Editor.set_password (hashPassword e new) loaded in
                 let* (_, d') := Mongoose.saveEditor (now e) k loaded ed d in
                 Ok (json 200 (Message "Password updated successfully"), d')
           end
     | _, _ =>
         Ok (json 400 (Message "Current and new password are required"), d)
     end).

(** GET /api/editor/articles: the list of [Lists.editorArticles] as the
    response [{ articles }]. *)
Definition listArticles (e : env) (user : claims) (status limit : option string)
  (d : db) : response * db :=
  match Lists.editorArticles (limit_of e) user status limit d with
  | (c, Lists.Listed items) => (json c (EditorArticles items), d)
  | (c, Lists.Failed message) => (json c (Message message), d)
  end.

End EditorRoutes.

(** ** routes/adminRoutes.js *)

Module AdminRoutes.

Definition requireAdmin (user : claims) (next : db -> response * db) (d : db)
  : response * db :=
  if negb (String.eqb (role user) "admin")
  then (json 403 (Message "Admin access only"), d)
  else next d.

(** POST /api/admin/editors *)
Definition createEditor (e : env) (b : profile_body) (d : db) : response * db :=
  catch500 d
    (match p_name b, p_email b, p_password b with
     | Some name, Some email, Some password =>
         if negb (JS.truthy name) || negb (JS.truthy email)
            || negb (JS.truthy password)
         then Ok (json 400 (Message "Name, email and password are required"), d)
         else
           match Mongoose.findOne
                   (fun _ x => String.eqb (Editor.email x) (JS.trim email))
                   (editors d) with
           | Some _ => Ok (json 400 (Message "Email already in use"), d)
           | None =>
               let hashed := hashPassword e password in
               let ed := Editor.mk (JS.trim name) (JS.trim email) hashed
                           "user" 0 0 in
               let* (editor, d') :=
                 Mongoose.createEditor (now e) (freshId e) ed d in
               Ok (json 201 (MessageEditor "Editor created successfully"
                               (view_of (freshId e) editor true)), d')
           end
     | _, _, _ =>
         Ok (json 400 (Message "Name, email and password are required"), d)
     end).

(** PUT /api/admin/editors/:id *)
Definition updateEditor (e : env) (param_id : string) (b : profile_body)
  (d : db) : response * db :=
  catch500 d
    (let* k := Mongoose.castObjectId param_id in
     match Mongoose.findById k (editors d) with
     | None => Ok (json 404 (Message "Editor not found"), d)
     | Some loaded =>
         match changeEmail k (p_email b) loaded (editors d) with
         | None =>
             Ok (json 400 (Message "Email is already used by another user"), d)
         | Some ed =>
             let ed := assign_truthy (p_name b) Editor.set_name ed in
             let ed := assign_truthy (p_role b) Editor.set_role ed in
             let* (editor, d') := Mongoose.saveEditor (now e) k loaded ed d in
             Ok (json 200 (MessageEditor "Editor updated successfully"
                             (view_of k editor false)), d')
         end
     end).

(** PUT /api/admin/editors/:id/reset-password *)
Definition resetPassword (e : env) (param_id : string) (d : db)
  : response * db :=
  catch500 d
    (let* k := Mongoose.castObjectId param_id in
     match Mongoose.findById k (editors d) with
     | None => Ok (json 404 (Message "Editor not found"), d)
     | Some loaded =>
         let newPassword := randomPassword e in
         let ed := Editor.set_password (hashPassword e newPassword) loaded in
         let* (editor, d') := Mongoose.saveEditor (now e) k loaded ed d in
         Ok (json 200 (PasswordReset "Password reset successfully"
                         (Editor.email editor) newPassword), d')
     end).

(** DELETE /api/admin/editors/:id *)
Definition deleteEditor (user : claims) (param_id : string) (d : db)
  : response * db :=
  catch500 d
    (let editorId := param_id in
     if String.eqb (Auth.String_of (Auth.prop user "_id")) editorId
     then Ok (json 400 (Message "You cannot delete your own admin account"), d)
     else
       let* k := Mongoose.castObjectId editorId in
       match Mongoose.findById k (editors d) with
       | None => Ok (json 404 (Message "Editor not found"), d)
       | Some _ =>
           Ok (json 200 (Message "Editor deleted successfully"),
               with_editors (delete k (editors d)) d)
       end).

(** GET /api/admin/overview *)
Definition overview (d : db) : response * db :=
  catch500 d
    (let totalEditors :=
       Mongoose.countDocuments
         (fun _ x => negb (String.eqb (Editor.role x) "admin")) (editors d) in
     let totalArticles :=
       Mongoose.countDocuments (fun _ _ => true) (articles d) in
     let publishedArticles :=
       Mongoose.countDocuments
         (fun _ a => String.eqb (Article.status a) "published") (articles d) in
     let draftArticles :=
       Mongoose.countDocuments
         (fun _ a => String.eqb (Article.status a) "draft") (articles d) in
     let pendingReviews :=
       Mongoose.countDocuments
         (fun _ a => String.eqb (Article.status a) "in_review") (articles d) in
     Ok (json 200 (AdminOverview totalEditors totalArticles publishedArticles
                     draftArticles pendingReviews), d)).

Definition populate_name_email (a : Article.doc) (d : db) : option author_view :=
  match editors d !! Article.author a with
  | Some ed => Some (mkAuthor (Article.author a) (Editor.name ed)
                       (Some (Editor.email ed)))
  | None => None
  end.

(** GET /api/admin/articles/:id *)
Definition getArticle (param_id : string) (d : db) : response * db :=
  catch500 d
    (if negb (ObjectId.isValid param_id)
     then Ok (json 404 (Message "Article not found"), d)
     else
       let* k := Mongoose.castObjectId param_id in
       match Mongoose.findById k (articles d) with
       | None => Ok (json 404 (Message "Article not found"), d)
       | Some article =>
           Ok (json 200 (OnePopulated k article
                           (populate_name_email article d)), d)
       end).

(** PUT /api/admin/articles/:id/status *)
Definition setStatus (e : env) (param_id : string) (status : option string)
  (d : db) : response * db :=
  catch500 d
    (match status with
     | None => Ok (json 400 (Message "Invalid status value supplied"), d)
     | Some status =>
         if negb (JS.includes Article.STATUSES status)
         then Ok (json 400 (Message "Invalid status value supplied"), d)
         else if negb (ObjectId.isValid param_id)
         then Ok (json 404 (Message "Article not found"), d)
         else
           let* k := Mongoose.castObjectId param_id in
           match Mongoose.findById k (articles d) with
           | None => Ok (json 404 (Message "Article not found"), d)
           | Some loaded =>
               let a := Article.set_status status loaded in
               let a :=
                 if String.eqb status "published"
                 then Article.set_publishedAt (Some (now e)) a
                 else a in
               let* (article, d') := Mongoose.saveArticle (now e) k loaded a d in
               Ok (json 200 (MessageArticle "Article status updated"
                               k article), d')
           end
     end).

(** GET /api/admin/editors: the list of [Lists.adminEditors] as the
    response [{ editors }]. *)
Definition listEditors (e : env) (limit : option string) (d : db)
  : response * db :=
  match Lists.adminEditors (limit_of e) limit d with
  | (c, Lists.Listed items) => (json c (Editors items), d)
  | (c, Lists.Failed message) => (json c (Message message), d)
  end.

(** GET /api/admin/articles *)
Definition listArticles (e : env) (status page limit : option string) (d : db)
  : response * db :=
  catch500 d
    (let query (_ : N) (a : Article.doc) :=
       match status with
       | Some s => if JS.truthy s then String.eqb (Article.status a) s else true
       | None => true
       end in
     let* (skip, limited) :=
       skip_limit e (JS.number_of 1 page) (JS.number_of 20 limit) in
     let sorted :=
       Lists.sort_desc (fun kv => Article.updatedAt (snd kv))
         (Mongoose.find query (articles d)) in
     let skipped := List.skipn skip sorted in
     let found :=
       match limited with
       | Some n => List.firstn n skipped
       | None => skipped
       end in
     let total := Mongoose.countDocuments query (articles d) in
     Ok (json 200
           (AdminArticles
              (List.map
                 (fun kv => (fst kv, snd kv, populate_name_email (snd kv) d))
                 found)
              total (JS.number_of 1 page) (JS.number_of 20 limit)),
         d)).

End AdminRoutes.

(** ** routes/publicRoutes.js *)

Module PublicRoutes.

Definition populate_name (a : Article.doc) (d : db) : option author_view :=
  match editors d !! Article.author a with
  | Some ed => Some (mkAuthor (Article.author a) (Editor.name ed) None)
  | None => None
  end.

(** [sort({ publishedAt: -1, createdAt: -1 })]: a missing [publishedAt]
    is the least value, so it comes last. *)
Definition sorts_before (x y : N * Article.doc) : bool :=
  match Article.publishedAt (snd x), Article.publishedAt (snd y) with
  | Some p, Some q =>
      (q <? p)%Z
      || ((q =? p)%Z && (Article.createdAt (snd y) <=? Article.createdAt (snd x))%Z)
  | Some _, None => true
  | None, Some _ => false
  | None, None => (Article.createdAt (snd y) <=? Article.createdAt (snd x))%Z
  end.

Fixpoint insert_sorted (x : N * Article.doc) (l : list (N * Article.doc))
  : list (N * Article.doc) :=
  match l with
  | [] => [x]
  | y :: r => if sorts_before x y then x :: l else y :: insert_sorted x r
  end.

Definition sort (l : list (N * Article.doc)) : list (N * Article.doc) :=
  fold_right insert_sorted [] l.

Definition select (d : db) (kv : N * Article.doc) : public_view :=
  let a := snd kv in
  mkPublic (fst kv) (Article.title a) (Article.summary a) (Article.content a)
    (Article.imageUrl a) (Article.categories a) (Article.source a)
    (Article.publishedAt a) (Article.createdAt a) (populate_name a d).

(** The optional conditions of the filter: the compiled expressions, or
    the SyntaxError of [new RegExp]. *)
Definition compile (e : env) (v : option string) (pattern : string -> string)
  : result (option (string -> bool)) :=
  match v with
  | Some s =>
      if JS.truthy s
      then match RegExp_i e (pattern s) with
           | Some test => Ok (Some test)
           | None => Throw SyntaxError
           end
      else Ok None
  | None => Ok None
  end.

Definition matches (filter : option (string -> bool)) (holds : (string -> bool) -> bool)
  : bool :=
  match filter with
  | Some test => holds test
  | None => true
  end.

(** GET /api/public/articles *)
Definition listArticles (e : env) (category search : option string) (d : db)
  : response * db :=
  catch500 d
    (let* catRegex := compile e category (fun c => String.append "^" (String.append c "$")) in
     let* searchRegex := compile e search (fun s => s) in
     let filter (_ : N) (a : Article.doc) :=
       String.eqb (Article.status a) "published"
       && matches catRegex (fun test => existsb test (Article.categories a))
       && matches searchRegex (fun test => test (Article.title a)) in
     let found := sort (Mongoose.find filter (articles d)) in
     Ok (json 200 (PublicArticles (List.map (select d) found)), d)).

(** GET /api/public/articles/:id *)
Definition getArticle (param_id : string) (d : db) : response * db :=
  catch500 d
    (let* k := Mongoose.castObjectId param_id in
     match Mongoose.findOneWithId k
             (fun a => String.eqb (Article.status a) "published")
             (articles d) with
     | None => Ok (json 404 (Message "Article not found"), d)
     | Some article =>
         Ok (json 200 (OnePopulated k article (populate_name article d)), d)
     end).

End PublicRoutes.

(** ** routes/authRoutes.js *)

Module AuthRoutes.

(** POST /api/auth/login *)
Definition login (e : env) (b : profile_body) (d : db) : response * db :=
  catch500 d
    (match p_email b with
     | None => Throw TypeError
     | Some email =>
         match Mongoose.findOne
                 (fun _ x => String.eqb (Editor.email x)
                               (JS.trim (JS.toLowerCase email)))
                 (editors d) with
         | None => Ok (json 401 (Message "Invalid credentials"), d)
         | Some (k, user) =>
             match p_password b with
             | None => Throw TypeError
             | Some password =>
                 if negb (comparePassword e password (Editor.password user))
                 then Ok (json 401 (Message "Invalid credentials"), d)
                 else
                   let token := Auth.generateToken e k user in
                   Ok (json 200 (LoggedIn token (view_of k user false)), d)
             end
         end
     end).

End AuthRoutes.

(** ** index.js *)

Module Index.

(** [createInitialAdmin]: one admin is created when the collection has
    none; a failure is logged and changes nothing. *)
Definition createInitialAdmin (e : env) (d : db) : db :=
  match Mongoose.findOne (fun _ x => String.eqb (Editor.role x) "admin")
          (editors d) with
  | Some _ => d
  | None =>
      let password := "Admin@123" in
      let hashed := hashPassword e password in
      match Mongoose.createEditor (now e) (freshId e)
              (Editor.mk "Super Admin" "admin@newsone.live" hashed "admin" 0 0)
              d with
      | Ok (_, d') => d'
      | Throw _ => d
      end
  end.

(** The second half of [createInitialAdmin], from [hashPassword] on. *)
Definition createAdmin (e : env) (d : db) : db :=
  match Mongoose.createEditor (now e) (freshId e)
          (Editor.mk "Super Admin" "admin@newsone.live"
             (hashPassword e "Admin@123") "admin" 0 0)
          d with
  | Ok (_, d') => d'
  | Throw _ => d
  end.

(** The routes of the application, each with what its handler reads
    of the request: the twenty routes of the four routers, seventeen of
    them behind [authMiddleware], and the route "/" of index.js. *)
Inductive request :=
| GET_root
| POST_admin_editors (auth : Auth.authorization) (b : profile_body)
| GET_admin_editors (auth : Auth.authorization) (limit : option string)
| GET_admin_articles (auth : Auth.authorization)
    (status page limit : option string)
| GET_editor_articles (auth : Auth.authorization)
    (status limit : option string)
| PUT_admin_editor (auth : Auth.authorization) (param_id : string)
    (b : profile_body)
| PUT_admin_reset_password (auth : Auth.authorization) (param_id : string)
| DELETE_admin_editor (auth : Auth.authorization) (param_id : string)
| GET_admin_overview (auth : Auth.authorization)
| GET_admin_article (auth : Auth.authorization) (param_id : string)
| PUT_admin_article_status (auth : Auth.authorization) (param_id : string)
    (status : option string)
| POST_editor_articles (auth : Auth.authorization) (b : article_body)
| PUT_editor_article (auth : Auth.authorization) (param_id : string)
    (b : article_body)
| GET_editor_article (auth : Auth.authorization) (param_id : string)
| GET_editor_overview (auth : Auth.authorization)
| GET_editor_me (auth : Auth.authorization)
| PUT_editor_me (auth : Auth.authorization) (b : profile_body)
| PUT_editor_change_password (auth : Auth.authorization) (b : password_body)
| GET_public_articles (category search : option string)
| GET_public_article (param_id : string)
| POST_auth_login (b : profile_body).

Definition admin (e : env) (auth : Auth.authorization)
  (h : claims -> db -> response * db) (d : db) : response * db :=
  Auth.authMiddleware e auth
    (fun user => AdminRoutes.requireAdmin user (h user)) d.

(** The routes as lines 97 to 106 mount them: what a request does once
    the first middleware has called [next()], each route behind the
    middleware of its own. The seed that the first middleware starts is
    not part of it: [app] below puts the two together. *)
Definition handle (e : env) (r : request) (d : db) : response * db :=
  match r with
  | GET_root => (mkResponse 200 (Sent "API is running..."), d)
  | POST_admin_editors auth b =>
      admin e auth (fun _ => AdminRoutes.createEditor e b) d
  | GET_admin_editors auth limit =>
      admin e auth (fun _ => AdminRoutes.listEditors e limit) d
  | GET_admin_articles auth status page limit =>
      admin e auth (fun _ => AdminRoutes.listArticles e status page limit) d
  | GET_editor_articles auth status limit =>
      Auth.authMiddleware e auth
        (fun user => EditorRoutes.listArticles e user status limit) d
  | PUT_admin_editor auth i b =>
      admin e auth (fun _ => AdminRoutes.updateEditor e i b) d
  | PUT_admin_reset_password auth i =>
      admin e auth (fun _ => AdminRoutes.resetPassword e i) d
  | DELETE_admin_editor auth i =>
      admin e auth (fun user => AdminRoutes.deleteEditor user i) d
  | GET_admin_overview auth =>
      admin e auth (fun _ => AdminRoutes.overview) d
  | GET_admin_article auth i =>
      admin e auth (fun _ => AdminRoutes.getArticle i) d
  | PUT_admin_article_status auth i status =>
      admin e auth (fun _ => AdminRoutes.setStatus e i status) d
  | POST_editor_articles auth b =>
      Auth.authMiddleware e auth (fun user => EditorRoutes.createArticle e user b) d
  | PUT_editor_article auth i b =>
      Auth.authMiddleware e auth
        (fun user => EditorRoutes.updateArticle e user i b) d
  | GET_editor_article auth i =>
      Auth.authMiddleware e auth (fun user => EditorRoutes.getArticle user i) d
  | GET_editor_overview auth =>
      Auth.authMiddleware e auth (fun user => EditorRoutes.overview user) d
  | GET_editor_me auth =>
      Auth.authMiddleware e auth (fun user => EditorRoutes.getMe user) d
  | PUT_editor_me auth b =>
      Auth.authMiddleware e auth (fun user => EditorRoutes.updateMe e user b) d
  | PUT_editor_change_password auth b =>
      Auth.authMiddleware e auth
        (fun user => EditorRoutes.changePassword e user b) d
  | GET_public_articles category search =>
      PublicRoutes.listArticles e category search d
  | GET_public_article i => PublicRoutes.getArticle i d
  | POST_auth_login b => AuthRoutes.login e b d
  end.

(** The first middleware (lines 59 to 64) calls [connectToMongoDB()]
    without awaiting it and then [next()]; [isConnected] is never set,
    so it does so on every request. [connectToMongoDB] connects and then
    calls [createInitialAdmin]: the seed runs beside the route, and its
    query for an admin and its [create] fall, each, before or after what
    the route does to the database. The operations of the route are
    taken together, the database is taken to be reachable, and a seed
    that was started is taken to finish. *)
Inductive schedule :=
| seed_first     (* the query and the [create], then the route *)
| seed_around    (* the query, then the route, then the [create] *)
| seed_last.     (* the route, then the query and the [create] *)

(** The first middleware with a seed scheduled as [s]; [es] is what the
    seed gets from outside (the time, the [_id] of its document, the
    hash) and [next] what the rest of the application does. *)
Definition first_middleware (s : schedule) (es : env)
  (next : db -> response * db) (d : db) : response * db :=
  match s with
  | seed_first => next (createInitialAdmin es d)
  | seed_around =>
      let existingAdmin :=
        Mongoose.findOne (fun _ x => String.eqb (Editor.role x) "admin")
          (editors d) in
      let (res, d') := next d in
      (res, match existingAdmin with
            | Some _ => d'
            | None => createAdmin es d'
            end)
  | seed_last =>
      let (res, d') := next d in
      (res, createInitialAdmin es d')
  end.

(** One request to the application: the first middleware, then the
    routers. *)
Definition app (s : schedule) (es e : env) (r : request) (d : db)
  : response * db :=
  first_middleware s es (handle e r) d.

End Index.

(** ** Derived notions the properties are stated with *)

(** The document PUT /articles/:id hands to [save] once the status is
    accepted. *)
Definition staged (e : env) (b : article_body) (a : Article.doc) : Article.doc :=
  let x := EditorRoutes.assign_fields b a in
  match b_status b with
  | Some status =>
      let x := Article.set_status status x in
      if String.eqb status "published" && negb (is_set (Article.publishedAt x))
      then Article.set_publishedAt (Some (now e)) x
      else x
  | None => x
  end.

(** No account is an admin in [d'] that was not one in [d]. *)
Definition no_new_admin (d d' : db) : Prop :=
  forall (k : ObjectId.t) (account' : Editor.doc),
    editors d' !! k = Some account' ->
    Editor.role account' = "admin" ->
    exists account, editors d !! k = Some account
                    /\ Editor.role account = "admin".

(** The database that the seed's query for an admin reads. *)
Definition seed_reads (s : Index.schedule) (e : env) (r : Index.request)
  (d : db) : db :=
  match s with
  | Index.seed_last => snd (Index.handle e r d)
  | _ => d
  end.

(** What one request does to the database: nothing, one article put, one
    account put, or one account removed. A document is put only when it
    satisfies its schema, and an account only with the email it had or
    with one no other account holds. *)
Inductive writes (d : db) : db -> Prop :=
| writes_nothing : writes d d
| writes_article (k : ObjectId.t) (a : Article.doc) :
    Article.validate a = true ->
    writes d (with_articles (<[k := a]> (articles d)) d)
| writes_editor (k : ObjectId.t) (x : Editor.doc) :
    Editor.validate x = true ->
    ((exists old, editors d !! k = Some old
                  /\ Editor.email old = Editor.email x)
     \/ (forall k' x', editors d !! k' = Some x' -> k' <> k ->
                       Editor.email x' <> Editor.email x)) ->
    writes d (with_editors (<[k := x]> (editors d)) d)
| writes_removal (k : ObjectId.t) :
    writes d (with_editors (delete k (editors d)) d).

(** Every stored document satisfies its schema. *)
Definition db_valid (d : db) : Prop :=
  (forall k a, articles d !! k = Some a -> Article.validate a = true)
  /\ (forall k x, editors d !! k = Some x -> Editor.validate x = true).

(** No two accounts hold the same email. *)
Definition emails_unique (d : db) : Prop :=
  forall k1 k2 x1 x2,
    editors d !! k1 = Some x1 -> editors d !! k2 = Some x2 ->
    Editor.email x1 = Editor.email x2 -> k1 = k2.

(** Every stored article satisfies [Q]. *)
Definition articles_all (Q : Article.doc -> Prop) (d : db) : Prop :=
  forall k a, articles d !! k = Some a -> Q a.

(** An article has at least one category. *)
Definition has_category (a : Article.doc) : Prop := Article.categories a <> [].

(** A published article carries the time of its publication. *)
Definition stamped (a : Article.doc) : Prop :=
  Article.status a = "published" -> Article.publishedAt a <> None.

(** The Authorization header of a request to a route behind
    [authMiddleware]; [None] for the routes mounted without it. *)
Definition authorization_of (r : Index.request) : option Auth.authorization :=
  match r with
  | Index.POST_admin_editors auth _
  | Index.GET_admin_editors auth _
  | Index.GET_admin_articles auth _ _ _
  | Index.GET_editor_articles auth _ _
  | Index.PUT_admin_editor auth _ _
  | Index.PUT_admin_reset_password auth _
  | Index.DELETE_admin_editor auth _
  | Index.GET_admin_overview auth
  | Index.GET_admin_article auth _
  | Index.PUT_admin_article_status auth _ _
  | Index.POST_editor_articles auth _
  | Index.PUT_editor_article auth _ _
  | Index.GET_editor_article auth _
  | Index.GET_editor_overview auth
  | Index.GET_editor_me auth
  | Index.PUT_editor_me auth _
  | Index.PUT_editor_change_password auth _ => Some auth
  | Index.GET_root
  | Index.GET_public_articles _ _
  | Index.GET_public_article _
  | Index.POST_auth_login _ => None
  end.

(** The routes of routes/adminRoutes.js, all behind [requireAdmin]. *)
Definition admin_route (r : Index.request) : bool :=
  match r with
  | Index.POST_admin_editors _ _
  | Index.GET_admin_editors _ _
  | Index.GET_admin_articles _ _ _ _
  | Index.PUT_admin_editor _ _ _
  | Index.PUT_admin_reset_password _ _
  | Index.DELETE_admin_editor _ _
  | Index.GET_admin_overview _
  | Index.GET_admin_article _ _
  | Index.PUT_admin_article_status _ _ _ => true
  | _ => false
  end.

(** The order of the public list on its elements: a later [publishedAt]
    first, a missing one last, ties by the later [createdAt]. *)
Definition newer_first (v w : public_view) : bool :=
  match pv_publishedAt v, pv_publishedAt w with
  | Some p, Some q =>
      (q <? p)%Z || ((q =? p)%Z && (pv_createdAt w <=? pv_createdAt v)%Z)
  | Some _, None => true
  | None, Some _ => false
  | None, None => (pv_createdAt w <=? pv_createdAt v)%Z
  end.


(** ** generateRandomPassword (routes/adminRoutes.js) *)

Module Password.

Definition chars : string :=
  "ABCDEFGHJKLMNPQRSTUVWXYZabcdefghijkmnopqrstuvwxyz23456789!@#$%".

(** [chars[i]] as the text that [pwd += chars[i]] appends: the character,
    or "undefined" past the end. *)
Definition char_at (i : nat) : string :=
  match String.get i chars with
  | Some c => String c EmptyString
  | None => "undefined"
  end.

(** The loop with [n] turns left, [i] the counter and [random i] the
    value of [Math.floor(Math.random() * chars.length)] at turn [i]. *)
Fixpoint loop (random : nat -> nat) (i n : nat) (pwd : string) : string :=
  match n with
  | O => pwd
  | S n' => loop random (S i) n' (String.append pwd (char_at (random i)))
  end.

Definition generateRandomPassword (random : nat -> nat) (length : nat)
  : string :=
  loop random 0 length "".

(** The characters left out of [chars] for looking like one another. *)
Definition lookalikes : list ascii :=
  list_ascii_of_string "IOl01".

End Password.

(** ** A small database for the examples *)

Module Sample.

Definition bcrypt (pw : string) : string := String.append "$2b$10$" pw.

(** The sample requests carry no search pattern, no page and no limit. *)
Definition e : env :=
  mkEnv 2000000%Z 32%N
    bcrypt
    (fun pw h => String.eqb h (bcrypt pw))
    "Tq7#mK2x!a"
    "supersecret"
    (fun _ => None)
    (fun _ => Ok None)
    (fun _ _ => Ok (0, Some 20)).

Definition admin : Editor.doc :=
  Editor.mk "Super Admin" "admin@newsone.live" (bcrypt "Admin@123") "admin"
    1000%Z 1000%Z.

Definition alice : Editor.doc :=
  Editor.mk "Alice" "a@x.com" (bcrypt "alice-pw") "user" 1100%Z 1100%Z.

Definition bob : Editor.doc :=
  Editor.mk "Bob" "bob@x.com" (bcrypt "bob-pw") "user" 1200%Z 1200%Z.

(** Alice's article, published at 1500. *)
Definition story : Article.doc :=
  Article.mk "Old" "About" "Body" ["tech"] "" "" "published" 2%N (Some 1500%Z)
    1300%Z 1500%Z.

(** Bob's draft. *)
Definition draft : Article.doc :=
  Article.mk "Notes" "" "Text" ["latest"] "" "" "draft" 3%N None 1400%Z 1400%Z.

Definition db0 : db :=
  mkDb (<[1%N := admin]> (<[2%N := alice]> (<[3%N := bob]> ∅)))
       (<[16%N := story]> (<[17%N := draft]> ∅)).

(** Bob's article, published at 1800, and the database with it. *)
Definition scoop : Article.doc :=
  Article.mk "New" "" "Body" ["business"] "" "" "published" 3%N (Some 1800%Z)
    1700%Z 1800%Z.

Definition db1 : db :=
  with_articles (<[18%N := scoop]> (articles db0)) db0.

Definition admin_id : string := "000000000000000000000001".
Definition alice_id : string := "000000000000000000000002".
Definition bob_id : string := "000000000000000000000003".
Definition story_id : string := "000000000000000000000010".
Definition draft_id : string := "000000000000000000000011".

Definition as_admin : claims := mkClaims admin_id "admin@newsone.live" "admin".
Definition as_alice : claims := mkClaims alice_id "a@x.com" "user".
Definition as_bob : claims := mkClaims bob_id "bob@x.com" "user".

Definition no_fields : article_body :=
  mkArticleBody None None None CatUndefined None None None.

End Sample.

(** * Properties *)

(** ** Strings *)

Lemma is_space_lower_char (c : ascii) :
  JS.is_space (JS.lower_char c) = JS.is_space c.
Proof. destruct c as [[] [] [] [] [] [] [] []]; reflexivity. Qed.

Lemma is_upper_lower_char (c : ascii) :
  JS.is_upper (JS.lower_char c) = false.
Proof. destruct c as [[] [] [] [] [] [] [] []]; reflexivity. Qed.

Lemma lower_char_fixed (c : ascii) :
  JS.is_upper c = false -> JS.lower_char c = c.
Proof. unfold JS.lower_char. intros ->. reflexivity. Qed.

Lemma toLowerCase_is_lowercase (s : string) :
  JS.is_lowercase (JS.toLowerCase s) = true.
Proof.
  induction s as [|c r IH]; simpl; [reflexivity|].
  rewrite is_upper_lower_char, IH. reflexivity.
Qed.

Lemma toLowerCase_fixed (s : string) :
  JS.is_lowercase s = true -> JS.toLowerCase s = s.
Proof.
  induction s as [|c r IH]; simpl; [reflexivity|].
  intros H. apply andb_prop in H as [Hc Hr].
  apply negb_true_iff in Hc.
  rewrite lower_char_fixed, IH by assumption. reflexivity.
Qed.

Lemma trimStart_lowercase (s : string) :
  JS.is_lowercase s = true -> JS.is_lowercase (JS.trimStart s) = true.
Proof.
  induction s as [|c r IH]; simpl; [reflexivity|].
  intros H. destruct (JS.is_space c); [|exact H].
  apply andb_prop in H as [_ Hr]. auto.
Qed.

Lemma trimEnd_lowercase (s : string) :
  JS.is_lowercase s = true -> JS.is_lowercase (JS.trimEnd s) = true.
Proof.
  induction s as [|c r IH]; simpl; [reflexivity|].
  intros H. apply andb_prop in H as [Hc Hr]. specialize (IH Hr).
  destruct (JS.trimEnd r) as [|c' r'].
  - destruct (JS.is_space c); simpl; [reflexivity|]. rewrite Hc. reflexivity.
  - change (JS.is_lowercase (String c (String c' r')))
      with (negb (JS.is_upper c) && JS.is_lowercase (String c' r')).
    rewrite Hc, IH. reflexivity.
Qed.

Lemma trim_lowercase (s : string) :
  JS.is_lowercase s = true -> JS.is_lowercase (JS.trim s) = true.
Proof. intros H. apply trimEnd_lowercase, trimStart_lowercase, H. Qed.

Lemma trimStart_first (s : string) :
  JS.space_opt (JS.first_char (JS.trimStart s)) = false.
Proof.
  induction s as [|c r IH]; simpl; [reflexivity|].
  destruct (JS.is_space c) eqn:E; [exact IH|]. simpl. exact E.
Qed.

Lemma trimEnd_first (s : string) :
  JS.space_opt (JS.first_char s) = false ->
  JS.space_opt (JS.first_char (JS.trimEnd s)) = false.
Proof.
  destruct s as [|c r]; simpl; [reflexivity|].
  intros E. destruct (JS.trimEnd r); [rewrite E|]; simpl; exact E.
Qed.

Lemma trimEnd_last (s : string) :
  JS.space_opt (JS.last_char (JS.trimEnd s)) = false.
Proof.
  induction s as [|c r IH]; simpl; [reflexivity|].
  destruct (JS.trimEnd r) as [|c' r'].
  - destruct (JS.is_space c) eqn:E; simpl; [reflexivity|exact E].
  - exact IH.
Qed.

Lemma trim_is_trimmed (s : string) : JS.is_trimmed (JS.trim s) = true.
Proof.
  unfold JS.is_trimmed, JS.trim.
  rewrite trimEnd_first by apply trimStart_first.
  rewrite trimEnd_last. reflexivity.
Qed.

Lemma trimStart_fixed (s : string) :
  JS.space_opt (JS.first_char s) = false -> JS.trimStart s = s.
Proof. destruct s as [|c r]; simpl; [reflexivity|]. intros ->. reflexivity. Qed.

Lemma trimEnd_fixed (s : string) :
  JS.space_opt (JS.last_char s) = false -> JS.trimEnd s = s.
Proof.
  induction s as [|c r IH]; [reflexivity|].
  destruct r as [|c' r'].
  - simpl. intros ->. reflexivity.
  - intros H. change (JS.last_char (String c (String c' r')))
      with (JS.last_char (String c' r')) in H.
    specialize (IH H).
    change (JS.trimEnd (String c (String c' r')))
      with (match JS.trimEnd (String c' r') with
            | EmptyString =>
                if JS.is_space c then EmptyString else String c EmptyString
            | r'' => String c r''
            end).
    rewrite IH. reflexivity.
Qed.

Lemma trim_fixed (s : string) : JS.is_trimmed s = true -> JS.trim s = s.
Proof.
  unfold JS.is_trimmed, JS.trim. intros H.
  apply andb_prop in H as [Hf Hl].
  apply negb_true_iff in Hf. apply negb_true_iff in Hl.
  rewrite trimStart_fixed by assumption. apply trimEnd_fixed, Hl.
Qed.

Lemma trim_idempotent (s : string) : JS.trim (JS.trim s) = JS.trim s.
Proof. apply trim_fixed, trim_is_trimmed. Qed.

Lemma toLowerCase_trimStart (s : string) :
  JS.toLowerCase (JS.trimStart s) = JS.trimStart (JS.toLowerCase s).
Proof.
  induction s as [|c r IH]; simpl; [reflexivity|].
  rewrite is_space_lower_char. destruct (JS.is_space c); [exact IH|reflexivity].
Qed.

Lemma toLowerCase_trimEnd (s : string) :
  JS.toLowerCase (JS.trimEnd s) = JS.trimEnd (JS.toLowerCase s).
Proof.
  induction s as [|c r IH]; simpl; [reflexivity|].
  rewrite <- IH, is_space_lower_char.
  destruct (JS.trimEnd r); simpl; [|reflexivity].
  destruct (JS.is_space c); reflexivity.
Qed.

Lemma toLowerCase_trim (s : string) :
  JS.toLowerCase (JS.trim s) = JS.trim (JS.toLowerCase s).
Proof. unfold JS.trim. rewrite toLowerCase_trimEnd, toLowerCase_trimStart. reflexivity. Qed.

Lemma set_category_idempotent (c : string) :
  Article.set_category (Article.set_category c) = Article.set_category c.
Proof.
  unfold Article.set_category.
  rewrite toLowerCase_trim, trim_idempotent.
  rewrite (toLowerCase_fixed (JS.toLowerCase c)) by apply toLowerCase_is_lowercase.
  reflexivity.
Qed.

Lemma set_category_trimmed (c : string) :
  JS.is_trimmed (Article.set_category c) = true.
Proof. apply trim_is_trimmed. Qed.

Lemma set_category_lowercase (c : string) :
  JS.is_lowercase (Article.set_category c) = true.
Proof. apply trim_lowercase, toLowerCase_is_lowercase. Qed.

(** ** [normalizeCategories] *)

Lemma existsb_eqb_elem (x : string) (l : list string) :
  existsb (String.eqb x) l = true <-> x ∈ l.
Proof.
  rewrite existsb_exists. split.
  - intros (y & Hy & E). apply String.eqb_eq in E. subst y.
    apply list_elem_of_In, Hy.
  - intros H. exists x. split; [apply list_elem_of_In, H|apply String.eqb_refl].
Qed.

Lemma includes_elem (l : list string) (x : string) :
  JS.includes l x = true <-> x ∈ l.
Proof. apply existsb_eqb_elem. Qed.

Lemma set_spread_elem (seen l : list string) (x : string) :
  x ∈ JS.set_spread seen l <-> x ∈ l /\ x ∉ seen.
Proof.
  revert seen. induction l as [|y r IH]; intros seen; simpl.
  - split; [intros H; inversion H|intros [H _]; inversion H].
  - destruct (existsb (String.eqb y) seen) eqn:E.
    + apply existsb_eqb_elem in E. rewrite IH, elem_of_cons.
      split; [tauto|]. intros [[->|H] Hn]; [contradiction|tauto].
    + assert (Hy : y ∉ seen).
      { intros H. apply existsb_eqb_elem in H. congruence. }
      rewrite !elem_of_cons, IH, elem_of_cons.
      split.
      * intros [->|[H Hn]]; [tauto|]. split; [tauto|]. intros Hs. apply Hn. tauto.
      * intros [[->|H] Hn]; [tauto|].
        destruct (decide (x = y)) as [->|Hne]; [tauto|]. right. split; [exact H|].
        intros [?|?]; contradiction.
Qed.

Lemma set_spread_NoDup (seen l : list string) : NoDup (JS.set_spread seen l).
Proof.
  revert seen. induction l as [|y r IH]; intros seen; simpl.
  - constructor.
  - destruct (existsb (String.eqb y) seen); [apply IH|].
    constructor; [|apply IH].
    rewrite set_spread_elem, elem_of_cons. tauto.
Qed.

(** Reading on never reorders or removes what a shorter input gave: the
    result lists the values in the order of their first occurrence. *)
Lemma set_spread_prefix (seen l1 l2 : list string) :
  JS.set_spread seen l1 `prefix_of` JS.set_spread seen (l1 ++ l2).
Proof.
  revert seen. induction l1 as [|y r IH]; intros seen; simpl.
  - apply prefix_nil.
  - destruct (existsb (String.eqb y) seen); [apply IH|].
    apply prefix_cons, IH.
Qed.

Lemma normalizeCategories_elem (input : cat_input) (c : string) :
  c ∈ normalizeCategories input <->
  c ∈ category_candidates input \/
  (category_candidates input = [] /\ c = "latest").
Proof.
  unfold normalizeCategories.
  destruct (JS.set_spread [] (category_candidates input)) as [|x r] eqn:E.
  - assert (Hnil : category_candidates input = []).
    { destruct (category_candidates input) as [|y l]; [reflexivity|].
      simpl in E. discriminate. }
    rewrite Hnil, list_elem_of_singleton. split; [tauto|].
    intros [H|[_ ->]]; [inversion H|reflexivity].
  - rewrite <- E, set_spread_elem. split.
    + tauto.
    + intros [H|[Hnil _]].
      * split; [exact H|]. intros Hs; inversion Hs.
      * rewrite Hnil in E. discriminate.
Qed.

Lemma normalizeCategories_nonempty (input : cat_input) :
  normalizeCategories input <> [].
Proof.
  unfold normalizeCategories.
  destruct (JS.set_spread [] (category_candidates input)); discriminate.
Qed.

Lemma normalizeCategories_NoDup (input : cat_input) :
  NoDup (normalizeCategories input).
Proof.
  unfold normalizeCategories.
  destruct (JS.set_spread [] (category_candidates input)) as [|x r] eqn:E.
  - apply NoDup_singleton.
  - rewrite <- E. apply set_spread_NoDup.
Qed.

Lemma category_candidates_shape (input : cat_input) (c : string) :
  c ∈ category_candidates input -> exists x, c = Article.set_category x.
Proof.
  unfold category_candidates. intros H.
  apply list_elem_of_In, in_map_iff in H as (x & <- & _).
  exists x. reflexivity.
Qed.

Lemma normalizeCategories_shape (input : cat_input) (c : string) :
  c ∈ normalizeCategories input -> exists x, c = Article.set_category x.
Proof.
  rewrite normalizeCategories_elem. intros [H|[_ ->]].
  - eapply category_candidates_shape, H.
  - exists "latest". reflexivity.
Qed.

Lemma normalizeCategories_trimmed (input : cat_input) (c : string) :
  c ∈ normalizeCategories input -> JS.is_trimmed c = true.
Proof.
  intros H. apply normalizeCategories_shape in H as [x ->].
  apply set_category_trimmed.
Qed.

Lemma normalizeCategories_lowercase (input : cat_input) (c : string) :
  c ∈ normalizeCategories input -> JS.is_lowercase c = true.
Proof.
  intros H. apply normalizeCategories_shape in H as [x ->].
  apply set_category_lowercase.
Qed.

(** The schema's setter leaves a normalised list as it is. *)
Lemma set_category_normalizeCategories (input : cat_input) :
  List.map Article.set_category (normalizeCategories input)
  = normalizeCategories input.
Proof.
  rewrite <- (map_id (normalizeCategories input)) at 2.
  apply map_ext_in. intros c Hc.
  apply list_elem_of_In, normalizeCategories_shape in Hc as [x ->].
  apply set_category_idempotent.
Qed.

Lemma toLowerCase_truthy (s : string) :
  JS.truthy (JS.toLowerCase s) = JS.truthy s.
Proof. destruct s; reflexivity. Qed.

(** A comma-separated string never yields an empty tag. *)
Lemma normalizeCategories_string_truthy (s c : string) :
  c ∈ normalizeCategories (CatString s) -> JS.truthy c = true.
Proof.
  rewrite normalizeCategories_elem. intros [H|[_ ->]]; [|reflexivity].
  unfold category_candidates in H.
  destruct (JS.truthy (JS.trim s)); [|inversion H].
  apply list_elem_of_In, in_map_iff in H as (x & <- & Hx).
  apply filter_In in Hx as [Hx Ht].
  apply in_map_iff in Hx as (y & <- & _).
  rewrite <- toLowerCase_trim, trim_idempotent, toLowerCase_truthy.
  exact Ht.
Qed.

Lemma normalizeCategories_first_occurrence (l1 l2 : list string) :
  l1 <> [] ->
  normalizeCategories (CatArray l1)
    `prefix_of` normalizeCategories (CatArray (l1 ++ l2)).
Proof.
  intros Hne. unfold normalizeCategories, category_candidates.
  rewrite map_app.
  pose proof (set_spread_prefix []
    (List.map (fun c => JS.trim (JS.toLowerCase c)) l1)
    (List.map (fun c => JS.trim (JS.toLowerCase c)) l2)) as Hp.
  destruct l1 as [|x l1]; [contradiction|].
  simpl in *.
  exact Hp.
Qed.

Lemma normalizeCategories_empty :
  normalizeCategories (CatArray []) = ["latest"]
  /\ normalizeCategories (CatString "") = ["latest"]
  /\ normalizeCategories CatUndefined = ["latest"].
Proof. repeat split; reflexivity. Qed.

(** What [normalizeCategories] gives for every input: a list that is
    not empty and has no duplicates, of trimmed lowercase tags; no empty
    tag when the input is a string; ["latest"] for the empty array and
    the empty string. The tags stand in the order of their first
    occurrence: the result for an array that is not empty begins the
    result for every array that extends it. The empty array is the
    exception, its result being the default and not a beginning of the
    result for ["tech"]. *)
Theorem normalizeCategories_normal_form (input : cat_input) :
  normalizeCategories input <> []
  /\ NoDup (normalizeCategories input)
  /\ (forall c, c ∈ normalizeCategories input ->
                JS.is_trimmed c = true /\ JS.is_lowercase c = true)
  /\ (forall s c, input = CatString s -> c ∈ normalizeCategories input ->
                  c <> "")
  /\ (forall l1 l2, input = CatArray (l1 ++ l2) -> l1 <> [] ->
                    normalizeCategories (CatArray l1)
                      `prefix_of` normalizeCategories input)
  /\ normalizeCategories (CatArray []) = ["latest"]
  /\ normalizeCategories (CatString "") = ["latest"]
  /\ ~ normalizeCategories (CatArray [])
         `prefix_of` normalizeCategories (CatArray ["tech"]).
Proof.
  split; [apply normalizeCategories_nonempty|].
  split; [apply normalizeCategories_NoDup|].
  split.
  { intros c Hc. split.
    - eapply normalizeCategories_trimmed, Hc.
    - eapply normalizeCategories_lowercase, Hc. }
  split.
  { intros s c -> Hc E. subst c.
    apply normalizeCategories_string_truthy in Hc. discriminate. }
  split.
  { intros l1 l2 -> Hne. apply normalizeCategories_first_occurrence, Hne. }
  split; [reflexivity|]. split; [reflexivity|].
  intros [k Hk]. discriminate Hk.
Qed.

(** C2: [normalizeCategories] is to drop the empty candidates of every
    input. It does so for a comma-separated string, but the elements of an
    array are kept when they are empty or blank: the result then holds
    the empty tag, and an array of blanks does not fall back to
    ["latest"]. *)
Theorem normalizeCategories_array_keeps_empty :
  normalizeCategories (CatArray [""; " Tech"]) = [""; "tech"]
  /\ normalizeCategories (CatArray [" "]) = [""]
  /\ normalizeCategories (CatString ", Tech") = ["tech"]
  /\ normalizeCategories (CatString " ") = ["latest"].
Proof. repeat split; reflexivity. Qed.

(** ** ObjectIds *)

Lemma hex_value_hex_digit (d : N) :
  (d < 16)%N -> ObjectId.hex_value (ObjectId.hex_digit d) = Some d.
Proof.
  intros H.
  destruct d as [|p]; [reflexivity|].
  do 4 (destruct p as [p|p|]; try reflexivity; try lia).
Qed.

Lemma to_hex_length (k : nat) (n : N) (acc : string) :
  String.length (ObjectId.to_hex k n acc) = (k + String.length acc)%nat.
Proof.
  revert n acc. induction k as [|k IH]; intros n acc; simpl; [reflexivity|].
  rewrite IH. simpl. lia.
Qed.

Lemma parse_hex_to_hex (k : nat) (n a : N) (acc : string) :
  ObjectId.parse_hex a (ObjectId.to_hex k n acc)
  = ObjectId.parse_hex (a * 16 ^ N.of_nat k + n mod 16 ^ N.of_nat k)%N acc.
Proof.
  revert n a acc. induction k as [|k IH]; intros n a acc.
  - simpl. rewrite N.mod_1_r. f_equal. lia.
  - cbn [ObjectId.to_hex]. rewrite IH. cbn [ObjectId.parse_hex].
    rewrite hex_value_hex_digit by (apply N.mod_lt; lia).
    f_equal. rewrite Nat2N.inj_succ, N.pow_succ_r'.
    rewrite (N.Div0.mod_mul_r n 16 (16 ^ N.of_nat k)). lia.
Qed.

(** An ObjectId read back from its text is the same ObjectId. *)
Lemma cast_toString (n : ObjectId.t) :
  (n < ObjectId.bound)%N -> ObjectId.cast (ObjectId.toString n) = Some n.
Proof.
  intros H. unfold ObjectId.cast, ObjectId.toString.
  rewrite to_hex_length. simpl Nat.eqb. cbv iota.
  rewrite parse_hex_to_hex. simpl ObjectId.parse_hex.
  f_equal. rewrite N.mul_0_l, N.add_0_l.
  apply N.mod_small. exact H.
Qed.

Lemma isValid_cast (s : string) :
  ObjectId.isValid s = true <-> exists k, ObjectId.cast s = Some k.
Proof.
  unfold ObjectId.isValid. destruct (ObjectId.cast s) as [k|].
  - split; [eauto|reflexivity].
  - split; [discriminate|intros [k H]; discriminate].
Qed.

Lemma toString_not_undefined (n : ObjectId.t) :
  ObjectId.toString n <> "undefined".
Proof.
  intros H. apply (f_equal String.length) in H.
  unfold ObjectId.toString in H. rewrite to_hex_length in H.
  simpl in H. discriminate.
Qed.

Lemma castObjectId_Some (s : string) (k : ObjectId.t) :
  ObjectId.cast s = Some k -> Mongoose.castObjectId s = Ok k.
Proof. unfold Mongoose.castObjectId. intros ->. reflexivity. Qed.

Lemma castObjectId_None (s : string) :
  ObjectId.isValid s = false -> Mongoose.castObjectId s = Throw CastError.
Proof.
  unfold Mongoose.castObjectId, ObjectId.isValid.
  destruct (ObjectId.cast s); [discriminate|reflexivity].
Qed.

(** ** Writes *)

Lemma saveArticle_inv (now : Z) (k : ObjectId.t) (loaded a : Article.doc) (d : db) :
  articles d !! k = Some loaded ->
  match Mongoose.saveArticle now k loaded a d with
  | Throw _ => Article.validate a = false
  | Ok (a', d') =>
      Article.validate a = true
      /\ (exists t, a' = Article.set_updatedAt t a)
      /\ articles d' !! k = Some a'
      /\ editors d' = editors d
      /\ (forall k', k' <> k -> articles d' !! k' = articles d !! k')
  end.
Proof.
  intros Hk. unfold Mongoose.saveArticle.
  destruct (Article.validate a) eqn:V; simpl; [|reflexivity].
  destruct (decide (a = loaded)) as [->|Hne].
  - split; [reflexivity|]. split.
    + exists (Article.updatedAt loaded). destruct loaded; reflexivity.
    + repeat split; auto.
  - split; [reflexivity|]. split; [eauto|]. simpl.
    split; [apply lookup_insert_eq|]. split; [reflexivity|].
    intros k' Hk'. apply lookup_insert_ne. congruence.
Qed.

Lemma saveArticle_invalid (now : Z) (k : ObjectId.t) (loaded a : Article.doc)
  (d : db) :
  Article.validate a = false ->
  Mongoose.saveArticle now k loaded a d = Throw ValidationError.
Proof. unfold Mongoose.saveArticle. intros ->. reflexivity. Qed.

Lemma findOneWithId_Some {A : Type} (k : ObjectId.t) (f : A -> bool)
  (m : gmap N A) (a : A) :
  Mongoose.findOneWithId k f m = Some a <-> m !! k = Some a /\ f a = true.
Proof.
  unfold Mongoose.findOneWithId. destruct (m !! k) as [x|].
  - destruct (f x) eqn:E; split.
    + intros [= ->]. auto.
    + intros [[= ->] _]. reflexivity.
    + discriminate.
    + intros [[= ->] ?]. congruence.
  - split; [discriminate|intros [? _]; discriminate].
Qed.

(** ** C1: the publication timestamp *)

(** The owner's update never changes a [publishedAt] that is set. *)
Lemma updateArticle_keeps_publishedAt (e : env) (user : claims)
  (param_id : string) (b : article_body) (d : db) (k : ObjectId.t)
  (a : Article.doc) (t : Z) :
  ObjectId.cast param_id = Some k ->
  articles d !! k = Some a ->
  Article.publishedAt a = Some t ->
  exists a', articles (snd (EditorRoutes.updateArticle e user param_id b d)) !! k
             = Some a'
             /\ Article.publishedAt a' = Some t.
Proof.
  intros Hc Hk Ht. unfold EditorRoutes.updateArticle.
  rewrite (castObjectId_Some _ _ Hc). cbn [bind].
  destruct (Mongoose.castObjectId (id user)) as [uid|]; cbn [bind catch500 snd];
    [|eauto].
  destruct (Mongoose.findOneWithId k _ (articles d)) as [loaded|] eqn:F;
    cbn [catch500 snd]; [|eauto].
  apply findOneWithId_Some in F as [F _].
  assert (loaded = a) by congruence. subst loaded.
  assert (Hf : Article.publishedAt (EditorRoutes.assign_fields b a) = Some t).
  { unfold EditorRoutes.assign_fields, assign.
    destruct (b_title b), (b_summary b), (b_content b), (b_imageUrl b),
      (b_source b), (b_categories b); exact Ht. }
  destruct (b_status b) as [st|].
  - destruct (JS.includes Article.STATUSES st); cbn [negb catch500 snd]; [|eauto].
    match goal with
    | |- context [Mongoose.saveArticle ?n k a ?x d] =>
        pose proof (saveArticle_inv n k a x d Hk) as S;
        assert (Hx : Article.publishedAt x = Some t)
          by (cbn; rewrite Hf; cbn; rewrite andb_false_r; cbn; exact Hf);
        destruct (Mongoose.saveArticle n k a x d) as [[a' d']|]
    end; cbn [bind catch500 snd]; [|eauto].
    destruct S as (_ & [t' ->] & S & _). eauto.
  - match goal with
    | |- context [Mongoose.saveArticle ?n k a ?x d] =>
        pose proof (saveArticle_inv n k a x d Hk) as S;
        destruct (Mongoose.saveArticle n k a x d) as [[a' d']|]
    end; cbn [bind catch500 snd]; [|eauto].
    destruct S as (_ & [t' ->] & S & _). eauto.
Qed.

Lemma updateArticle_keeps_publishedAt_witness :
  exists a',
    articles (snd (EditorRoutes.updateArticle Sample.e Sample.as_alice
                     Sample.story_id
                     (mkArticleBody None None None CatUndefined None None
                        (Some "draft"))
                     Sample.db0)) !! 16%N = Some a'
    /\ Article.publishedAt a' = Some 1500%Z.
Proof.
  apply (updateArticle_keeps_publishedAt Sample.e Sample.as_alice
           Sample.story_id
           (mkArticleBody None None None CatUndefined None None (Some "draft"))
           Sample.db0 16%N Sample.story 1500%Z).
  - reflexivity.
  - vm_compute. reflexivity.
  - reflexivity.
Defined.

(** The admin's status change keeps [publishedAt] when the new status is
    not [published]. *)
Lemma setStatus_keeps_publishedAt (e : env) (param_id : string)
  (status : option string) (d : db) (k : ObjectId.t) (a : Article.doc) :
  ObjectId.cast param_id = Some k ->
  articles d !! k = Some a ->
  status <> Some "published" ->
  exists a', articles (snd (AdminRoutes.setStatus e param_id status d)) !! k
             = Some a'
             /\ Article.publishedAt a' = Article.publishedAt a.
Proof.
  intros Hc Hk Hs. unfold AdminRoutes.setStatus.
  destruct status as [st|]; cbn [catch500 snd]; [|eauto].
  destruct (JS.includes Article.STATUSES st); cbn [negb catch500 snd]; [|eauto].
  destruct (ObjectId.isValid param_id); cbn [negb catch500 snd]; [|eauto].
  rewrite (castObjectId_Some _ _ Hc). cbn [bind]. unfold Mongoose.findById.
  rewrite Hk.
  destruct (String.eqb st "published") eqn:E.
  { apply String.eqb_eq in E. subst st. contradiction. }
  match goal with
  | |- context [Mongoose.saveArticle ?n k a ?x d] =>
      pose proof (saveArticle_inv n k a x d Hk) as S;
      destruct (Mongoose.saveArticle n k a x d) as [[a' d']|]
  end; cbn [bind catch500 snd]; [|eauto].
  destruct S as (_ & [t' ->] & S & _). eauto.
Qed.

(** The admin's status change to [published] stamps the current time on
    every accepted request, whatever [publishedAt] was. *)
Lemma setStatus_published_stamps_now (e : env) (param_id : string) (d : db)
  (k : ObjectId.t) (a : Article.doc) :
  ObjectId.cast param_id = Some k ->
  articles d !! k = Some a ->
  Article.validate a = true ->
  exists a',
    articles (snd (AdminRoutes.setStatus e param_id (Some "published") d)) !! k
    = Some a'
    /\ Article.publishedAt a' = Some (now e).
Proof.
  intros Hc Hk Hv. unfold AdminRoutes.setStatus.
  cbn [JS.includes Article.STATUSES existsb String.eqb Ascii.eqb Bool.eqb
       orb negb].
  assert (Hi : ObjectId.isValid param_id = true) by (apply isValid_cast; eauto).
  rewrite Hi. cbn [negb].
  rewrite (castObjectId_Some _ _ Hc). cbn [bind]. unfold Mongoose.findById.
  rewrite Hk.
  match goal with
  | |- context [Mongoose.saveArticle ?n k a ?x d] =>
      pose proof (saveArticle_inv n k a x d Hk) as S;
      assert (Hx : Article.validate x = true);
      [|destruct (Mongoose.saveArticle n k a x d) as [[a' d']|]]
  end.
  - unfold Article.validate in *. cbn.
    apply andb_prop in Hv as [Hv _]. rewrite Hv. reflexivity.
  - cbn [bind catch500 snd]. destruct S as (_ & [t' ->] & S & _). eauto.
  - congruence.
Qed.

(** C1: a set [publishedAt] is to survive every later status change. The
    owner's update guards the stamp with [!article.publishedAt]; the
    admin's status route does not, and stamps again: the article published
    at 1500 carries the time of the request after the admin publishes it
    once more. *)
Theorem setStatus_restamps_publishedAt :
  Article.publishedAt <$> articles Sample.db0 !! 16%N = Some (Some 1500%Z)
  /\ Article.publishedAt <$>
       articles (snd (AdminRoutes.setStatus Sample.e Sample.story_id
                        (Some "published") Sample.db0)) !! 16%N
     = Some (Some 2000000%Z)
  /\ Article.publishedAt <$>
       articles (snd (EditorRoutes.updateArticle Sample.e Sample.as_alice
                        Sample.story_id
                        (mkArticleBody None None None CatUndefined None None
                           (Some "published"))
                        Sample.db0)) !! 16%N
     = Some (Some 1500%Z).
Proof. repeat split; vm_compute; reflexivity. Qed.

(** ** C3: ownership *)

(** C3: the owner's update on an article of another account answers 404
    "Article not found" and writes nothing, and that is the answer for an
    identifier no article has. *)
Theorem updateArticle_other_owner (e : env) (user : claims)
  (param_id : string) (b : article_body) (d : db) (k uid : ObjectId.t)
  (a : Article.doc) :
  ObjectId.cast param_id = Some k ->
  ObjectId.cast (id user) = Some uid ->
  articles d !! k = Some a ->
  Article.author a <> uid ->
  EditorRoutes.updateArticle e user param_id b d
  = (json 404 (Message "Article not found"), d)
  /\ forall d0 : db,
       articles d0 !! k = None ->
       fst (EditorRoutes.updateArticle e user param_id b d0)
       = fst (EditorRoutes.updateArticle e user param_id b d)
       /\ snd (EditorRoutes.updateArticle e user param_id b d0) = d0.
Proof.
  intros Hc Hu Hk Ha.
  assert (H404 : forall d1 : db,
             Mongoose.findOneWithId k
               (fun x => N.eqb (Article.author x) uid) (articles d1) = None ->
             EditorRoutes.updateArticle e user param_id b d1
             = (json 404 (Message "Article not found"), d1)).
  { intros d1 F. unfold EditorRoutes.updateArticle.
    rewrite (castObjectId_Some _ _ Hc), (castObjectId_Some _ _ Hu).
    cbn [bind]. rewrite F. reflexivity. }
  assert (F : Mongoose.findOneWithId k
                (fun x => N.eqb (Article.author x) uid) (articles d) = None).
  { unfold Mongoose.findOneWithId. rewrite Hk.
    destruct (N.eqb_spec (Article.author a) uid); [contradiction|reflexivity]. }
  split; [apply H404, F|].
  intros d0 H0.
  assert (F0 : Mongoose.findOneWithId k
                 (fun x => N.eqb (Article.author x) uid) (articles d0) = None).
  { unfold Mongoose.findOneWithId. rewrite H0. reflexivity. }
  rewrite (H404 d0 F0), (H404 d F). split; reflexivity.
Qed.

Lemma updateArticle_other_owner_witness :
  EditorRoutes.updateArticle Sample.e Sample.as_bob Sample.story_id
    (mkArticleBody (Some "Taken over") None None CatUndefined None None None)
    Sample.db0
  = (json 404 (Message "Article not found"), Sample.db0).
Proof.
  apply (updateArticle_other_owner Sample.e Sample.as_bob Sample.story_id
           (mkArticleBody (Some "Taken over") None None CatUndefined None None
              None)
           Sample.db0 16%N 3%N Sample.story).
  - reflexivity.
  - reflexivity.
  - vm_compute. reflexivity.
  - simpl. lia.
Defined.

(** ** C4: the public reads *)

Lemma insert_sorted_elem (x y : N * Article.doc) (l : list (N * Article.doc)) :
  y ∈ PublicRoutes.insert_sorted x l <-> y = x \/ y ∈ l.
Proof.
  induction l as [|z r IH]; simpl.
  - rewrite list_elem_of_singleton. split; [tauto|].
    intros [H|H]; [exact H|inversion H].
  - destruct (PublicRoutes.sorts_before x z).
    + rewrite elem_of_cons. tauto.
    + rewrite !elem_of_cons, IH. tauto.
Qed.

Lemma sort_elem (y : N * Article.doc) (l : list (N * Article.doc)) :
  y ∈ PublicRoutes.sort l <-> y ∈ l.
Proof.
  induction l as [|z r IH]; simpl; [reflexivity|].
  rewrite insert_sorted_elem, elem_of_cons, IH. reflexivity.
Qed.

Lemma find_elem {A : Type} (f : N -> A -> bool) (m : gmap N A) (k : N) (a : A) :
  (k, a) ∈ Mongoose.find f m <-> m !! k = Some a /\ f k a = true.
Proof.
  unfold Mongoose.find.
  rewrite list_elem_of_In, filter_In, <- list_elem_of_In, elem_of_map_to_list.
  reflexivity.
Qed.

(** C4: every element of the public list is an article whose stored
    status is [published], and the public read of an article with another
    status answers 404 "Article not found". *)
Theorem public_reads_only_published (e : env) (category search : option string)
  (d : db) (param_id : string) (k : ObjectId.t) (a : Article.doc) :
  (forall (found : list public_view) (v : public_view),
      payload (fst (PublicRoutes.listArticles e category search d))
      = PublicArticles found ->
      v ∈ found ->
      exists x, articles d !! pv_id v = Some x
                /\ Article.status x = "published")
  /\ (ObjectId.cast param_id = Some k ->
      articles d !! k = Some a ->
      Article.status a <> "published" ->
      PublicRoutes.getArticle param_id d
      = (json 404 (Message "Article not found"), d)).
Proof.
  split.
  - intros found v. unfold PublicRoutes.listArticles.
    destruct (PublicRoutes.compile e category _) as [catRegex|];
      cbn [bind catch500 fst payload json]; [|discriminate].
    destruct (PublicRoutes.compile e search _) as [searchRegex|];
      cbn [bind catch500 fst payload json]; [|discriminate].
    intros [= <-] Hv.
    apply list_elem_of_In, in_map_iff in Hv as ([k' x] & <- & Hx).
    apply list_elem_of_In, sort_elem, find_elem in Hx as [Hx Hf].
    exists x. split; [exact Hx|].
    apply andb_prop in Hf as [Hf _]. apply andb_prop in Hf as [Hf _].
    apply String.eqb_eq, Hf.
  - intros Hc Hk Hs. unfold PublicRoutes.getArticle.
    rewrite (castObjectId_Some _ _ Hc). cbn [bind].
    unfold Mongoose.findOneWithId. rewrite Hk.
    destruct (String.eqb_spec (Article.status a) "published");
      [contradiction|reflexivity].
Qed.

Lemma public_reads_only_published_witness :
  (forall v : public_view,
      v ∈ [PublicRoutes.select Sample.db0 (16%N, Sample.story)] ->
      exists x, articles Sample.db0 !! pv_id v = Some x
                /\ Article.status x = "published")
  /\ PublicRoutes.getArticle Sample.draft_id Sample.db0
     = (json 404 (Message "Article not found"), Sample.db0).
Proof.
  pose proof (public_reads_only_published Sample.e None None Sample.db0
                Sample.draft_id 17%N Sample.draft) as [Hlist Hone].
  split.
  - intros v. apply Hlist. vm_compute. reflexivity.
  - apply Hone.
    + reflexivity.
    + vm_compute. reflexivity.
    + simpl. discriminate.
Defined.

(** ** Queries *)

Lemma findOne_Some {A : Type} (f : N -> A -> bool) (m : gmap N A) (k : N) (a : A) :
  Mongoose.findOne f m = Some (k, a) -> m !! k = Some a /\ f k a = true.
Proof.
  unfold Mongoose.findOne. intros H. apply find_some in H as [H1 H2].
  split; [|exact H2]. apply elem_of_map_to_list, list_elem_of_In, H1.
Qed.

Lemma findOne_None {A : Type} (f : N -> A -> bool) (m : gmap N A) :
  Mongoose.findOne f m = None <-> forall k a, m !! k = Some a -> f k a = false.
Proof.
  unfold Mongoose.findOne. split.
  - intros H k a Hk.
    apply (find_none _ _ H (k, a)), list_elem_of_In, elem_of_map_to_list, Hk.
  - intros H. destruct (List.find _ (map_to_list m)) as [[k a]|] eqn:F;
      [|reflexivity].
    apply find_some in F as [F1 F2].
    apply list_elem_of_In, elem_of_map_to_list in F1.
    simpl in F2. rewrite (H k a F1) in F2. discriminate.
Qed.

Lemma findOne_admin_None (m : gmap N Editor.doc) :
  Mongoose.findOne (fun _ x => String.eqb (Editor.role x) "admin") m = None <->
  forall k x, m !! k = Some x -> Editor.role x <> "admin".
Proof.
  rewrite findOne_None. split.
  - intros H k x Hk E. specialize (H k x Hk). cbn in H.
    rewrite E in H. discriminate.
  - intros H k x Hk. destruct (String.eqb_spec (Editor.role x) "admin");
      [exfalso; eapply H; eauto|reflexivity].
Qed.

Lemma findOne_holder {A : Type} (f : N -> A -> bool) (m : gmap N A) (k : N)
  (a : A) :
  m !! k = Some a -> f k a = true -> exists kv, Mongoose.findOne f m = Some kv.
Proof.
  intros Hk Hf. destruct (Mongoose.findOne f m) as [kv|] eqn:F; [eauto|].
  rewrite findOne_None in F. rewrite (F k a Hk) in Hf. discriminate.
Qed.

(** ** C5: deleting one's own account *)

Lemma jwt_verify_generateToken (e : env) (uid : ObjectId.t) (user : Editor.doc) :
  Auth.jwt_verify (Auth.generateToken e uid user) (JWT_SECRET e) (now e)
  = Some (mkClaims (ObjectId.toString uid) (Editor.email user)
            (Editor.role user)).
Proof.
  unfold Auth.jwt_verify, Auth.generateToken, Auth.jwt_sign,
    Auth.JWT_EXPIRES_IN. simpl.
  rewrite String.eqb_refl.
  replace (now e / 1000 <? now e / 1000 + 604800)%Z with true
    by (symmetry; apply Z.ltb_lt; lia).
  reflexivity.
Qed.

(** The token never carries [_id]: the guard of DELETE /editors/:id
    compares the route parameter with the text "undefined". *)
Lemma deleteEditor_guard (user : claims) (param_id : string) (d : db) :
  param_id <> "undefined" ->
  AdminRoutes.deleteEditor user param_id d
  = catch500 d
      (let* k := Mongoose.castObjectId param_id in
       match Mongoose.findById k (editors d) with
       | None => Ok (json 404 (Message "Editor not found"), d)
       | Some _ =>
           Ok (json 200 (Message "Editor deleted successfully"),
               with_editors (delete k (editors d)) d)
       end).
Proof.
  intros Hne. unfold AdminRoutes.deleteEditor.
  change (Auth.String_of (Auth.prop user "_id")) with "undefined".
  destruct (String.eqb_spec "undefined" param_id) as [E|_]; [|reflexivity].
  symmetry in E. contradiction.
Qed.

(** An admin who sends the token the login issued deletes the account
    the token was issued for. *)
Lemma deleteEditor_own_account (e : env) (d : db) (uid : ObjectId.t)
  (account : Editor.doc) :
  (uid < ObjectId.bound)%N ->
  editors d !! uid = Some account ->
  Editor.role account = "admin" ->
  Index.handle e
    (Index.DELETE_admin_editor
       (Auth.Bearer (Auth.generateToken e uid account))
       (ObjectId.toString uid)) d
  = (json 200 (Message "Editor deleted successfully"),
     with_editors (delete uid (editors d)) d).
Proof.
  intros Hb Hk Hr. unfold Index.handle, Index.admin, Auth.authMiddleware.
  rewrite jwt_verify_generateToken. unfold AdminRoutes.requireAdmin.
  cbn [role]. rewrite Hr. cbn [String.eqb Ascii.eqb Bool.eqb negb].
  rewrite deleteEditor_guard by apply toString_not_undefined.
  rewrite (castObjectId_Some _ _ (cast_toString uid Hb)). cbn [bind].
  unfold Mongoose.findById. rewrite Hk. reflexivity.
Qed.

(** C5: DELETE /api/admin/editors/:id is to refuse the caller's own
    account. The guard reads [req.user._id], which the token payload
    [{ id, email, role }] does not have, so it never holds for an
    ObjectId: the seeded admin logs in, sends the token back with its own
    id, and the account is deleted. *)
Theorem deleteEditor_deletes_own_account :
  fst (AuthRoutes.login Sample.e
         (mkProfileBody None (Some "admin@newsone.live") (Some "Admin@123") None)
         Sample.db0)
  = json 200 (LoggedIn (Auth.generateToken Sample.e 1%N Sample.admin)
                (view_of 1%N Sample.admin false))
  /\ Auth.prop (tok_claims (Auth.generateToken Sample.e 1%N Sample.admin)) "_id"
     = None
  /\ Index.handle Sample.e
       (Index.DELETE_admin_editor
          (Auth.Bearer (Auth.generateToken Sample.e 1%N Sample.admin))
          Sample.admin_id)
       Sample.db0
     = (json 200 (Message "Editor deleted successfully"),
        with_editors (delete 1%N (editors Sample.db0)) Sample.db0)
  /\ editors (with_editors (delete 1%N (editors Sample.db0)) Sample.db0) !! 1%N
     = None.
Proof.
  split; [vm_compute; reflexivity|].
  split; [reflexivity|].
  split.
  - apply (deleteEditor_own_account Sample.e Sample.db0 1%N Sample.admin).
    + vm_compute. reflexivity.
    + vm_compute. reflexivity.
    + reflexivity.
  - vm_compute. reflexivity.
Qed.

(** ** C8: malformed identifiers *)

(** The two admin article routes test the identifier first and answer
    404; every other route with an identifier lets the query cast it and
    answers 500. *)
Lemma malformed_id_by_route (e : env) (user : claims) (param_id : string)
  (b : article_body) (p : profile_body) (status : string) (d : db) :
  ObjectId.isValid param_id = false ->
  AdminRoutes.getArticle param_id d
  = (json 404 (Message "Article not found"), d)
  /\ (JS.includes Article.STATUSES status = true ->
      AdminRoutes.setStatus e param_id (Some status) d
      = (json 404 (Message "Article not found"), d))
  /\ PublicRoutes.getArticle param_id d = (json 500 (Message "Server error"), d)
  /\ EditorRoutes.getArticle user param_id d
     = (json 500 (Message "Server error"), d)
  /\ EditorRoutes.updateArticle e user param_id b d
     = (json 500 (Message "Server error"), d)
  /\ AdminRoutes.updateEditor e param_id p d
     = (json 500 (Message "Server error"), d)
  /\ AdminRoutes.resetPassword e param_id d
     = (json 500 (Message "Server error"), d)
  /\ (param_id <> "undefined" ->
      AdminRoutes.deleteEditor user param_id d
      = (json 500 (Message "Server error"), d)).
Proof.
  intros H. pose proof (castObjectId_None _ H) as C.
  repeat split.
  - unfold AdminRoutes.getArticle. rewrite H. reflexivity.
  - intros Hs. unfold AdminRoutes.setStatus. rewrite Hs, H. reflexivity.
  - unfold PublicRoutes.getArticle. rewrite C. reflexivity.
  - unfold EditorRoutes.getArticle. rewrite C. reflexivity.
  - unfold EditorRoutes.updateArticle. rewrite C. reflexivity.
  - unfold AdminRoutes.updateEditor. rewrite C. reflexivity.
  - unfold AdminRoutes.resetPassword. rewrite C. reflexivity.
  - intros Hne. rewrite deleteEditor_guard by exact Hne. rewrite C. reflexivity.
Qed.

Lemma malformed_id_by_route_witness :
  AdminRoutes.getArticle "not-an-id" Sample.db0
  = (json 404 (Message "Article not found"), Sample.db0)
  /\ PublicRoutes.getArticle "not-an-id" Sample.db0
     = (json 500 (Message "Server error"), Sample.db0).
Proof.
  pose proof (malformed_id_by_route Sample.e Sample.as_admin "not-an-id"
                Sample.no_fields (mkProfileBody None None None None) "draft"
                Sample.db0) as H.
  destruct H as (Hadmin & _ & Hpublic & _).
  - reflexivity.
  - split; [exact Hadmin|exact Hpublic].
Defined.

(** C8: a malformed identifier is to give 404 on every route. Only GET
    /api/admin/articles/:id and PUT /api/admin/articles/:id/status test
    [ObjectId.isValid]; on the public, editor and account routes the
    identifier "xyz" reaches the query, the cast fails, and the answer is
    500 "Server error". *)
Theorem malformed_id_is_server_error (e : env) (user : claims)
  (b : article_body) (p : profile_body) (d : db) :
  ObjectId.isValid "xyz" = false
  /\ PublicRoutes.getArticle "xyz" d = (json 500 (Message "Server error"), d)
  /\ EditorRoutes.getArticle user "xyz" d
     = (json 500 (Message "Server error"), d)
  /\ EditorRoutes.updateArticle e user "xyz" b d
     = (json 500 (Message "Server error"), d)
  /\ AdminRoutes.updateEditor e "xyz" p d
     = (json 500 (Message "Server error"), d)
  /\ AdminRoutes.resetPassword e "xyz" d
     = (json 500 (Message "Server error"), d)
  /\ AdminRoutes.deleteEditor user "xyz" d
     = (json 500 (Message "Server error"), d)
  /\ AdminRoutes.getArticle "xyz" d
     = (json 404 (Message "Article not found"), d).
Proof. repeat split. Qed.

(** ** C6: the uniqueness of emails *)

(** Creating an account with an email another account holds, letter for
    letter, answers 400 and writes nothing. *)
Lemma createEditor_same_email (e : env) (b : profile_body) (d : db)
  (name email password : string) (k : ObjectId.t) (holder : Editor.doc) :
  p_name b = Some name -> p_email b = Some email ->
  p_password b = Some password ->
  JS.truthy name = true -> JS.truthy email = true ->
  JS.truthy password = true ->
  editors d !! k = Some holder ->
  Editor.email holder = JS.trim email ->
  AdminRoutes.createEditor e b d = (json 400 (Message "Email already in use"), d).
Proof.
  intros Hn He Hp Tn Te Tp Hk Hh. unfold AdminRoutes.createEditor.
  rewrite Hn, He, Hp, Tn, Te, Tp. cbn [negb orb].
  destruct (findOne_holder
              (fun _ x => String.eqb (Editor.email x) (JS.trim email))
              (editors d) k holder Hk) as [kv ->].
  - rewrite Hh. apply String.eqb_refl.
  - reflexivity.
Qed.

(** The block both account updates share refuses an email another
    account holds, letter for letter. *)
Lemma changeEmail_same_email (k k' : ObjectId.t) (email : string)
  (loaded holder : Editor.doc) (m : gmap N Editor.doc) :
  JS.truthy email = true ->
  email <> Editor.email loaded ->
  m !! k' = Some holder ->
  k' <> k ->
  Editor.email holder = JS.trim email ->
  changeEmail k (Some email) loaded m = None.
Proof.
  intros Te Hne Hk' Hkk Hh. unfold changeEmail. rewrite Te.
  destruct (String.eqb_spec email (Editor.email loaded)); [contradiction|].
  cbn [negb andb].
  destruct (findOne_holder
              (fun k0 x => String.eqb (Editor.email x) (JS.trim email)
                           && negb (N.eqb k0 k))
              m k' holder Hk') as [kv ->]; [|reflexivity].
  rewrite Hh, String.eqb_refl.
  destruct (N.eqb_spec k' k); [contradiction|reflexivity].
Qed.

Lemma updateEditor_same_email (e : env) (param_id : string) (b : profile_body)
  (d : db) (k k' : ObjectId.t) (email : string) (loaded holder : Editor.doc) :
  ObjectId.cast param_id = Some k ->
  editors d !! k = Some loaded ->
  p_email b = Some email ->
  JS.truthy email = true ->
  email <> Editor.email loaded ->
  editors d !! k' = Some holder ->
  k' <> k ->
  Editor.email holder = JS.trim email ->
  AdminRoutes.updateEditor e param_id b d
  = (json 400 (Message "Email is already used by another user"), d).
Proof.
  intros Hc Hk He Te Hne Hk' Hkk Hh. unfold AdminRoutes.updateEditor.
  rewrite (castObjectId_Some _ _ Hc). cbn [bind]. unfold Mongoose.findById.
  rewrite Hk, He.
  rewrite (changeEmail_same_email k k' email loaded holder (editors d));
    auto.
Qed.

Lemma updateMe_same_email (e : env) (user : claims) (b : profile_body)
  (d : db) (k k' : ObjectId.t) (email : string) (loaded holder : Editor.doc) :
  ObjectId.cast (id user) = Some k ->
  editors d !! k = Some loaded ->
  p_email b = Some email ->
  JS.truthy email = true ->
  email <> Editor.email loaded ->
  editors d !! k' = Some holder ->
  k' <> k ->
  Editor.email holder = JS.trim email ->
  EditorRoutes.updateMe e user b d
  = (json 400 (Message "Email is already in use by another user"), d).
Proof.
  intros Hc Hk He Te Hne Hk' Hkk Hh. unfold EditorRoutes.updateMe.
  rewrite (castObjectId_Some _ _ Hc). cbn [bind]. unfold Mongoose.findById.
  rewrite Hk, He.
  rewrite (changeEmail_same_email k k' email loaded holder (editors d));
    auto.
Qed.

(** An email that another account holds letter for letter is refused
    with 400 by POST /editors, PUT /editors/:id and PUT /me, and nothing
    is written. *)
Theorem same_email_refused (e : env) (user : claims) (param_id : string)
  (b : profile_body) (d : db) (k' : ObjectId.t) (email : string)
  (holder : Editor.doc) :
  p_email b = Some email ->
  JS.truthy email = true ->
  editors d !! k' = Some holder ->
  Editor.email holder = JS.trim email ->
  (forall name password,
      p_name b = Some name -> p_password b = Some password ->
      JS.truthy name = true -> JS.truthy password = true ->
      AdminRoutes.createEditor e b d
      = (json 400 (Message "Email already in use"), d))
  /\ (forall k loaded,
        ObjectId.cast param_id = Some k ->
        editors d !! k = Some loaded ->
        email <> Editor.email loaded ->
        k' <> k ->
        AdminRoutes.updateEditor e param_id b d
        = (json 400 (Message "Email is already used by another user"), d))
  /\ (forall k loaded,
        ObjectId.cast (id user) = Some k ->
        editors d !! k = Some loaded ->
        email <> Editor.email loaded ->
        k' <> k ->
        EditorRoutes.updateMe e user b d
        = (json 400 (Message "Email is already in use by another user"), d)).
Proof.
  intros He Te Hk' Hh. split; [|split].
  - intros name password Hn Hp Tn Tp.
    apply (createEditor_same_email e b d name email password k' holder);
      assumption.
  - intros k loaded Hc Hk Hne Hkk.
    apply (updateEditor_same_email e param_id b d k k' email loaded holder);
      assumption.
  - intros k loaded Hc Hk Hne Hkk.
    apply (updateMe_same_email e user b d k k' email loaded holder);
      assumption.
Qed.

Lemma same_email_refused_witness :
  AdminRoutes.createEditor Sample.e
    (mkProfileBody (Some "Al") (Some "a@x.com") (Some "al-pw") None) Sample.db0
  = (json 400 (Message "Email already in use"), Sample.db0)
  /\ AdminRoutes.updateEditor Sample.e Sample.bob_id
       (mkProfileBody (Some "Al") (Some "a@x.com") (Some "al-pw") None)
       Sample.db0
     = (json 400 (Message "Email is already used by another user"), Sample.db0)
  /\ EditorRoutes.updateMe Sample.e Sample.as_bob
       (mkProfileBody (Some "Al") (Some "a@x.com") (Some "al-pw") None)
       Sample.db0
     = (json 400 (Message "Email is already in use by another user"),
        Sample.db0).
Proof.
  pose proof (same_email_refused Sample.e Sample.as_bob Sample.bob_id
                (mkProfileBody (Some "Al") (Some "a@x.com") (Some "al-pw") None)
                Sample.db0 2%N "a@x.com" Sample.alice) as H.
  destruct H as (Hcreate & Hadmin & Hme).
  - reflexivity.
  - reflexivity.
  - vm_compute. reflexivity.
  - reflexivity.
  - split; [|split].
    + apply (Hcreate "Al" "al-pw"); reflexivity.
    + apply (Hadmin 3%N Sample.bob).
      * reflexivity.
      * vm_compute. reflexivity.
      * simpl. discriminate.
      * lia.
    + apply (Hme 3%N Sample.bob).
      * reflexivity.
      * vm_compute. reflexivity.
      * simpl. discriminate.
      * lia.
Defined.

(** C6: an email held by another account is to be refused on every path
    under the normalisation of the login, which lowercases. The checks of
    POST /editors, PUT /editors/:id and PUT /me compare the email as
    given: with "a@x.com" held by account 2, "A@x.com" is accepted for a
    new account, "A@X.COM" for account 3 by the admin and "a@X.com" for
    account 3 by its owner; the login with "A@x.com" reads account 2. *)
Theorem email_check_is_case_sensitive :
  Editor.email <$> editors Sample.db0 !! 2%N = Some "a@x.com"
  /\ (let r := AdminRoutes.createEditor Sample.e
                 (mkProfileBody (Some "Al") (Some "A@x.com") (Some "al-pw") None)
                 Sample.db0 in
      code (fst r) = 201
      /\ Editor.email <$> editors (snd r) !! 32%N = Some "A@x.com"
      /\ Editor.email <$> editors (snd r) !! 2%N = Some "a@x.com")
  /\ (let r := AdminRoutes.updateEditor Sample.e Sample.bob_id
                 (mkProfileBody None (Some "A@X.COM") None None) Sample.db0 in
      code (fst r) = 200
      /\ Editor.email <$> editors (snd r) !! 3%N = Some "A@X.COM")
  /\ (let r := EditorRoutes.updateMe Sample.e Sample.as_bob
                 (mkProfileBody None (Some "a@X.com") None None) Sample.db0 in
      code (fst r) = 200
      /\ Editor.email <$> editors (snd r) !! 3%N = Some "a@X.com")
  /\ fst (AuthRoutes.login Sample.e
            (mkProfileBody None (Some "A@x.com") (Some "alice-pw") None)
            Sample.db0)
     = json 200 (LoggedIn (Auth.generateToken Sample.e 2%N Sample.alice)
                   (view_of 2%N Sample.alice false)).
Proof. repeat split; vm_compute; reflexivity. Qed.

(** ** C7: the owner's update *)

Lemma assign_fields_proj (b : article_body) (a : Article.doc) :
  let x := EditorRoutes.assign_fields b a in
  Article.title x
  = match b_title b with Some v => JS.trim v | None => Article.title a end
  /\ Article.summary x
     = match b_summary b with Some v => JS.trim v | None => Article.summary a end
  /\ Article.content x
     = match b_content b with Some v => v | None => Article.content a end
  /\ Article.imageUrl x
     = match b_imageUrl b with Some v => JS.trim v | None => Article.imageUrl a end
  /\ Article.source x
     = match b_source b with Some v => JS.trim v | None => Article.source a end
  /\ Article.categories x
     = match b_categories b with
       | CatUndefined => Article.categories a
       | c => normalizeCategories c
       end
  /\ Article.status x = Article.status a
  /\ Article.author x = Article.author a
  /\ Article.publishedAt x = Article.publishedAt a
  /\ Article.createdAt x = Article.createdAt a.
Proof.
  unfold EditorRoutes.assign_fields, assign.
  destruct (b_title b), (b_summary b), (b_content b), (b_imageUrl b),
    (b_source b), (b_categories b) as [|cs|cl]; cbn;
    rewrite ?(set_category_normalizeCategories (CatString cs)),
            ?(set_category_normalizeCategories (CatArray cl));
    repeat split; reflexivity.
Qed.

Lemma updateArticle_owner (e : env) (user : claims) (param_id : string)
  (b : article_body) (d : db) (k uid : ObjectId.t) (a : Article.doc) :
  ObjectId.cast param_id = Some k ->
  ObjectId.cast (id user) = Some uid ->
  articles d !! k = Some a ->
  Article.author a = uid ->
  EditorRoutes.updateArticle e user param_id b d
  = match b_status b with
    | Some status =>
        if JS.includes Article.STATUSES status
        then catch500 d
               (let* (article, d') :=
                  Mongoose.saveArticle (now e) k a (staged e b a) d in
                Ok (json 200 (MessageArticle "Article updated successfully"
                                k article), d'))
        else (json 400 (Message "Invalid status value"), d)
    | None =>
        catch500 d
          (let* (article, d') :=
             Mongoose.saveArticle (now e) k a (staged e b a) d in
           Ok (json 200 (MessageArticle "Article updated successfully"
                           k article), d'))
    end.
Proof.
  intros Hc Hu Hk Ha. unfold EditorRoutes.updateArticle, staged.
  rewrite (castObjectId_Some _ _ Hc), (castObjectId_Some _ _ Hu). cbn [bind].
  unfold Mongoose.findOneWithId. rewrite Hk, Ha, N.eqb_refl.
  destruct (b_status b) as [st|]; [|reflexivity].
  destruct (JS.includes Article.STATUSES st); reflexivity.
Qed.

Lemma staged_proj (e : env) (b : article_body) (a : Article.doc) :
  let x := staged e b a in
  Article.title x
  = match b_title b with Some v => JS.trim v | None => Article.title a end
  /\ Article.summary x
     = match b_summary b with Some v => JS.trim v | None => Article.summary a end
  /\ Article.content x
     = match b_content b with Some v => v | None => Article.content a end
  /\ Article.imageUrl x
     = match b_imageUrl b with Some v => JS.trim v | None => Article.imageUrl a end
  /\ Article.source x
     = match b_source b with Some v => JS.trim v | None => Article.source a end
  /\ Article.categories x
     = match b_categories b with
       | CatUndefined => Article.categories a
       | c => normalizeCategories c
       end
  /\ Article.status x
     = match b_status b with Some v => v | None => Article.status a end
  /\ Article.author x = Article.author a
  /\ Article.publishedAt x
     = match b_status b, Article.publishedAt a with
       | Some v, None => if String.eqb v "published" then Some (now e) else None
       | _, p => p
       end
  /\ Article.createdAt x = Article.createdAt a.
Proof.
  destruct (assign_fields_proj b a)
    as (H1 & H2 & H3 & H4 & H5 & H6 & H7 & H8 & H9 & H10).
  unfold staged. destruct (b_status b) as [st|].
  - destruct (String.eqb st "published"); cbn [andb].
    + cbn [Article.set_status Article.publishedAt]. rewrite H9.
      destruct (Article.publishedAt a) as [p|]; cbn;
        repeat split; assumption.
    + cbn. rewrite H9. destruct (Article.publishedAt a);
        repeat split; assumption.
  - rewrite H9. destruct (Article.publishedAt a); repeat split; assumption.
Qed.

Lemma validate_set_updatedAt (t : Z) (a : Article.doc) :
  Article.validate (Article.set_updatedAt t a) = Article.validate a.
Proof. reflexivity. Qed.

(** C7, as the code has it: a status outside the three values gives 400
    "Invalid status value" and nothing written, whatever the other
    fields; with a status that is absent or valid, an update that leaves
    the title or the content empty, or a category outside the
    vocabulary, is refused by the schema, with 500 "Server error" and
    nothing written, and every other update of a valid article is
    accepted; an accepted update stores the fields of the request (title,
    summary, imageUrl and source trimmed, the categories normalised,
    [publishedAt] stamped when the article is published for the first
    time) and keeps every field the request omits; an empty summary,
    imageUrl or source overwrites. *)
Theorem updateArticle_applies_present_fields (e : env) (user : claims)
  (param_id : string) (b : article_body) (d : db) (k uid : ObjectId.t)
  (a : Article.doc) :
  ObjectId.cast param_id = Some k ->
  ObjectId.cast (id user) = Some uid ->
  articles d !! k = Some a ->
  Article.author a = uid ->
  (forall st, b_status b = Some st ->
              JS.includes Article.STATUSES st = false ->
              EditorRoutes.updateArticle e user param_id b d
              = (json 400 (Message "Invalid status value"), d))
  /\ (code (fst (EditorRoutes.updateArticle e user param_id b d)) = 200 ->
      exists a',
        EditorRoutes.updateArticle e user param_id b d
        = (json 200 (MessageArticle "Article updated successfully" k a'),
           snd (EditorRoutes.updateArticle e user param_id b d))
        /\ articles (snd (EditorRoutes.updateArticle e user param_id b d)) !! k
           = Some a'
        /\ Article.validate a' = true
        /\ Article.title a'
           = match b_title b with
             | Some v => JS.trim v
             | None => Article.title a
             end
        /\ Article.summary a'
           = match b_summary b with
             | Some v => JS.trim v
             | None => Article.summary a
             end
        /\ Article.content a'
           = match b_content b with
             | Some v => v
             | None => Article.content a
             end
        /\ Article.imageUrl a'
           = match b_imageUrl b with
             | Some v => JS.trim v
             | None => Article.imageUrl a
             end
        /\ Article.source a'
           = match b_source b with
             | Some v => JS.trim v
             | None => Article.source a
             end
        /\ Article.categories a'
           = match b_categories b with
             | CatUndefined => Article.categories a
             | c => normalizeCategories c
             end
        /\ Article.status a'
           = match b_status b with
             | Some v => v
             | None => Article.status a
             end
        /\ Article.author a' = Article.author a
        /\ Article.publishedAt a'
           = match b_status b, Article.publishedAt a with
             | Some v, None =>
                 if String.eqb v "published" then Some (now e) else None
             | _, p => p
             end
        /\ Article.createdAt a' = Article.createdAt a
        /\ editors (snd (EditorRoutes.updateArticle e user param_id b d))
           = editors d
        /\ forall k', k' <> k ->
             articles (snd (EditorRoutes.updateArticle e user param_id b d)) !! k'
             = articles d !! k')
  /\ (code (fst (EditorRoutes.updateArticle e user param_id b d)) <> 200 ->
      snd (EditorRoutes.updateArticle e user param_id b d) = d)
  /\ (Article.validate a = true ->
      (forall v, b_title b = Some v -> JS.truthy (JS.trim v) = true) ->
      (forall v, b_content b = Some v -> JS.truthy v = true) ->
      forallb (JS.includes Article.CATEGORIES)
        (normalizeCategories (b_categories b)) = true ->
      (forall st, b_status b = Some st ->
                  JS.includes Article.STATUSES st = true) ->
      code (fst (EditorRoutes.updateArticle e user param_id b d)) = 200)
  /\ ((forall st, b_status b = Some st ->
                  JS.includes Article.STATUSES st = true) ->
      (exists v, b_title b = Some v /\ JS.truthy (JS.trim v) = false)
      \/ (exists v, b_content b = Some v /\ JS.truthy v = false)
      \/ (b_categories b <> CatUndefined
          /\ forallb (JS.includes Article.CATEGORIES)
               (normalizeCategories (b_categories b)) = false) ->
      EditorRoutes.updateArticle e user param_id b d
      = (json 500 (Message "Server error"), d)).
Proof.
  intros Hc Hu Hk Ha.
  rewrite (updateArticle_owner e user param_id b d k uid a Hc Hu Hk Ha).
  pose proof (saveArticle_inv (now e) k a (staged e b a) d Hk) as S.
  pose proof (staged_proj e b a) as P. cbv zeta in P.
  assert (Hsave :
    let r := catch500 d
               (let* (article, d') :=
                  Mongoose.saveArticle (now e) k a (staged e b a) d in
                Ok (json 200 (MessageArticle "Article updated successfully"
                                k article), d')) in
    (code (fst r) = 200 ->
     exists a', r = (json 200 (MessageArticle "Article updated successfully"
                                 k a'), snd r)
                /\ articles (snd r) !! k = Some a'
                /\ Article.validate a' = true
                /\ (exists t, a' = Article.set_updatedAt t (staged e b a))
                /\ editors (snd r) = editors d
                /\ forall k', k' <> k -> articles (snd r) !! k' = articles d !! k')
    /\ (code (fst r) <> 200 -> snd r = d)
    /\ (Article.validate (staged e b a) = true -> code (fst r) = 200)).
  { destruct (Mongoose.saveArticle (now e) k a (staged e b a) d)
      as [[a' d']|] eqn:E; cbn [bind catch500 fst snd code json].
    - destruct S as (V & [t ->] & S1 & S2 & S3). repeat split.
      + intros _. exists (Article.set_updatedAt t (staged e b a)).
        repeat split; eauto.
      + intros H. contradiction.
    - repeat split.
      + discriminate.
      + intros V. rewrite V in S. discriminate. }
  cbv zeta in Hsave. destruct Hsave as (H200 & Hno & Hyes).
  assert (Hfields : forall r : response * db,
    (exists a', r = (json 200 (MessageArticle "Article updated successfully"
                                 k a'), snd r)
                /\ articles (snd r) !! k = Some a'
                /\ Article.validate a' = true
                /\ (exists t, a' = Article.set_updatedAt t (staged e b a))
                /\ editors (snd r) = editors d
                /\ forall k', k' <> k -> articles (snd r) !! k' = articles d !! k') ->
    exists a',
      r = (json 200 (MessageArticle "Article updated successfully" k a'), snd r)
      /\ articles (snd r) !! k = Some a'
      /\ Article.validate a' = true
      /\ Article.title a'
         = match b_title b with Some v => JS.trim v | None => Article.title a end
      /\ Article.summary a'
         = match b_summary b with
           | Some v => JS.trim v
           | None => Article.summary a
           end
      /\ Article.content a'
         = match b_content b with Some v => v | None => Article.content a end
      /\ Article.imageUrl a'
         = match b_imageUrl b with
           | Some v => JS.trim v
           | None => Article.imageUrl a
           end
      /\ Article.source a'
         = match b_source b with
           | Some v => JS.trim v
           | None => Article.source a
           end
      /\ Article.categories a'
         = match b_categories b with
           | CatUndefined => Article.categories a
           | c => normalizeCategories c
           end
      /\ Article.status a'
         = match b_status b with Some v => v | None => Article.status a end
      /\ Article.author a' = Article.author a
      /\ Article.publishedAt a'
         = match b_status b, Article.publishedAt a with
           | Some v, None =>
               if String.eqb v "published" then Some (now e) else None
           | _, p => p
           end
      /\ Article.createdAt a' = Article.createdAt a
      /\ editors (snd r) = editors d
      /\ forall k', k' <> k -> articles (snd r) !! k' = articles d !! k').
  { intros r (a' & R1 & R2 & R3 & [t ->] & R5 & R6).
    destruct P as (P1 & P2 & P3 & P4 & P5 & P6 & P7 & P8 & P9 & P10).
    exists (Article.set_updatedAt t (staged e b a)).
    cbn [Article.set_updatedAt Article.title Article.summary Article.content
         Article.imageUrl Article.source Article.categories Article.status
         Article.author Article.publishedAt Article.createdAt].
    repeat split; assumption. }
  assert (Hvalid :
    Article.validate a = true ->
    (forall v, b_title b = Some v -> JS.truthy (JS.trim v) = true) ->
    (forall v, b_content b = Some v -> JS.truthy v = true) ->
    forallb (JS.includes Article.CATEGORIES)
      (normalizeCategories (b_categories b)) = true ->
    (forall st, b_status b = Some st -> JS.includes Article.STATUSES st = true) ->
    Article.validate (staged e b a) = true).
  { intros V Ht Hco Hcat Hst.
    destruct P as (P1 & P2 & P3 & P4 & P5 & P6 & P7 & _).
    unfold Article.validate in *. rewrite P1, P3, P6, P7.
    apply andb_prop in V as [V V4]. apply andb_prop in V as [V V3].
    apply andb_prop in V as [V1 V2].
    repeat (apply andb_true_intro; split).
    - destruct (b_title b); [apply Ht; reflexivity|exact V1].
    - destruct (b_content b); [apply Hco; reflexivity|exact V2].
    - destruct (b_categories b); [exact V3|exact Hcat|exact Hcat].
    - destruct (b_status b); [apply Hst; reflexivity|exact V4]. }
  assert (Hinvalid :
    (exists v, b_title b = Some v /\ JS.truthy (JS.trim v) = false)
    \/ (exists v, b_content b = Some v /\ JS.truthy v = false)
    \/ (b_categories b <> CatUndefined
        /\ forallb (JS.includes Article.CATEGORIES)
             (normalizeCategories (b_categories b)) = false) ->
    Article.validate (staged e b a) = false).
  { intros Hbad. destruct P as (P1 & P2 & P3 & P4 & P5 & P6 & P7 & _).
    unfold Article.validate. rewrite P1, P3, P6.
    destruct Hbad as [(v & Hv & Hf)|[(v & Hv & Hf)|[Hc' Hf]]].
    - rewrite Hv, Hf. reflexivity.
    - rewrite Hv, Hf, andb_false_r. reflexivity.
    - destruct (b_categories b); [contradiction| |];
        rewrite Hf, andb_false_r; reflexivity. }
  assert (H500 :
    Article.validate (staged e b a) = false ->
    catch500 d
      (let* (article, d') :=
         Mongoose.saveArticle (now e) k a (staged e b a) d in
       Ok (json 200 (MessageArticle "Article updated successfully"
                       k article), d'))
    = (json 500 (Message "Server error"), d)).
  { intros V. unfold Mongoose.saveArticle. rewrite V. reflexivity. }
  destruct (b_status b) as [st|] eqn:Est.
  - destruct (JS.includes Article.STATUSES st) eqn:Ei.
    + split; [intros st' [= <-] H'; congruence|].
      split; [intros H; apply Hfields, H200, H|].
      split; [exact Hno|].
      split; [intros V Ht Hco Hcat Hst; apply Hyes, Hvalid; assumption|].
      intros _ Hbad. apply H500, Hinvalid, Hbad.
    + cbn [fst snd code json].
      split; [reflexivity|].
      split; [discriminate|].
      split; [reflexivity|].
      split; [intros _ _ _ _ Hst|intros Hst _];
        rewrite (Hst st eq_refl) in Ei; discriminate.
  - split; [discriminate|].
    split; [intros H; apply Hfields, H200, H|].
    split; [exact Hno|].
    split; [intros V Ht Hco Hcat Hst; apply Hyes, Hvalid; assumption|].
    intros _ Hbad. apply H500, Hinvalid, Hbad.
Qed.

Lemma updateArticle_empty_title_refused :
  JS.truthy "" = false
  /\ EditorRoutes.updateArticle Sample.e Sample.as_alice Sample.story_id
       (mkArticleBody (Some "") None None CatUndefined None None None)
       Sample.db0
     = (json 500 (Message "Server error"), Sample.db0)
  /\ Article.title <$>
       articles (snd (EditorRoutes.updateArticle Sample.e Sample.as_alice
                        Sample.story_id
                        (mkArticleBody (Some "") None None CatUndefined None
                           None None)
                        Sample.db0)) !! 16%N
     = Some "Old"
  /\ EditorRoutes.updateArticle Sample.e Sample.as_alice Sample.story_id
       (mkArticleBody None None (Some "") CatUndefined None None None)
       Sample.db0
     = (json 500 (Message "Server error"), Sample.db0)
  /\ EditorRoutes.updateArticle Sample.e Sample.as_alice Sample.story_id
       (mkArticleBody None None None (CatArray ["gossip"]) None None None)
       Sample.db0
     = (json 500 (Message "Server error"), Sample.db0).
Proof. repeat split; vm_compute; reflexivity. Qed.

Lemma updateArticle_applies_present_fields_witness :
  code (fst (EditorRoutes.updateArticle Sample.e Sample.as_alice
               Sample.story_id
               (mkArticleBody (Some " New title ") (Some "") None
                  (CatString "Tech, law") None None (Some "in_review"))
               Sample.db0))
  = 200
  /\ EditorRoutes.updateArticle Sample.e Sample.as_alice Sample.story_id
       (mkArticleBody (Some " ") None None CatUndefined None None
          (Some "draft"))
       Sample.db0
     = (json 500 (Message "Server error"), Sample.db0)
  /\ EditorRoutes.updateArticle Sample.e Sample.as_alice Sample.story_id
       (mkArticleBody (Some " ") None None CatUndefined None None
          (Some "archived"))
       Sample.db0
     = (json 400 (Message "Invalid status value"), Sample.db0).
Proof.
  split; [|split].
  - apply (updateArticle_applies_present_fields Sample.e Sample.as_alice
             Sample.story_id
             (mkArticleBody (Some " New title ") (Some "") None
                (CatString "Tech, law") None None (Some "in_review"))
             Sample.db0 16%N 2%N Sample.story).
    + reflexivity.
    + reflexivity.
    + vm_compute. reflexivity.
    + reflexivity.
    + reflexivity.
    + simpl. intros v [= <-]. vm_compute. reflexivity.
    + simpl. intros v H. discriminate H.
    + vm_compute. reflexivity.
    + simpl. intros st [= <-]. vm_compute. reflexivity.
  - apply (updateArticle_applies_present_fields Sample.e Sample.as_alice
             Sample.story_id
             (mkArticleBody (Some " ") None None CatUndefined None None
                (Some "draft"))
             Sample.db0 16%N 2%N Sample.story).
    + reflexivity.
    + reflexivity.
    + vm_compute. reflexivity.
    + reflexivity.
    + simpl. intros st [= <-]. vm_compute. reflexivity.
    + left. exists " ". split; [reflexivity|vm_compute; reflexivity].
  - apply (updateArticle_applies_present_fields Sample.e Sample.as_alice
             Sample.story_id
             (mkArticleBody (Some " ") None None CatUndefined None None
                (Some "archived"))
             Sample.db0 16%N 2%N Sample.story) with (st := "archived").
    + reflexivity.
    + reflexivity.
    + vm_compute. reflexivity.
    + reflexivity.
    + reflexivity.
    + vm_compute. reflexivity.
Defined.

(** ** C9: creating an article *)

Lemma trim_truthy (s : string) :
  JS.truthy (JS.trim s) = true -> JS.truthy s = true.
Proof. destruct s; [discriminate|reflexivity]. Qed.

Lemma or_else_published (v : option string) :
  or_else v "draft" = "published" <-> v = Some "published".
Proof.
  unfold or_else. destruct v as [s|]; [|split; discriminate].
  destruct (JS.truthy s) eqn:T.
  - split; [intros ->; reflexivity|intros [= ->]; reflexivity].
  - destruct s; [|discriminate]. split; discriminate.
Qed.

(** C9, as the code has it: with a title that is not blank, a content
    that is not empty, tags of the vocabulary and a status that is absent,
    empty or one of the three values, the article is created for the
    caller with the normalised categories (["latest"] when the request has
    none), the given status ("draft" when it is absent or empty), and
    [publishedAt] set to the time of the request exactly when that status
    is "published". *)
Theorem createArticle_defaults (e : env) (user : claims) (b : article_body)
  (d : db) (uid : ObjectId.t) (title content : string) :
  b_title b = Some title ->
  b_content b = Some content ->
  JS.truthy (JS.trim title) = true ->
  JS.truthy content = true ->
  ObjectId.cast (id user) = Some uid ->
  articles d !! freshId e = None ->
  forallb (JS.includes Article.CATEGORIES)
    (normalizeCategories (b_categories b)) = true ->
  JS.includes Article.STATUSES (or_else (b_status b) "draft") = true ->
  exists a,
    EditorRoutes.createArticle e user b d
    = (json 201 (MessageArticle "Article created successfully" (freshId e) a),
       with_articles (<[freshId e := a]> (articles d)) d)
    /\ Article.author a = uid
    /\ Article.title a = JS.trim title
    /\ Article.content a = content
    /\ Article.categories a = normalizeCategories (b_categories b)
    /\ (b_categories b = CatUndefined -> Article.categories a = ["latest"])
    /\ Article.status a = or_else (b_status b) "draft"
    /\ (b_status b = None ->
        Article.status a = "draft" /\ Article.publishedAt a = None)
    /\ (Article.publishedAt a = Some (now e) <-> Article.status a = "published")
    /\ (Article.publishedAt a = None <-> Article.status a <> "published").
Proof.
  intros Ht Hc Tt Tc Hu Hfresh Hcats Hst.
  unfold EditorRoutes.createArticle.
  rewrite Ht, Hc, (trim_truthy _ Tt), Tc. cbn [negb orb].
  rewrite (castObjectId_Some _ _ Hu). cbn [bind].
  rewrite set_category_normalizeCategories.
  unfold Mongoose.createArticle, Article.validate.
  cbn [Article.title Article.content Article.categories Article.status
       Article.summary Article.imageUrl Article.source Article.author
       Article.publishedAt].
  rewrite Tt, Tc, Hcats, Hst. cbn [andb negb]. rewrite Hfresh. cbn [bind catch500].
  eexists. split; [reflexivity|].
  cbn [Article.title Article.content Article.categories Article.status
       Article.author Article.publishedAt].
  repeat match goal with |- _ /\ _ => split end; try reflexivity.
  - intros ->. reflexivity.
  - intros ->. split; reflexivity.
  - split.
    + intros H. apply or_else_published.
      destruct (b_status b) as [st|]; [|discriminate].
      destruct (String.eqb_spec st "published"); [subst; reflexivity|discriminate].
    + intros H. apply or_else_published in H. rewrite H. reflexivity.
  - split.
    + intros H Hp. apply or_else_published in Hp. rewrite Hp in H. discriminate.
    + intros H. destruct (b_status b) as [st|]; [|reflexivity].
      destruct (String.eqb_spec st "published"); [|reflexivity].
      subst st. exfalso. apply H. reflexivity.
Qed.

Lemma createArticle_blank_title_refused :
  JS.truthy " " = true
  /\ EditorRoutes.createArticle Sample.e Sample.as_alice
       (mkArticleBody (Some " ") None (Some "B") CatUndefined None None None)
       Sample.db0
     = (json 500 (Message "Server error"), Sample.db0)
  /\ EditorRoutes.createArticle Sample.e Sample.as_alice
       (mkArticleBody (Some "A") None (Some "B") CatUndefined None None
          (Some "archived"))
       Sample.db0
     = (json 500 (Message "Server error"), Sample.db0)
  /\ EditorRoutes.createArticle Sample.e Sample.as_alice
       (mkArticleBody (Some "A") None (Some "B") (CatString "gossip") None None
          (Some "published"))
       Sample.db0
     = (json 500 (Message "Server error"), Sample.db0).
Proof. repeat split; vm_compute; reflexivity. Qed.

Lemma createArticle_defaults_witness :
  exists a,
    EditorRoutes.createArticle Sample.e Sample.as_alice
      (mkArticleBody (Some "A") None (Some "B") CatUndefined None None None)
      Sample.db0
    = (json 201 (MessageArticle "Article created successfully" 32%N a),
       with_articles (<[32%N := a]> (articles Sample.db0)) Sample.db0)
    /\ Article.categories a = ["latest"]
    /\ Article.status a = "draft"
    /\ Article.publishedAt a = None.
Proof.
  destruct (createArticle_defaults Sample.e Sample.as_alice
              (mkArticleBody (Some "A") None (Some "B") CatUndefined None None
                 None)
              Sample.db0 2%N "A" "B")
    as (a & H & _ & _ & _ & _ & Hcat & _ & Hdraft & _).
  - reflexivity.
  - reflexivity.
  - reflexivity.
  - reflexivity.
  - reflexivity.
  - vm_compute. reflexivity.
  - vm_compute. reflexivity.
  - vm_compute. reflexivity.
  - exists a. split; [exact H|]. split; [apply Hcat; reflexivity|].
    apply Hdraft. reflexivity.
Defined.

(** ** C10: where admin accounts come from *)

Lemma no_new_admin_refl (d : db) : no_new_admin d d.
Proof. intros k x Hk Hr. eauto. Qed.

Lemma no_new_admin_same_editors (d d' : db) :
  editors d' = editors d -> no_new_admin d d'.
Proof. intros E k x Hk Hr. rewrite E in Hk. eauto. Qed.

Lemma catch500_no_new_admin (d : db) (r : result (response * db)) :
  (forall resp d', r = Ok (resp, d') -> no_new_admin d d') ->
  no_new_admin d (snd (catch500 d r)).
Proof.
  intros H. destruct r as [[resp d']|]; cbn [catch500 snd].
  - eapply H. reflexivity.
  - apply no_new_admin_refl.
Qed.

Lemma saveEditor_no_new_admin (now : Z) (k : ObjectId.t)
  (loaded x ed' : Editor.doc) (d d' : db) :
  editors d !! k = Some loaded ->
  Editor.role x = Editor.role loaded ->
  Mongoose.saveEditor now k loaded x d = Ok (ed', d') ->
  no_new_admin d d'.
Proof.
  intros Hk Hr. unfold Mongoose.saveEditor.
  destruct (negb (Editor.validate x)); [discriminate|].
  destruct (decide (x = loaded)); [intros [= _ <-]; apply no_new_admin_refl|].
  destruct (_ && _); [discriminate|].
  intros [= _ <-]. intros k' y Hk' Hy. cbn [editors with_editors] in Hk'.
  destruct (decide (k = k')) as [<-|Hne].
  - rewrite lookup_insert_eq in Hk'. injection Hk' as <-.
    exists loaded. split; [exact Hk|]. cbn in Hy. congruence.
  - rewrite lookup_insert_ne in Hk' by exact Hne. eauto.
Qed.

Lemma saveArticle_editors (now : Z) (k : ObjectId.t) (loaded x a' : Article.doc)
  (d d' : db) :
  Mongoose.saveArticle now k loaded x d = Ok (a', d') -> editors d' = editors d.
Proof.
  unfold Mongoose.saveArticle.
  destruct (negb (Article.validate x)); [discriminate|].
  destruct (decide (x = loaded)); intros [= _ <-]; reflexivity.
Qed.

Lemma changeEmail_role (k : ObjectId.t) (v : option string)
  (loaded x : Editor.doc) (m : gmap N Editor.doc) :
  changeEmail k v loaded m = Some x -> Editor.role x = Editor.role loaded.
Proof.
  unfold changeEmail. destruct v as [em|]; [|intros [= <-]; reflexivity].
  destruct (_ && _); [|intros [= <-]; reflexivity].
  destruct (Mongoose.findOne _ m); [discriminate|].
  intros [= <-]. reflexivity.
Qed.

Lemma assign_name_role (v : option string) (x : Editor.doc) :
  Editor.role (assign_truthy v Editor.set_name x) = Editor.role x.
Proof.
  unfold assign_truthy. destruct v as [s|]; [|reflexivity].
  destruct (JS.truthy s); reflexivity.
Qed.

(** POST /editors writes at most the new account, with the role "user". *)
Lemma createEditor_writes (e : env) (b : profile_body) (d : db) :
  (code (fst (AdminRoutes.createEditor e b d)) = 201 ->
   exists account,
     snd (AdminRoutes.createEditor e b d)
     = with_editors (<[freshId e := account]> (editors d)) d
     /\ editors d !! freshId e = None
     /\ Editor.role account = "user")
  /\ (code (fst (AdminRoutes.createEditor e b d)) <> 201 ->
      snd (AdminRoutes.createEditor e b d) = d).
Proof.
  unfold AdminRoutes.createEditor.
  destruct (p_name b) as [name|], (p_email b) as [email|],
    (p_password b) as [password|];
    cbn [catch500 fst snd code json]; try (split; [discriminate|reflexivity]).
  destruct (_ || _); cbn [catch500 fst snd code json];
    [split; [discriminate|reflexivity]|].
  destruct (Mongoose.findOne _ (editors d));
    cbn [catch500 fst snd code json]; [split; [discriminate|reflexivity]|].
  unfold Mongoose.createEditor.
  destruct (negb (Editor.validate _));
    cbn [bind catch500 fst snd code json]; [split; [discriminate|reflexivity]|].
  destruct (editors d !! freshId e) eqn:F;
    cbn [bind catch500 fst snd code json]; [split; [discriminate|reflexivity]|].
  destruct (Mongoose.emailTaken _ _ _);
    cbn [bind catch500 fst snd code json]; [split; [discriminate|reflexivity]|].
  split; [|intros H; contradiction].
  intros _. eexists. split; [reflexivity|]. split; reflexivity.
Qed.

Lemma createEditor_no_new_admin (e : env) (b : profile_body) (d : db) :
  no_new_admin d (snd (AdminRoutes.createEditor e b d)).
Proof.
  destruct (createEditor_writes e b d) as [Hyes Hno].
  destruct (Nat.eq_dec (code (fst (AdminRoutes.createEditor e b d))) 201)
    as [E|E].
  - destruct (Hyes E) as (x & -> & Hf & Hr).
    intros k y Hk Hy. cbn [editors with_editors] in Hk.
    destruct (decide (freshId e = k)) as [<-|Hne].
    + rewrite lookup_insert_eq in Hk. injection Hk as <-.
      rewrite Hr in Hy. discriminate.
    + rewrite lookup_insert_ne in Hk by exact Hne. eauto.
  - rewrite (Hno E). apply no_new_admin_refl.
Qed.

Lemma resetPassword_no_new_admin (e : env) (param_id : string) (d : db) :
  no_new_admin d (snd (AdminRoutes.resetPassword e param_id d)).
Proof.
  unfold AdminRoutes.resetPassword. apply catch500_no_new_admin.
  intros resp d'.
  destruct (Mongoose.castObjectId param_id) as [k|]; cbn [bind]; [|discriminate].
  unfold Mongoose.findById.
  destruct (editors d !! k) as [loaded|] eqn:Hk;
    [|intros [= _ <-]; apply no_new_admin_refl].
  destruct (Mongoose.saveEditor _ _ _ _ _) as [[x d1]|] eqn:S; cbn [bind];
    [|discriminate].
  intros [= _ <-].
  eapply saveEditor_no_new_admin; [exact Hk| |exact S]. reflexivity.
Qed.

Lemma deleteEditor_no_new_admin (user : claims) (param_id : string) (d : db) :
  no_new_admin d (snd (AdminRoutes.deleteEditor user param_id d)).
Proof.
  unfold AdminRoutes.deleteEditor. apply catch500_no_new_admin.
  intros resp d'.
  destruct (String.eqb _ param_id); [intros [= _ <-]; apply no_new_admin_refl|].
  destruct (Mongoose.castObjectId param_id) as [k|]; cbn [bind]; [|discriminate].
  unfold Mongoose.findById.
  destruct (editors d !! k) as [loaded|] eqn:Hk;
    intros [= _ <-]; [|apply no_new_admin_refl].
  intros k' y Hk' Hy. cbn [editors with_editors] in Hk'.
  apply lookup_delete_Some in Hk' as [_ Hk']. eauto.
Qed.

Lemma updateMe_no_new_admin (e : env) (user : claims) (b : profile_body)
  (d : db) :
  no_new_admin d (snd (EditorRoutes.updateMe e user b d)).
Proof.
  unfold EditorRoutes.updateMe. apply catch500_no_new_admin.
  intros resp d'.
  destruct (Mongoose.castObjectId (id user)) as [k|]; cbn [bind]; [|discriminate].
  unfold Mongoose.findById.
  destruct (editors d !! k) as [loaded|] eqn:Hk;
    [|intros [= _ <-]; apply no_new_admin_refl].
  destruct (changeEmail k (p_email b) loaded (editors d)) as [x|] eqn:C;
    [|intros [= _ <-]; apply no_new_admin_refl].
  destruct (Mongoose.saveEditor _ _ _ _ _) as [[y d1]|] eqn:S; cbn [bind];
    [|discriminate].
  intros [= _ <-].
  eapply saveEditor_no_new_admin; [exact Hk| |exact S].
  rewrite assign_name_role. eapply changeEmail_role, C.
Qed.

Lemma changePassword_no_new_admin (e : env) (user : claims)
  (b : password_body) (d : db) :
  no_new_admin d (snd (EditorRoutes.changePassword e user b d)).
Proof.
  unfold EditorRoutes.changePassword. apply catch500_no_new_admin.
  intros resp d'.
  destruct (currentPassword b) as [current|], (newPassword b) as [new|];
    try (intros [= _ <-]; apply no_new_admin_refl).
  destruct (_ || _); [intros [= _ <-]; apply no_new_admin_refl|].
  destruct (Mongoose.castObjectId (id user)) as [k|]; cbn [bind]; [|discriminate].
  unfold Mongoose.findById.
  destruct (editors d !! k) as [loaded|] eqn:Hk;
    [|intros [= _ <-]; apply no_new_admin_refl].
  destruct (negb (comparePassword e current (Editor.password loaded)));
    [intros [= _ <-]; apply no_new_admin_refl|].
  destruct (Mongoose.saveEditor _ _ _ _ _) as [[y d1]|] eqn:S; cbn [bind];
    [|discriminate].
  intros [= _ <-].
  eapply saveEditor_no_new_admin; [exact Hk| |exact S]. reflexivity.
Qed.

Lemma createArticle_no_new_admin (e : env) (user : claims) (b : article_body)
  (d : db) :
  no_new_admin d (snd (EditorRoutes.createArticle e user b d)).
Proof.
  unfold EditorRoutes.createArticle. apply catch500_no_new_admin.
  intros resp d'.
  destruct (b_title b) as [title|], (b_content b) as [content|];
    try (intros [= _ <-]; apply no_new_admin_refl).
  destruct (_ || _); [intros [= _ <-]; apply no_new_admin_refl|].
  destruct (Mongoose.castObjectId (id user)) as [uid|]; cbn [bind]; [|discriminate].
  unfold Mongoose.createArticle.
  destruct (negb (Article.validate _)); cbn [bind]; [discriminate|].
  destruct (articles d !! freshId e); cbn [bind]; [discriminate|].
  intros [= _ <-]. apply no_new_admin_same_editors. reflexivity.
Qed.

Lemma updateArticle_no_new_admin (e : env) (user : claims) (param_id : string)
  (b : article_body) (d : db) :
  no_new_admin d (snd (EditorRoutes.updateArticle e user param_id b d)).
Proof.
  unfold EditorRoutes.updateArticle. apply catch500_no_new_admin.
  intros resp d'.
  destruct (Mongoose.castObjectId param_id) as [k|]; cbn [bind]; [|discriminate].
  destruct (Mongoose.castObjectId (id user)) as [uid|]; cbn [bind]; [|discriminate].
  destruct (Mongoose.findOneWithId k _ (articles d)) as [loaded|];
    [|intros [= _ <-]; apply no_new_admin_refl].
  destruct (b_status b) as [st|].
  - destruct (negb (JS.includes Article.STATUSES st));
      [intros [= _ <-]; apply no_new_admin_refl|].
    destruct (Mongoose.saveArticle _ _ _ _ _) as [[y d1]|] eqn:S; cbn [bind];
      [|discriminate].
    intros [= _ <-]. eapply no_new_admin_same_editors, saveArticle_editors, S.
  - destruct (Mongoose.saveArticle _ _ _ _ _) as [[y d1]|] eqn:S; cbn [bind];
      [|discriminate].
    intros [= _ <-]. eapply no_new_admin_same_editors, saveArticle_editors, S.
Qed.

Lemma setStatus_no_new_admin (e : env) (param_id : string)
  (status : option string) (d : db) :
  no_new_admin d (snd (AdminRoutes.setStatus e param_id status d)).
Proof.
  unfold AdminRoutes.setStatus. apply catch500_no_new_admin.
  intros resp d'.
  destruct status as [st|]; [|intros [= _ <-]; apply no_new_admin_refl].
  destruct (negb (JS.includes Article.STATUSES st));
    [intros [= _ <-]; apply no_new_admin_refl|].
  destruct (negb (ObjectId.isValid param_id));
    [intros [= _ <-]; apply no_new_admin_refl|].
  destruct (Mongoose.castObjectId param_id) as [k|]; cbn [bind]; [|discriminate].
  destruct (Mongoose.findById k (articles d)) as [loaded|];
    [|intros [= _ <-]; apply no_new_admin_refl].
  destruct (Mongoose.saveArticle _ _ _ _ _) as [[y d1]|] eqn:S; cbn [bind];
    [|discriminate].
  intros [= _ <-]. eapply no_new_admin_same_editors, saveArticle_editors, S.
Qed.

Lemma admin_getArticle_reads (param_id : string) (d : db) :
  snd (AdminRoutes.getArticle param_id d) = d.
Proof.
  unfold AdminRoutes.getArticle.
  destruct (negb (ObjectId.isValid param_id)); [reflexivity|].
  destruct (Mongoose.castObjectId param_id); cbn [bind]; [|reflexivity].
  destruct (Mongoose.findById _ _); reflexivity.
Qed.

Lemma editor_getArticle_reads (user : claims) (param_id : string) (d : db) :
  snd (EditorRoutes.getArticle user param_id d) = d.
Proof.
  unfold EditorRoutes.getArticle.
  destruct (Mongoose.castObjectId param_id); cbn [bind]; [|reflexivity].
  destruct (Mongoose.castObjectId (id user)); cbn [bind]; [|reflexivity].
  destruct (Mongoose.findOneWithId _ _ _); reflexivity.
Qed.

Lemma public_getArticle_reads (param_id : string) (d : db) :
  snd (PublicRoutes.getArticle param_id d) = d.
Proof.
  unfold PublicRoutes.getArticle.
  destruct (Mongoose.castObjectId param_id); cbn [bind]; [|reflexivity].
  destruct (Mongoose.findOneWithId _ _ _); reflexivity.
Qed.

Lemma listArticles_reads (e : env) (category search : option string) (d : db) :
  snd (PublicRoutes.listArticles e category search d) = d.
Proof.
  unfold PublicRoutes.listArticles.
  destruct (PublicRoutes.compile e category _); cbn [bind]; [|reflexivity].
  destruct (PublicRoutes.compile e search _); reflexivity.
Qed.

Lemma login_reads (e : env) (b : profile_body) (d : db) :
  snd (AuthRoutes.login e b d) = d.
Proof.
  unfold AuthRoutes.login.
  destruct (p_email b); [|reflexivity].
  destruct (Mongoose.findOne _ _) as [[k u]|]; [|reflexivity].
  destruct (p_password b); [|reflexivity].
  destruct (negb _); reflexivity.
Qed.

Lemma admin_overview_reads (d : db) : snd (AdminRoutes.overview d) = d.
Proof. reflexivity. Qed.

Lemma editor_overview_reads (user : claims) (d : db) :
  snd (EditorRoutes.overview user d) = d.
Proof.
  unfold EditorRoutes.overview.
  destruct (Mongoose.castObjectId (id user)); reflexivity.
Qed.

Lemma getMe_reads (user : claims) (d : db) :
  snd (EditorRoutes.getMe user d) = d.
Proof.
  unfold EditorRoutes.getMe.
  destruct (Mongoose.castObjectId (id user)); cbn [bind]; [|reflexivity].
  destruct (Mongoose.findById _ _); reflexivity.
Qed.

Lemma authMiddleware_no_new_admin (e : env) (auth : Auth.authorization)
  (next : claims -> db -> response * db) (d : db) :
  (forall user, no_new_admin d (snd (next user d))) ->
  no_new_admin d (snd (Auth.authMiddleware e auth next d)).
Proof.
  intros H. unfold Auth.authMiddleware.
  destruct auth as [|t|]; try apply no_new_admin_refl.
  destruct (Auth.jwt_verify _ _ _); [apply H|apply no_new_admin_refl].
Qed.

Lemma admin_no_new_admin (e : env) (auth : Auth.authorization)
  (h : claims -> db -> response * db) (d : db) :
  (forall user, no_new_admin d (snd (h user d))) ->
  no_new_admin d (snd (Index.admin e auth h d)).
Proof.
  intros H. unfold Index.admin. apply authMiddleware_no_new_admin.
  intros user. unfold AdminRoutes.requireAdmin.
  destruct (negb _); [apply no_new_admin_refl|apply H].
Qed.

Lemma listEditors_reads (e : env) (limit : option string) (d : db) :
  snd (AdminRoutes.listEditors e limit d) = d.
Proof.
  unfold AdminRoutes.listEditors.
  destruct (Lists.adminEditors _ _ _) as [c [m|items]]; reflexivity.
Qed.

Lemma admin_listArticles_reads (e : env) (status page limit : option string)
  (d : db) :
  snd (AdminRoutes.listArticles e status page limit d) = d.
Proof.
  unfold AdminRoutes.listArticles.
  destruct (skip_limit e _ _) as [[skip limited]|]; reflexivity.
Qed.

Lemma editor_listArticles_reads (e : env) (user : claims)
  (status limit : option string) (d : db) :
  snd (EditorRoutes.listArticles e user status limit d) = d.
Proof.
  unfold EditorRoutes.listArticles.
  destruct (Lists.editorArticles _ _ _ _ _) as [c [m|items]]; reflexivity.
Qed.

(** No route but PUT /api/admin/editors/:id leaves an admin behind that
    was not one before. *)
Lemma handle_no_new_admin (e : env) (req : Index.request) (d : db) :
  (forall auth param_id body,
      req <> Index.PUT_admin_editor auth param_id body) ->
  no_new_admin d (snd (Index.handle e req d)).
Proof.
  intros Hreq. destruct req; cbn [Index.handle].
  - apply no_new_admin_refl.
  - apply admin_no_new_admin. intros _. apply createEditor_no_new_admin.
  - apply admin_no_new_admin. intros _. apply no_new_admin_same_editors.
    rewrite listEditors_reads. reflexivity.
  - apply admin_no_new_admin. intros _. apply no_new_admin_same_editors.
    rewrite admin_listArticles_reads. reflexivity.
  - apply authMiddleware_no_new_admin. intros user.
    apply no_new_admin_same_editors.
    rewrite editor_listArticles_reads. reflexivity.
  - exfalso. eapply Hreq. reflexivity.
  - apply admin_no_new_admin. intros _. apply resetPassword_no_new_admin.
  - apply admin_no_new_admin. intros user. apply deleteEditor_no_new_admin.
  - apply admin_no_new_admin. intros _. apply no_new_admin_same_editors.
    rewrite admin_overview_reads. reflexivity.
  - apply admin_no_new_admin. intros _. apply no_new_admin_same_editors.
    rewrite admin_getArticle_reads. reflexivity.
  - apply admin_no_new_admin. intros _. apply setStatus_no_new_admin.
  - apply authMiddleware_no_new_admin. intros user.
    apply createArticle_no_new_admin.
  - apply authMiddleware_no_new_admin. intros user.
    apply updateArticle_no_new_admin.
  - apply authMiddleware_no_new_admin. intros user.
    apply no_new_admin_same_editors.
    rewrite editor_getArticle_reads. reflexivity.
  - apply authMiddleware_no_new_admin. intros user.
    apply no_new_admin_same_editors.
    rewrite editor_overview_reads. reflexivity.
  - apply authMiddleware_no_new_admin. intros user.
    apply no_new_admin_same_editors.
    rewrite getMe_reads. reflexivity.
  - apply authMiddleware_no_new_admin. intros user.
    apply updateMe_no_new_admin.
  - apply authMiddleware_no_new_admin. intros user.
    apply changePassword_no_new_admin.
  - apply no_new_admin_same_editors. rewrite listArticles_reads. reflexivity.
  - apply no_new_admin_same_editors. rewrite public_getArticle_reads.
    reflexivity.
  - apply no_new_admin_same_editors. rewrite login_reads. reflexivity.
Qed.

(** PUT /api/admin/editors/:id makes an admin of the account it
    addresses, and only when the request says so in its role field. *)
Lemma updateEditor_new_admin (e : env) (param_id : string) (b : profile_body)
  (d : db) (k : ObjectId.t) (account' : Editor.doc) :
  editors (snd (AdminRoutes.updateEditor e param_id b d)) !! k = Some account' ->
  Editor.role account' = "admin" ->
  (exists account, editors d !! k = Some account
                   /\ Editor.role account = "admin")
  \/ (p_role b = Some "admin" /\ ObjectId.cast param_id = Some k).
Proof.
  unfold AdminRoutes.updateEditor, Mongoose.castObjectId.
  destruct (ObjectId.cast param_id) as [k0|] eqn:Hc; cbn [bind catch500 snd];
    [|intros; left; eauto].
  unfold Mongoose.findById.
  destruct (editors d !! k0) as [loaded|] eqn:Hk0; cbn [catch500 snd];
    [|intros; left; eauto].
  destruct (changeEmail k0 (p_email b) loaded (editors d)) as [x|] eqn:C;
    cbn [catch500 snd]; [|intros; left; eauto].
  apply changeEmail_role in C.
  set (y := assign_truthy (p_role b) Editor.set_role
              (assign_truthy (p_name b) Editor.set_name x)).
  assert (Hy : Editor.role y = Editor.role loaded
               \/ (exists v, p_role b = Some v /\ Editor.role y = v)).
  { assert (Hrole : forall v z,
               Editor.role (assign_truthy v Editor.set_role z)
               = match v with
                 | Some r => if JS.truthy r then r else Editor.role z
                 | None => Editor.role z
                 end).
    { intros [r|] z; unfold assign_truthy; [destruct (JS.truthy r)|];
        reflexivity. }
    subst y. rewrite Hrole, assign_name_role.
    destruct (p_role b) as [v|]; [destruct (JS.truthy v)|]; eauto. }
  clearbody y. unfold Mongoose.saveEditor.
  destruct (negb (Editor.validate y)); cbn [bind catch500 snd];
    [intros; left; eauto|].
  destruct (decide (y = loaded)); cbn [bind catch500 snd];
    [intros; left; eauto|].
  destruct (_ && _); cbn [bind catch500 snd]; [intros; left; eauto|].
  cbn [editors with_editors]. intros Hk Hr.
  destruct (decide (k0 = k)) as [<-|Hne].
  - rewrite lookup_insert_eq in Hk. injection Hk as <-. cbn in Hr.
    destruct Hy as [Hy|(v & Hv & Hy)].
    + left. exists loaded. split; [exact Hk0|congruence].
    + right. split; [congruence|reflexivity].
  - rewrite lookup_insert_ne in Hk by exact Hne. left. eauto.
Qed.

Lemma handle_new_admin (e : env) (req : Index.request) (d : db)
  (k : ObjectId.t) (account' : Editor.doc) :
  editors (snd (Index.handle e req d)) !! k = Some account' ->
  Editor.role account' = "admin" ->
  (exists account, editors d !! k = Some account
                   /\ Editor.role account = "admin")
  \/ (exists auth param_id body,
        req = Index.PUT_admin_editor auth param_id body
        /\ p_role body = Some "admin"
        /\ ObjectId.cast param_id = Some k).
Proof.
  intros Hk Hr.
  destruct req;
    try (left;
         refine (handle_no_new_admin e _ d _ k account' Hk Hr);
         intros; discriminate).
  revert Hk. cbn [Index.handle]. unfold Index.admin, Auth.authMiddleware.
  destruct auth as [|t|]; cbn [snd]; try solve [intros; left; eauto].
  destruct (Auth.jwt_verify _ _ _) as [user|]; cbn [snd];
    [|intros; left; eauto].
  unfold AdminRoutes.requireAdmin.
  destruct (negb _); cbn [snd]; [intros; left; eauto|].
  intros Hk. destruct (updateEditor_new_admin _ _ _ _ _ _ Hk Hr) as [H|[H1 H2]];
    [left; exact H|right; eauto 6].
Qed.

(** What the second half of the seed leaves in the collection. *)
Lemma createAdmin_lookup (es : env) (d : db) (k : ObjectId.t) (x : Editor.doc) :
  editors (Index.createAdmin es d) !! k = Some x ->
  editors d !! k = Some x \/ k = freshId es.
Proof.
  unfold Index.createAdmin, Mongoose.createEditor.
  destruct (negb _); [left; assumption|].
  destruct (editors d !! freshId es); [left; assumption|].
  destruct (Mongoose.emailTaken _ _ _); [left; assumption|].
  cbn [editors with_editors]. intros Hk.
  destruct (decide (freshId es = k)) as [<-|Hne]; [right; reflexivity|].
  rewrite lookup_insert_ne in Hk by exact Hne. left. exact Hk.
Qed.

Lemma createInitialAdmin_lookup (es : env) (d : db) (k : ObjectId.t)
  (x : Editor.doc) :
  editors (Index.createInitialAdmin es d) !! k = Some x ->
  editors d !! k = Some x
  \/ k = freshId es
     /\ forall k0 x0, editors d !! k0 = Some x0 -> Editor.role x0 <> "admin".
Proof.
  change (Index.createInitialAdmin es d)
    with (match Mongoose.findOne
                  (fun _ x => String.eqb (Editor.role x) "admin")
                  (editors d) with
          | Some _ => d
          | None => Index.createAdmin es d
          end).
  destruct (Mongoose.findOne _ _) eqn:F; [left; assumption|].
  intros Hk. apply createAdmin_lookup in Hk as [Hk|Hk]; [left; exact Hk|].
  right. split; [exact Hk|]. apply findOne_admin_None, F.
Qed.

(** C10: POST /api/admin/editors never reads a role from the request and
    stores the new account with the role "user". An account that is an
    admin after a request and was not one before is the account that
    PUT /api/admin/editors/:id addresses, in a request whose role field
    is "admin"; with the seed that the first middleware starts on every
    request, it can also be the document of the seed, whose query found
    no admin. *)
Theorem createEditor_role_user (e : env) (b : profile_body)
  (role_sent : option string) (req : Index.request) (d : db) :
  AdminRoutes.createEditor e
    (mkProfileBody (p_name b) (p_email b) (p_password b) role_sent) d
  = AdminRoutes.createEditor e b d
  /\ (code (fst (AdminRoutes.createEditor e b d)) = 201 ->
      exists account,
        snd (AdminRoutes.createEditor e b d)
        = with_editors (<[freshId e := account]> (editors d)) d
        /\ editors d !! freshId e = None
        /\ Editor.role account = "user")
  /\ (code (fst (AdminRoutes.createEditor e b d)) <> 201 ->
      snd (AdminRoutes.createEditor e b d) = d)
  /\ (forall (k : ObjectId.t) (account' : Editor.doc),
        editors (snd (Index.handle e req d)) !! k = Some account' ->
        Editor.role account' = "admin" ->
        (exists account, editors d !! k = Some account
                         /\ Editor.role account = "admin")
        \/ (exists auth param_id body,
              req = Index.PUT_admin_editor auth param_id body
              /\ p_role body = Some "admin"
              /\ ObjectId.cast param_id = Some k))
  /\ (forall (s : Index.schedule) (es : env) (k : ObjectId.t)
             (account' : Editor.doc),
        editors (snd (Index.app s es e req d)) !! k = Some account' ->
        Editor.role account' = "admin" ->
        (exists account, editors d !! k = Some account
                         /\ Editor.role account = "admin")
        \/ (k = freshId es
            /\ forall k0 x, editors (seed_reads s e req d) !! k0 = Some x ->
                            Editor.role x <> "admin")
        \/ (exists auth param_id body,
              req = Index.PUT_admin_editor auth param_id body
              /\ p_role body = Some "admin"
              /\ ObjectId.cast param_id = Some k)).
Proof.
  split; [reflexivity|].
  destruct (createEditor_writes e b d) as [Hyes Hno].
  split; [exact Hyes|]. split; [exact Hno|].
  split; [intros k account'; apply handle_new_admin|].
  intros s es k account'. unfold Index.app, Index.first_middleware, seed_reads.
  destruct s.
  - intros Hk Hr.
    destruct (handle_new_admin _ _ _ _ _ Hk Hr) as [(x & Hx & Hxr)|H];
      [|right; right; exact H].
    apply createInitialAdmin_lookup in Hx as [Hx|[Hx Hnone]];
      [left; eauto|right; left; eauto].
  - destruct (Index.handle e req d) as [res d'] eqn:Hh. cbn [snd].
    assert (Hd' : d' = snd (Index.handle e req d)) by (rewrite Hh; reflexivity).
    destruct (Mongoose.findOne _ (editors d)) eqn:F; intros Hk Hr.
    + subst d'. destruct (handle_new_admin _ _ _ _ _ Hk Hr) as [H|H];
        [left; exact H|right; right; exact H].
    + apply createAdmin_lookup in Hk as [Hk|Hk].
      * subst d'. destruct (handle_new_admin _ _ _ _ _ Hk Hr) as [H|H];
          [left; exact H|right; right; exact H].
      * right. left. split; [exact Hk|]. apply findOne_admin_None, F.
  - destruct (Index.handle e req d) as [res d'] eqn:Hh. cbn [snd].
    assert (Hd' : d' = snd (Index.handle e req d)) by (rewrite Hh; reflexivity).
    intros Hk Hr. apply createInitialAdmin_lookup in Hk as [Hk|[Hk Hnone]].
    + subst d'. destruct (handle_new_admin _ _ _ _ _ Hk Hr) as [H|H];
        [left; exact H|right; right; exact H].
    + right. left. split; [exact Hk|exact Hnone].
Qed.

Lemma createEditor_role_user_witness :
  (exists account,
      snd (AdminRoutes.createEditor Sample.e
             (mkProfileBody (Some "Carol") (Some "carol@x.com")
                (Some "carol-pw") (Some "admin"))
             Sample.db0)
      = with_editors (<[32%N := account]> (editors Sample.db0)) Sample.db0
      /\ editors Sample.db0 !! 32%N = None
      /\ Editor.role account = "user")
  /\ (forall (k : ObjectId.t) (account' : Editor.doc),
        editors (snd (Index.app Index.seed_last Sample.e Sample.e
                        (Index.PUT_editor_me
                           (Auth.Bearer
                              (Auth.generateToken Sample.e 3%N Sample.bob))
                           (mkProfileBody (Some "Robert") None None
                              (Some "admin")))
                        Sample.db0)) !! k = Some account' ->
        Editor.role account' = "admin" ->
        exists account, editors Sample.db0 !! k = Some account
                        /\ Editor.role account = "admin").
Proof.
  pose proof (createEditor_role_user Sample.e
                (mkProfileBody (Some "Carol") (Some "carol@x.com")
                   (Some "carol-pw") (Some "admin"))
                None
                (Index.PUT_editor_me
                   (Auth.Bearer (Auth.generateToken Sample.e 3%N Sample.bob))
                   (mkProfileBody (Some "Robert") None None (Some "admin")))
                Sample.db0) as (_ & Hcreated & _ & _ & Happ).
  split.
  - apply Hcreated. vm_compute. reflexivity.
  - intros k account' Hk Hr.
    destruct (Happ Index.seed_last Sample.e k account' Hk Hr)
      as [H|[[_ Hnone]|(auth & param_id & body & Hreq & _)]].
    + exact H.
    + exfalso. apply (Hnone 1%N Sample.admin); [vm_compute|]; reflexivity.
    + discriminate Hreq.
Defined.

(** The seed on a request: a public read of a collection without an
    admin leaves the seeded admin behind. *)
Example app_seeds_on_a_request :
  Editor.role <$>
    editors (snd (Index.app Index.seed_first Sample.e Sample.e
                    (Index.GET_public_article Sample.story_id)
                    (mkDb ∅ (articles Sample.db0)))) !! 32%N
  = Some "admin".
Proof. vm_compute. reflexivity. Qed.

(** The two origins of an admin account: the seed on a collection
    without one, and the role field of PUT /api/admin/editors/:id. *)
Example createInitialAdmin_seeds :
  Editor.role <$>
    editors (Index.createInitialAdmin Sample.e (mkDb ∅ ∅)) !! 32%N
  = Some "admin"
  /\ Index.createInitialAdmin Sample.e Sample.db0 = Sample.db0.
Proof. split; vm_compute; reflexivity. Qed.

Example updateEditor_promotes :
  Editor.role <$>
    editors (snd (AdminRoutes.updateEditor Sample.e Sample.bob_id
                    (mkProfileBody None None None (Some "admin"))
                    Sample.db0)) !! 3%N
  = Some "admin".
Proof. vm_compute. reflexivity. Qed.

(** * More of the code *)

(** ** What a request writes *)

Lemma catch500_writes (d : db) (r : result (response * db)) :
  (forall resp d', r = Ok (resp, d') -> writes d d') ->
  writes d (snd (catch500 d r)).
Proof.
  intros H. destruct r as [[resp d']|]; cbn [catch500 snd].
  - eapply H. reflexivity.
  - constructor.
Qed.

Lemma emailTaken_false (k : ObjectId.t) (em : string) (m : gmap N Editor.doc) :
  Mongoose.emailTaken k em m = false <->
  forall k' x', m !! k' = Some x' -> k' <> k -> Editor.email x' <> em.
Proof.
  unfold Mongoose.emailTaken. split.
  - intros H k' x' Hk' Hne E.
    assert (T : existsb
                  (fun kv => negb (N.eqb (fst kv) k)
                             && String.eqb (Editor.email (snd kv)) em)
                  (map_to_list m) = true).
    { apply existsb_exists. exists (k', x'). split.
      - apply list_elem_of_In, elem_of_map_to_list, Hk'.
      - cbn [fst snd]. rewrite E, String.eqb_refl.
        destruct (N.eqb_spec k' k); [contradiction|reflexivity]. }
    congruence.
  - intros H. apply not_true_is_false. intros T.
    apply existsb_exists in T as ([k' x'] & Hin & Hb).
    apply list_elem_of_In, elem_of_map_to_list in Hin.
    cbn [fst snd] in Hb. apply andb_prop in Hb as [Hk He].
    apply negb_true_iff, N.eqb_neq in Hk. apply String.eqb_eq in He.
    exact (H k' x' Hin Hk He).
Qed.

Lemma mongoose_saveArticle_writes (now : Z) (k : ObjectId.t)
  (loaded x a' : Article.doc) (d d' : db) :
  Mongoose.saveArticle now k loaded x d = Ok (a', d') -> writes d d'.
Proof.
  unfold Mongoose.saveArticle.
  destruct (Article.validate x) eqn:V; cbn [negb]; [|discriminate].
  destruct (decide (x = loaded)); intros [= _ <-]; [constructor|].
  apply writes_article. exact V.
Qed.

Lemma mongoose_createArticle_writes (now : Z) (k : ObjectId.t)
  (x a' : Article.doc) (d d' : db) :
  Mongoose.createArticle now k x d = Ok (a', d') -> writes d d'.
Proof.
  unfold Mongoose.createArticle.
  destruct (Article.validate x) eqn:V; cbn [negb]; [|discriminate].
  destruct (articles d !! k); [discriminate|].
  intros [= _ <-]. apply writes_article. exact V.
Qed.

Lemma mongoose_saveEditor_writes (now : Z) (k : ObjectId.t)
  (loaded x x' : Editor.doc) (d d' : db) :
  editors d !! k = Some loaded ->
  Mongoose.saveEditor now k loaded x d = Ok (x', d') -> writes d d'.
Proof.
  intros Hk. unfold Mongoose.saveEditor.
  destruct (Editor.validate x) eqn:V; cbn [negb]; [|discriminate].
  destruct (decide (x = loaded)); [intros [= _ <-]; constructor|].
  destruct (String.eqb_spec (Editor.email x) (Editor.email loaded)) as [E|E];
    cbn [negb andb].
  - intros [= _ <-]. apply writes_editor; [exact V|].
    left. exists loaded. split; [exact Hk|]. symmetry. exact E.
  - destruct (Mongoose.emailTaken k (Editor.email x) (editors d)) eqn:T;
      [discriminate|].
    intros [= _ <-]. apply writes_editor; [exact V|].
    right. apply emailTaken_false, T.
Qed.

Lemma mongoose_createEditor_writes (now : Z) (k : ObjectId.t)
  (x x' : Editor.doc) (d d' : db) :
  Mongoose.createEditor now k x d = Ok (x', d') -> writes d d'.
Proof.
  unfold Mongoose.createEditor.
  destruct (Editor.validate x) eqn:V; cbn [negb]; [|discriminate].
  destruct (editors d !! k); [discriminate|].
  destruct (Mongoose.emailTaken k (Editor.email x) (editors d)) eqn:T;
    [discriminate|].
  intros [= _ <-]. apply writes_editor; [exact V|].
  right. apply emailTaken_false, T.
Qed.

Ltac no_write := intros [= _ <-]; apply writes_nothing.

Lemma createEditor_route_writes (e : env) (b : profile_body) (d : db) :
  writes d (snd (AdminRoutes.createEditor e b d)).
Proof.
  unfold AdminRoutes.createEditor. apply catch500_writes. intros resp d'.
  destruct (p_name b), (p_email b), (p_password b); try no_write.
  destruct (_ || _); [no_write|].
  destruct (Mongoose.findOne _ _); [no_write|].
  destruct (Mongoose.createEditor _ _ _ _) as [[x d1]|] eqn:S; cbn [bind];
    [|discriminate].
  intros [= _ <-]. eapply mongoose_createEditor_writes, S.
Qed.

Lemma updateEditor_writes (e : env) (param_id : string) (b : profile_body)
  (d : db) :
  writes d (snd (AdminRoutes.updateEditor e param_id b d)).
Proof.
  unfold AdminRoutes.updateEditor. apply catch500_writes. intros resp d'.
  destruct (Mongoose.castObjectId param_id) as [k|]; cbn [bind]; [|discriminate].
  unfold Mongoose.findById.
  destruct (editors d !! k) as [loaded|] eqn:Hk; [|no_write].
  destruct (changeEmail k (p_email b) loaded (editors d)); [|no_write].
  destruct (Mongoose.saveEditor _ _ _ _ _) as [[x d1]|] eqn:S; cbn [bind];
    [|discriminate].
  intros [= _ <-]. eapply mongoose_saveEditor_writes; [exact Hk|exact S].
Qed.

Lemma resetPassword_writes (e : env) (param_id : string) (d : db) :
  writes d (snd (AdminRoutes.resetPassword e param_id d)).
Proof.
  unfold AdminRoutes.resetPassword. apply catch500_writes. intros resp d'.
  destruct (Mongoose.castObjectId param_id) as [k|]; cbn [bind]; [|discriminate].
  unfold Mongoose.findById.
  destruct (editors d !! k) as [loaded|] eqn:Hk; [|no_write].
  destruct (Mongoose.saveEditor _ _ _ _ _) as [[x d1]|] eqn:S; cbn [bind];
    [|discriminate].
  intros [= _ <-]. eapply mongoose_saveEditor_writes; [exact Hk|exact S].
Qed.

Lemma deleteEditor_writes (user : claims) (param_id : string) (d : db) :
  writes d (snd (AdminRoutes.deleteEditor user param_id d)).
Proof.
  unfold AdminRoutes.deleteEditor. apply catch500_writes. intros resp d'.
  destruct (String.eqb _ param_id); [no_write|].
  destruct (Mongoose.castObjectId param_id) as [k|]; cbn [bind]; [|discriminate].
  destruct (Mongoose.findById k (editors d)); [|no_write].
  intros [= _ <-]. apply writes_removal.
Qed.

Lemma setStatus_writes (e : env) (param_id : string) (status : option string)
  (d : db) :
  writes d (snd (AdminRoutes.setStatus e param_id status d)).
Proof.
  unfold AdminRoutes.setStatus. apply catch500_writes. intros resp d'.
  destruct status as [st|]; [|no_write].
  destruct (negb (JS.includes Article.STATUSES st)); [no_write|].
  destruct (negb (ObjectId.isValid param_id)); [no_write|].
  destruct (Mongoose.castObjectId param_id) as [k|]; cbn [bind]; [|discriminate].
  destruct (Mongoose.findById k (articles d)); [|no_write].
  destruct (Mongoose.saveArticle _ _ _ _ _) as [[x d1]|] eqn:S; cbn [bind];
    [|discriminate].
  intros [= _ <-]. eapply mongoose_saveArticle_writes, S.
Qed.

Lemma createArticle_writes (e : env) (user : claims) (b : article_body)
  (d : db) :
  writes d (snd (EditorRoutes.createArticle e user b d)).
Proof.
  unfold EditorRoutes.createArticle. apply catch500_writes. intros resp d'.
  destruct (b_title b), (b_content b); try no_write.
  destruct (_ || _); [no_write|].
  destruct (Mongoose.castObjectId (id user)); cbn [bind]; [|discriminate].
  destruct (Mongoose.createArticle _ _ _ _) as [[x d1]|] eqn:S; cbn [bind];
    [|discriminate].
  intros [= _ <-]. eapply mongoose_createArticle_writes, S.
Qed.

Lemma updateArticle_writes (e : env) (user : claims) (param_id : string)
  (b : article_body) (d : db) :
  writes d (snd (EditorRoutes.updateArticle e user param_id b d)).
Proof.
  unfold EditorRoutes.updateArticle. apply catch500_writes. intros resp d'.
  destruct (Mongoose.castObjectId param_id) as [k|]; cbn [bind]; [|discriminate].
  destruct (Mongoose.castObjectId (id user)); cbn [bind]; [|discriminate].
  destruct (Mongoose.findOneWithId k _ (articles d)); [|no_write].
  destruct (b_status b) as [st|].
  - destruct (negb (JS.includes Article.STATUSES st)); [no_write|].
    destruct (Mongoose.saveArticle _ _ _ _ _) as [[x d1]|] eqn:S; cbn [bind];
      [|discriminate].
    intros [= _ <-]. eapply mongoose_saveArticle_writes, S.
  - destruct (Mongoose.saveArticle _ _ _ _ _) as [[x d1]|] eqn:S; cbn [bind];
      [|discriminate].
    intros [= _ <-]. eapply mongoose_saveArticle_writes, S.
Qed.

Lemma updateMe_writes (e : env) (user : claims) (b : profile_body) (d : db) :
  writes d (snd (EditorRoutes.updateMe e user b d)).
Proof.
  unfold EditorRoutes.updateMe. apply catch500_writes. intros resp d'.
  destruct (Mongoose.castObjectId (id user)) as [k|]; cbn [bind]; [|discriminate].
  unfold Mongoose.findById.
  destruct (editors d !! k) as [loaded|] eqn:Hk; [|no_write].
  destruct (changeEmail k (p_email b) loaded (editors d)); [|no_write].
  destruct (Mongoose.saveEditor _ _ _ _ _) as [[x d1]|] eqn:S; cbn [bind];
    [|discriminate].
  intros [= _ <-]. eapply mongoose_saveEditor_writes; [exact Hk|exact S].
Qed.

Lemma changePassword_writes (e : env) (user : claims) (b : password_body)
  (d : db) :
  writes d (snd (EditorRoutes.changePassword e user b d)).
Proof.
  unfold EditorRoutes.changePassword. apply catch500_writes. intros resp d'.
  destruct (currentPassword b), (newPassword b); try no_write.
  destruct (_ || _); [no_write|].
  destruct (Mongoose.castObjectId (id user)) as [k|]; cbn [bind]; [|discriminate].
  unfold Mongoose.findById.
  destruct (editors d !! k) as [loaded|] eqn:Hk; [|no_write].
  destruct (negb (comparePassword e _ _)); [no_write|].
  destruct (Mongoose.saveEditor _ _ _ _ _) as [[x d1]|] eqn:S; cbn [bind];
    [|discriminate].
  intros [= _ <-]. eapply mongoose_saveEditor_writes; [exact Hk|exact S].
Qed.

Lemma authMiddleware_writes (e : env) (auth : Auth.authorization)
  (next : claims -> db -> response * db) (d : db) :
  (forall user, writes d (snd (next user d))) ->
  writes d (snd (Auth.authMiddleware e auth next d)).
Proof.
  intros H. unfold Auth.authMiddleware.
  destruct auth as [|t|]; try apply writes_nothing.
  destruct (Auth.jwt_verify _ _ _); [apply H|apply writes_nothing].
Qed.

Lemma admin_writes (e : env) (auth : Auth.authorization)
  (h : claims -> db -> response * db) (d : db) :
  (forall user, writes d (snd (h user d))) ->
  writes d (snd (Index.admin e auth h d)).
Proof.
  intros H. unfold Index.admin. apply authMiddleware_writes.
  intros user. unfold AdminRoutes.requireAdmin.
  destruct (negb _); [apply writes_nothing|apply H].
Qed.

Lemma reads_write (d : db) (r : response * db) : snd r = d -> writes d (snd r).
Proof. intros ->. constructor. Qed.

Lemma handle_writes (e : env) (r : Index.request) (d : db) :
  writes d (snd (Index.handle e r d)).
Proof.
  destruct r; cbn [Index.handle].
  - constructor.
  - apply admin_writes. intros _. apply createEditor_route_writes.
  - apply admin_writes. intros _. apply reads_write, listEditors_reads.
  - apply admin_writes. intros _. apply reads_write, admin_listArticles_reads.
  - apply authMiddleware_writes. intros user.
    apply reads_write, editor_listArticles_reads.
  - apply admin_writes. intros _. apply updateEditor_writes.
  - apply admin_writes. intros _. apply resetPassword_writes.
  - apply admin_writes. intros user. apply deleteEditor_writes.
  - apply admin_writes. intros _. apply reads_write, admin_overview_reads.
  - apply admin_writes. intros _. apply reads_write, admin_getArticle_reads.
  - apply admin_writes. intros _. apply setStatus_writes.
  - apply authMiddleware_writes. intros user. apply createArticle_writes.
  - apply authMiddleware_writes. intros user. apply updateArticle_writes.
  - apply authMiddleware_writes. intros user.
    apply reads_write, editor_getArticle_reads.
  - apply authMiddleware_writes. intros user.
    apply reads_write, editor_overview_reads.
  - apply authMiddleware_writes. intros user. apply reads_write, getMe_reads.
  - apply authMiddleware_writes. intros user. apply updateMe_writes.
  - apply authMiddleware_writes. intros user. apply changePassword_writes.
  - apply reads_write, listArticles_reads.
  - apply reads_write, public_getArticle_reads.
  - apply reads_write, login_reads.
Qed.

Lemma createInitialAdmin_writes (e : env) (d : db) :
  writes d (Index.createInitialAdmin e d).
Proof.
  unfold Index.createInitialAdmin.
  destruct (Mongoose.findOne _ _); [constructor|].
  destruct (Mongoose.createEditor _ _ _ _) as [[x d1]|] eqn:S; [|constructor].
  eapply mongoose_createEditor_writes, S.
Qed.

Lemma writes_valid (d d' : db) : writes d d' -> db_valid d -> db_valid d'.
Proof.
  intros W [Ha He]. destruct W as [|k a V|k x V _|k]; split;
    cbn [articles editors with_articles with_editors]; try assumption.
  - intros k' a' H. destruct (decide (k = k')) as [<-|Hne].
    + rewrite lookup_insert_eq in H. congruence.
    + rewrite lookup_insert_ne in H by exact Hne. eauto.
  - intros k' x' H. destruct (decide (k = k')) as [<-|Hne].
    + rewrite lookup_insert_eq in H. congruence.
    + rewrite lookup_insert_ne in H by exact Hne. eauto.
  - intros k' x' H. apply lookup_delete_Some in H as [_ H]. eauto.
Qed.

Lemma writes_unique (d d' : db) :
  writes d d' -> emails_unique d -> emails_unique d'.
Proof.
  intros W U. destruct W as [|k a V|k x V Hx|k];
    cbn [articles editors with_articles with_editors]; try assumption.
  - intros k1 k2 x1 x2 H1 H2 E. cbn [editors with_editors] in H1, H2.
    assert (Hother : forall k' x', editors d !! k' = Some x' -> k' <> k ->
                                   Editor.email x' <> Editor.email x).
    { destruct Hx as [(old & Hold & Eold)|Hx]; [|exact Hx].
      intros k' x' Hk' Hne E'. apply Hne.
      apply (U k' k x' old Hk' Hold). congruence. }
    destruct (decide (k = k1)) as [<-|N1], (decide (k = k2)) as [<-|N2].
    + reflexivity.
    + rewrite lookup_insert_eq in H1. rewrite lookup_insert_ne in H2 by exact N2.
      injection H1 as <-. exfalso.
      apply (Hother k2 x2 H2); [congruence|congruence].
    + rewrite lookup_insert_eq in H2. rewrite lookup_insert_ne in H1 by exact N1.
      injection H2 as <-. exfalso.
      apply (Hother k1 x1 H1); [congruence|congruence].
    + rewrite lookup_insert_ne in H1 by exact N1.
      rewrite lookup_insert_ne in H2 by exact N2. eauto.
  - intros k1 k2 x1 x2 H1 H2 E. cbn [editors with_editors] in H1, H2.
    apply lookup_delete_Some in H1 as [_ H1].
    apply lookup_delete_Some in H2 as [_ H2]. eauto.
Qed.

(** ** Invariants of the database *)

Lemma sample_valid : db_valid Sample.db0.
Proof.
  split.
  - apply (bool_decide_unpack
             (map_Forall (fun _ a => Article.validate a = true)
                (articles Sample.db0))).
    vm_compute. reflexivity.
  - apply (bool_decide_unpack
             (map_Forall (fun _ x => Editor.validate x = true)
                (editors Sample.db0))).
    vm_compute. reflexivity.
Defined.

Lemma sample_unique : emails_unique Sample.db0.
Proof.
  intros k1 k2 x1 x2 H1 H2. revert k2 x2 H2. revert k1 x1 H1.
  apply (bool_decide_unpack
           (map_Forall
              (fun k1 x1 =>
                 map_Forall
                   (fun k2 x2 => Editor.email x1 = Editor.email x2 -> k1 = k2)
                   (editors Sample.db0))
              (editors Sample.db0))).
  vm_compute. reflexivity.
Defined.

(** Whatever the request, a database whose documents all satisfy their
    schemas stays one: every write goes through the validation of the
    model. The same holds for the seeding of the first admin. *)
Theorem requests_keep_schema (e : env) (r : Index.request) (d : db) :
  db_valid d ->
  db_valid (snd (Index.handle e r d))
  /\ db_valid (Index.createInitialAdmin e d).
Proof.
  intros V. split.
  - eapply writes_valid; [apply handle_writes|exact V].
  - eapply writes_valid; [apply createInitialAdmin_writes|exact V].
Qed.

Lemma requests_keep_schema_witness :
  db_valid
    (snd (Index.handle Sample.e
            (Index.PUT_editor_article
               (Auth.Bearer (Auth.generateToken Sample.e 2%N Sample.alice))
               Sample.story_id
               (mkArticleBody (Some "New") None None (CatString "law, tech")
                  None None (Some "draft")))
            Sample.db0))
  /\ db_valid (Index.createInitialAdmin Sample.e Sample.db0).
Proof.
  apply (requests_keep_schema Sample.e
           (Index.PUT_editor_article
              (Auth.Bearer (Auth.generateToken Sample.e 2%N Sample.alice))
              Sample.story_id
              (mkArticleBody (Some "New") None None (CatString "law, tech")
                 None None (Some "draft")))
           Sample.db0).
  exact sample_valid.
Defined.

(** Whatever the request, no two accounts come to hold the same email
    when none did before: the unique index refuses the write the
    handlers' own checks let through. The same holds for the seeding of
    the first admin. *)
Theorem requests_keep_emails_unique (e : env) (r : Index.request) (d : db) :
  emails_unique d ->
  emails_unique (snd (Index.handle e r d))
  /\ emails_unique (Index.createInitialAdmin e d).
Proof.
  intros U. split.
  - eapply writes_unique; [apply handle_writes|exact U].
  - eapply writes_unique; [apply createInitialAdmin_writes|exact U].
Qed.

Lemma requests_keep_emails_unique_witness :
  emails_unique
    (snd (Index.handle Sample.e
            (Index.PUT_editor_me
               (Auth.Bearer (Auth.generateToken Sample.e 3%N Sample.bob))
               (mkProfileBody (Some "Robert") (Some "rob@x.com") None None))
            Sample.db0))
  /\ emails_unique (Index.createInitialAdmin Sample.e Sample.db0).
Proof.
  apply (requests_keep_emails_unique Sample.e
           (Index.PUT_editor_me
              (Auth.Bearer (Auth.generateToken Sample.e 3%N Sample.bob))
              (mkProfileBody (Some "Robert") (Some "rob@x.com") None None))
           Sample.db0).
  exact sample_unique.
Defined.

(** ** Invariants of the stored articles *)

Section ArticlesAll.

Variable Q : Article.doc -> Prop.

(** [Q] does not read the timestamps the model maintains. *)
Hypothesis Q_timestamps :
  forall a c u,
    Q a ->
    Q (Article.mk (Article.title a) (Article.summary a) (Article.content a)
         (Article.categories a) (Article.imageUrl a) (Article.source a)
         (Article.status a) (Article.author a) (Article.publishedAt a) c u).

Lemma insert_articles_all (k : ObjectId.t) (a : Article.doc) (d : db) :
  Q a -> articles_all Q d ->
  articles_all Q (with_articles (<[k := a]> (articles d)) d).
Proof.
  intros Ha Hd k' a' H. cbn [articles with_articles] in H.
  destruct (decide (k = k')) as [<-|Hne].
  - rewrite lookup_insert_eq in H. congruence.
  - rewrite lookup_insert_ne in H by exact Hne. eauto.
Qed.

Lemma saveArticle_all (now : Z) (k : ObjectId.t) (loaded x a' : Article.doc)
  (d d' : db) :
  Q x -> articles_all Q d ->
  Mongoose.saveArticle now k loaded x d = Ok (a', d') -> articles_all Q d'.
Proof.
  intros Hx Hd. unfold Mongoose.saveArticle.
  destruct (negb (Article.validate x)); [discriminate|].
  destruct (decide (x = loaded)); intros [= _ <-]; [exact Hd|].
  apply insert_articles_all; [|exact Hd].
  apply (Q_timestamps x (Article.createdAt x) now Hx).
Qed.

Lemma createArticle_all (now : Z) (k : ObjectId.t) (x a' : Article.doc)
  (d d' : db) :
  Q x -> articles_all Q d ->
  Mongoose.createArticle now k x d = Ok (a', d') -> articles_all Q d'.
Proof.
  intros Hx Hd. unfold Mongoose.createArticle.
  destruct (negb (Article.validate x)); [discriminate|].
  destruct (articles d !! k); [discriminate|].
  intros [= _ <-]. apply insert_articles_all; [|exact Hd].
  apply (Q_timestamps x now now Hx).
Qed.

(** What the three handlers that write articles hand to the model. *)
Hypothesis Q_created :
  forall (e : env) (b : article_body) (title content : string)
         (author : ObjectId.t),
    Q (Article.mk (JS.trim title) (JS.trim (or_else (b_summary b) ""))
         content
         (List.map Article.set_category (normalizeCategories (b_categories b)))
         (JS.trim (or_else (b_imageUrl b) ""))
         (JS.trim (or_else (b_source b) ""))
         (or_else (b_status b) "draft") author
         (match b_status b with
          | Some st => if String.eqb st "published" then Some (now e) else None
          | None => None
          end)
         0 0).

Hypothesis Q_staged :
  forall (e : env) (b : article_body) (a : Article.doc),
    Q a -> Q (staged e b a).

Hypothesis Q_status :
  forall (e : env) (status : string) (a : Article.doc),
    Q a ->
    Q (if String.eqb status "published"
       then Article.set_publishedAt (Some (now e)) (Article.set_status status a)
       else Article.set_status status a).

Lemma catch500_all (d : db) (r : result (response * db)) :
  articles_all Q d ->
  (forall resp d', r = Ok (resp, d') -> articles_all Q d') ->
  articles_all Q (snd (catch500 d r)).
Proof.
  intros Hd H. destruct r as [[resp d']|]; cbn [catch500 snd];
    [eapply H; reflexivity|exact Hd].
Qed.

Lemma createArticle_route_all (e : env) (user : claims) (b : article_body)
  (d : db) :
  articles_all Q d ->
  articles_all Q (snd (EditorRoutes.createArticle e user b d)).
Proof.
  intros Hd. unfold EditorRoutes.createArticle.
  apply catch500_all; [exact Hd|]. intros resp d'.
  destruct (b_title b) as [title|], (b_content b) as [content|];
    try (intros [= _ <-]; exact Hd).
  destruct (_ || _); [intros [= _ <-]; exact Hd|].
  destruct (Mongoose.castObjectId (id user)) as [author|]; cbn [bind];
    [|discriminate].
  destruct (Mongoose.createArticle _ _ _ _) as [[x d1]|] eqn:S; cbn [bind];
    [|discriminate].
  intros [= _ <-]. eapply createArticle_all; [|exact Hd|exact S].
  apply Q_created.
Qed.

Lemma updateArticle_route_all (e : env) (user : claims) (param_id : string)
  (b : article_body) (d : db) :
  articles_all Q d ->
  articles_all Q (snd (EditorRoutes.updateArticle e user param_id b d)).
Proof.
  intros Hd. unfold EditorRoutes.updateArticle.
  apply catch500_all; [exact Hd|]. intros resp d'.
  destruct (Mongoose.castObjectId param_id) as [k|]; cbn [bind]; [|discriminate].
  destruct (Mongoose.castObjectId (id user)) as [uid|]; cbn [bind];
    [|discriminate].
  destruct (Mongoose.findOneWithId k _ (articles d)) as [loaded|] eqn:F;
    [|intros [= _ <-]; exact Hd].
  apply findOneWithId_Some in F as [F _].
  pose proof (Q_staged e b loaded (Hd k loaded F)) as Hs. unfold staged in Hs.
  destruct (b_status b) as [st|].
  - destruct (negb (JS.includes Article.STATUSES st));
      [intros [= _ <-]; exact Hd|].
    destruct (Mongoose.saveArticle _ _ _ _ _) as [[x d1]|] eqn:S; cbn [bind];
      [|discriminate].
    intros [= _ <-]. eapply saveArticle_all; [|exact Hd|exact S]. exact Hs.
  - destruct (Mongoose.saveArticle _ _ _ _ _) as [[x d1]|] eqn:S; cbn [bind];
      [|discriminate].
    intros [= _ <-]. eapply saveArticle_all; [|exact Hd|exact S]. exact Hs.
Qed.

Lemma setStatus_route_all (e : env) (param_id : string)
  (status : option string) (d : db) :
  articles_all Q d ->
  articles_all Q (snd (AdminRoutes.setStatus e param_id status d)).
Proof.
  intros Hd. unfold AdminRoutes.setStatus.
  apply catch500_all; [exact Hd|]. intros resp d'.
  destruct status as [st|]; [|intros [= _ <-]; exact Hd].
  destruct (negb (JS.includes Article.STATUSES st));
    [intros [= _ <-]; exact Hd|].
  destruct (negb (ObjectId.isValid param_id)); [intros [= _ <-]; exact Hd|].
  destruct (Mongoose.castObjectId param_id) as [k|]; cbn [bind]; [|discriminate].
  unfold Mongoose.findById.
  destruct (articles d !! k) as [loaded|] eqn:F; [|intros [= _ <-]; exact Hd].
  destruct (Mongoose.saveArticle _ _ _ _ _) as [[x d1]|] eqn:S; cbn [bind];
    [|discriminate].
  intros [= _ <-]. eapply saveArticle_all; [|exact Hd|exact S].
  apply Q_status. eapply Hd, F.
Qed.

Lemma same_articles_all (d d' : db) :
  articles d' = articles d -> articles_all Q d -> articles_all Q d'.
Proof. intros E Hd k a H. rewrite E in H. eauto. Qed.

End ArticlesAll.

Lemma saveEditor_articles (now : Z) (k : ObjectId.t) (loaded x x' : Editor.doc)
  (d d' : db) :
  Mongoose.saveEditor now k loaded x d = Ok (x', d') -> articles d' = articles d.
Proof.
  unfold Mongoose.saveEditor.
  destruct (negb (Editor.validate x)); [discriminate|].
  destruct (decide (x = loaded)); [intros [= _ <-]; reflexivity|].
  destruct (_ && _); [discriminate|]. intros [= _ <-]. reflexivity.
Qed.

Lemma createEditor_articles (now : Z) (k : ObjectId.t) (x x' : Editor.doc)
  (d d' : db) :
  Mongoose.createEditor now k x d = Ok (x', d') -> articles d' = articles d.
Proof.
  unfold Mongoose.createEditor.
  destruct (negb (Editor.validate x)); [discriminate|].
  destruct (editors d !! k); [discriminate|].
  destruct (Mongoose.emailTaken _ _ _); [discriminate|].
  intros [= _ <-]. reflexivity.
Qed.

Lemma catch500_articles (d : db) (r : result (response * db)) :
  (forall resp d', r = Ok (resp, d') -> articles d' = articles d) ->
  articles (snd (catch500 d r)) = articles d.
Proof.
  intros H. destruct r as [[resp d']|]; cbn [catch500 snd];
    [eapply H|]; reflexivity.
Qed.

Ltac same_articles := intros [= _ <-]; reflexivity.

(** The account routes leave the articles alone. *)
Lemma account_routes_keep_articles (e : env) (user : claims)
  (param_id : string) (b : profile_body) (pw : password_body) (d : db) :
  articles (snd (AdminRoutes.createEditor e b d)) = articles d
  /\ articles (snd (AdminRoutes.updateEditor e param_id b d)) = articles d
  /\ articles (snd (AdminRoutes.resetPassword e param_id d)) = articles d
  /\ articles (snd (AdminRoutes.deleteEditor user param_id d)) = articles d
  /\ articles (snd (EditorRoutes.updateMe e user b d)) = articles d
  /\ articles (snd (EditorRoutes.changePassword e user pw d)) = articles d.
Proof.
  repeat match goal with |- _ /\ _ => split end.
  - unfold AdminRoutes.createEditor. apply catch500_articles. intros resp d'.
    destruct (p_name b), (p_email b), (p_password b); try same_articles.
    destruct (_ || _); [same_articles|].
    destruct (Mongoose.findOne _ _); [same_articles|].
    destruct (Mongoose.createEditor _ _ _ _) as [[x d1]|] eqn:S; cbn [bind];
      [|discriminate].
    intros [= _ <-]. eapply createEditor_articles, S.
  - unfold AdminRoutes.updateEditor. apply catch500_articles. intros resp d'.
    destruct (Mongoose.castObjectId param_id) as [k|]; cbn [bind];
      [|discriminate].
    destruct (Mongoose.findById k (editors d)) as [loaded|]; [|same_articles].
    destruct (changeEmail k (p_email b) loaded (editors d)); [|same_articles].
    destruct (Mongoose.saveEditor _ _ _ _ _) as [[x d1]|] eqn:S; cbn [bind];
      [|discriminate].
    intros [= _ <-]. eapply saveEditor_articles, S.
  - unfold AdminRoutes.resetPassword. apply catch500_articles. intros resp d'.
    destruct (Mongoose.castObjectId param_id) as [k|]; cbn [bind];
      [|discriminate].
    destruct (Mongoose.findById k (editors d)) as [loaded|]; [|same_articles].
    destruct (Mongoose.saveEditor _ _ _ _ _) as [[x d1]|] eqn:S; cbn [bind];
      [|discriminate].
    intros [= _ <-]. eapply saveEditor_articles, S.
  - unfold AdminRoutes.deleteEditor. apply catch500_articles. intros resp d'.
    destruct (String.eqb _ param_id); [same_articles|].
    destruct (Mongoose.castObjectId param_id) as [k|]; cbn [bind];
      [|discriminate].
    destruct (Mongoose.findById k (editors d)); same_articles.
  - unfold EditorRoutes.updateMe. apply catch500_articles. intros resp d'.
    destruct (Mongoose.castObjectId (id user)) as [k|]; cbn [bind];
      [|discriminate].
    destruct (Mongoose.findById k (editors d)) as [loaded|]; [|same_articles].
    destruct (changeEmail k (p_email b) loaded (editors d)); [|same_articles].
    destruct (Mongoose.saveEditor _ _ _ _ _) as [[x d1]|] eqn:S; cbn [bind];
      [|discriminate].
    intros [= _ <-]. eapply saveEditor_articles, S.
  - unfold EditorRoutes.changePassword. apply catch500_articles. intros resp d'.
    destruct (currentPassword pw), (newPassword pw); try same_articles.
    destruct (_ || _); [same_articles|].
    destruct (Mongoose.castObjectId (id user)) as [k|]; cbn [bind];
      [|discriminate].
    destruct (Mongoose.findById k (editors d)) as [loaded|]; [|same_articles].
    destruct (negb (comparePassword e _ _)); [same_articles|].
    destruct (Mongoose.saveEditor _ _ _ _ _) as [[x d1]|] eqn:S; cbn [bind];
      [|discriminate].
    intros [= _ <-]. eapply saveEditor_articles, S.
Qed.

Section HandleAll.

Variable Q : Article.doc -> Prop.

Hypothesis Q_created_doc :
  forall (e : env) (b : article_body) (title content : string)
         (author : ObjectId.t),
    Q (Article.mk (JS.trim title) (JS.trim (or_else (b_summary b) ""))
         content
         (List.map Article.set_category (normalizeCategories (b_categories b)))
         (JS.trim (or_else (b_imageUrl b) ""))
         (JS.trim (or_else (b_source b) ""))
         (or_else (b_status b) "draft") author
         (match b_status b with
          | Some st => if String.eqb st "published" then Some (now e) else None
          | None => None
          end)
         0 0).

Hypothesis Q_timestamps_doc :
  forall a c u,
    Q a ->
    Q (Article.mk (Article.title a) (Article.summary a) (Article.content a)
         (Article.categories a) (Article.imageUrl a) (Article.source a)
         (Article.status a) (Article.author a) (Article.publishedAt a) c u).

Hypothesis Q_staged_doc :
  forall (e : env) (b : article_body) (a : Article.doc),
    Q a -> Q (staged e b a).

Hypothesis Q_status_doc :
  forall (e : env) (status : string) (a : Article.doc),
    Q a ->
    Q (if String.eqb status "published"
       then Article.set_publishedAt (Some (now e)) (Article.set_status status a)
       else Article.set_status status a).

Lemma authMiddleware_all (e : env) (auth : Auth.authorization)
  (next : claims -> db -> response * db) (d : db) :
  articles_all Q d ->
  (forall user, articles_all Q (snd (next user d))) ->
  articles_all Q (snd (Auth.authMiddleware e auth next d)).
Proof.
  intros Hd H. unfold Auth.authMiddleware.
  destruct auth as [|t|]; try exact Hd.
  destruct (Auth.jwt_verify _ _ _); [apply H|exact Hd].
Qed.

Lemma admin_all (e : env) (auth : Auth.authorization)
  (h : claims -> db -> response * db) (d : db) :
  articles_all Q d ->
  (forall user, articles_all Q (snd (h user d))) ->
  articles_all Q (snd (Index.admin e auth h d)).
Proof.
  intros Hd H. unfold Index.admin. apply authMiddleware_all; [exact Hd|].
  intros user. unfold AdminRoutes.requireAdmin.
  destruct (negb _); [exact Hd|apply H].
Qed.

Lemma handle_all (e : env) (r : Index.request) (d : db) :
  articles_all Q d -> articles_all Q (snd (Index.handle e r d)).
Proof.
  intros Hd.
  assert (Hacc : forall user param_id b pw,
             articles (snd (AdminRoutes.createEditor e b d)) = articles d
             /\ articles (snd (AdminRoutes.updateEditor e param_id b d))
                = articles d
             /\ articles (snd (AdminRoutes.resetPassword e param_id d))
                = articles d
             /\ articles (snd (AdminRoutes.deleteEditor user param_id d))
                = articles d
             /\ articles (snd (EditorRoutes.updateMe e user b d)) = articles d
             /\ articles (snd (EditorRoutes.changePassword e user pw d))
                = articles d)
    by (intros; apply account_routes_keep_articles).
  pose (nobody := mkClaims "" "" "").
  pose (nothing := mkProfileBody None None None None).
  pose (nopw := mkPasswordBody None None).
  destruct r; cbn [Index.handle].
  - exact Hd.
  - apply admin_all; [exact Hd|]. intros _.
    eapply same_articles_all; [|exact Hd]. apply (Hacc nobody "" b nopw).
  - apply admin_all; [exact Hd|]. intros _.
    eapply same_articles_all; [|exact Hd].
    rewrite listEditors_reads. reflexivity.
  - apply admin_all; [exact Hd|]. intros _.
    eapply same_articles_all; [|exact Hd].
    rewrite admin_listArticles_reads. reflexivity.
  - apply authMiddleware_all; [exact Hd|]. intros user.
    eapply same_articles_all; [|exact Hd].
    rewrite editor_listArticles_reads. reflexivity.
  - apply admin_all; [exact Hd|]. intros _.
    eapply same_articles_all; [|exact Hd]. apply (Hacc nobody param_id b nopw).
  - apply admin_all; [exact Hd|]. intros _.
    eapply same_articles_all; [|exact Hd].
    apply (Hacc nobody param_id nothing nopw).
  - apply admin_all; [exact Hd|]. intros user.
    eapply same_articles_all; [|exact Hd].
    apply (Hacc user param_id nothing nopw).
  - apply admin_all; [exact Hd|]. intros _.
    eapply same_articles_all; [|exact Hd].
    rewrite admin_overview_reads. reflexivity.
  - apply admin_all; [exact Hd|]. intros _.
    eapply same_articles_all; [|exact Hd].
    rewrite admin_getArticle_reads. reflexivity.
  - apply admin_all; [exact Hd|]. intros _.
    apply setStatus_route_all; assumption.
  - apply authMiddleware_all; [exact Hd|]. intros user.
    apply createArticle_route_all; assumption.
  - apply authMiddleware_all; [exact Hd|]. intros user.
    apply updateArticle_route_all; assumption.
  - apply authMiddleware_all; [exact Hd|]. intros user.
    eapply same_articles_all; [|exact Hd].
    rewrite editor_getArticle_reads. reflexivity.
  - apply authMiddleware_all; [exact Hd|]. intros user.
    eapply same_articles_all; [|exact Hd].
    rewrite editor_overview_reads. reflexivity.
  - apply authMiddleware_all; [exact Hd|]. intros user.
    eapply same_articles_all; [|exact Hd]. rewrite getMe_reads. reflexivity.
  - apply authMiddleware_all; [exact Hd|]. intros user.
    eapply same_articles_all; [|exact Hd]. apply (Hacc user "" b nopw).
  - apply authMiddleware_all; [exact Hd|]. intros user.
    eapply same_articles_all; [|exact Hd]. apply (Hacc user "" nothing b).
  - eapply same_articles_all; [|exact Hd]. rewrite listArticles_reads.
    reflexivity.
  - eapply same_articles_all; [|exact Hd]. rewrite public_getArticle_reads.
    reflexivity.
  - eapply same_articles_all; [|exact Hd]. rewrite login_reads. reflexivity.
Qed.

End HandleAll.

Lemma has_category_created (e : env) (b : article_body)
  (title content : string) (author : ObjectId.t) :
  has_category
    (Article.mk (JS.trim title) (JS.trim (or_else (b_summary b) "")) content
       (List.map Article.set_category (normalizeCategories (b_categories b)))
       (JS.trim (or_else (b_imageUrl b) ""))
       (JS.trim (or_else (b_source b) ""))
       (or_else (b_status b) "draft") author
       (match b_status b with
        | Some st => if String.eqb st "published" then Some (now e) else None
        | None => None
        end)
       0 0).
Proof.
  unfold has_category. cbn [Article.categories].
  rewrite set_category_normalizeCategories. apply normalizeCategories_nonempty.
Qed.

Lemma has_category_staged (e : env) (b : article_body) (a : Article.doc) :
  has_category a -> has_category (staged e b a).
Proof.
  unfold has_category. intros H.
  destruct (staged_proj e b a) as (_ & _ & _ & _ & _ & -> & _).
  destruct (b_categories b); [exact H| |]; apply normalizeCategories_nonempty.
Qed.

Lemma has_category_status (e : env) (status : string) (a : Article.doc) :
  has_category a ->
  has_category
    (if String.eqb status "published"
     then Article.set_publishedAt (Some (now e)) (Article.set_status status a)
     else Article.set_status status a).
Proof. unfold has_category. destruct (String.eqb status "published"); auto. Qed.

(** Whatever the request, every stored article keeps at least one
    category when all had one before: a created or updated article gets
    the result of [normalizeCategories], which is never empty. *)
Theorem requests_keep_categories (e : env) (r : Index.request) (d : db) :
  articles_all has_category d ->
  articles_all has_category (snd (Index.handle e r d)).
Proof.
  apply handle_all.
  - apply has_category_created.
  - intros a c u H. exact H.
  - apply has_category_staged.
  - apply has_category_status.
Qed.

Lemma sample_has_category : articles_all has_category Sample.db0.
Proof.
  apply (bool_decide_unpack
           (map_Forall (fun _ a => Article.categories a <> [])
              (articles Sample.db0))).
  vm_compute. reflexivity.
Defined.

Lemma requests_keep_categories_witness :
  articles_all has_category Sample.db0
  /\ articles_all has_category
       (snd (Index.handle Sample.e
               (Index.PUT_editor_article
                  (Auth.Bearer (Auth.generateToken Sample.e 2%N Sample.alice))
                  Sample.story_id
                  (mkArticleBody None None None (CatArray []) None None None))
               Sample.db0)).
Proof.
  split; [exact sample_has_category|].
  apply (requests_keep_categories Sample.e
           (Index.PUT_editor_article
              (Auth.Bearer (Auth.generateToken Sample.e 2%N Sample.alice))
              Sample.story_id
              (mkArticleBody None None None (CatArray []) None None None))
           Sample.db0).
  exact sample_has_category.
Defined.

Lemma stamped_created (e : env) (b : article_body) (title content : string)
  (author : ObjectId.t) :
  stamped
    (Article.mk (JS.trim title) (JS.trim (or_else (b_summary b) "")) content
       (List.map Article.set_category (normalizeCategories (b_categories b)))
       (JS.trim (or_else (b_imageUrl b) ""))
       (JS.trim (or_else (b_source b) ""))
       (or_else (b_status b) "draft") author
       (match b_status b with
        | Some st => if String.eqb st "published" then Some (now e) else None
        | None => None
        end)
       0 0).
Proof.
  unfold stamped. cbn [Article.status Article.publishedAt]. intros H.
  apply or_else_published in H. rewrite H. discriminate.
Qed.

Lemma stamped_staged (e : env) (b : article_body) (a : Article.doc) :
  stamped a -> stamped (staged e b a).
Proof.
  unfold stamped. intros H.
  destruct (staged_proj e b a) as (_ & _ & _ & _ & _ & _ & -> & _ & -> & _).
  destruct (b_status b) as [st|].
  - intros ->. destruct (Article.publishedAt a); discriminate.
  - intros Hs. specialize (H Hs). destruct (Article.publishedAt a);
      [discriminate|contradiction].
Qed.

Lemma stamped_status (e : env) (status : string) (a : Article.doc) :
  stamped a ->
  stamped
    (if String.eqb status "published"
     then Article.set_publishedAt (Some (now e)) (Article.set_status status a)
     else Article.set_status status a).
Proof.
  unfold stamped. intros _.
  destruct (String.eqb_spec status "published") as [->|Hne]; cbn.
  - discriminate.
  - intros E. contradiction.
Qed.

(** Whatever the request, every article stored as published carries a
    [publishedAt] when that held before: each of the three places that
    set the status to published sets the time with it, and nothing ever
    clears it. *)
Theorem requests_keep_published_stamped (e : env) (r : Index.request) (d : db) :
  articles_all stamped d ->
  articles_all stamped (snd (Index.handle e r d)).
Proof.
  apply handle_all.
  - apply stamped_created.
  - intros a c u H. exact H.
  - apply stamped_staged.
  - apply stamped_status.
Qed.

Lemma sample_stamped : articles_all stamped Sample.db0.
Proof.
  apply (bool_decide_unpack
           (map_Forall
              (fun _ a => Article.status a = "published" ->
                          Article.publishedAt a <> None)
              (articles Sample.db0))).
  vm_compute. reflexivity.
Defined.

Lemma requests_keep_published_stamped_witness :
  articles_all stamped Sample.db0
  /\ articles_all stamped
       (snd (Index.handle Sample.e
               (Index.PUT_admin_article_status
                  (Auth.Bearer (Auth.generateToken Sample.e 1%N Sample.admin))
                  Sample.draft_id (Some "published"))
               Sample.db0)).
Proof.
  split; [exact sample_stamped|].
  apply (requests_keep_published_stamped Sample.e
           (Index.PUT_admin_article_status
              (Auth.Bearer (Auth.generateToken Sample.e 1%N Sample.admin))
              Sample.draft_id (Some "published"))
           Sample.db0).
  exact sample_stamped.
Defined.

(** ** Authentication and authorisation *)

(** The first middleware before a route that only reads: the seed is all
    that is written, and the route reads the collection before or after
    it. *)
Lemma first_middleware_read (s : Index.schedule) (es : env)
  (next : db -> response * db) (d : db) :
  (forall d', snd (next d') = d') ->
  Index.first_middleware s es next d
  = (fst (next match s with
               | Index.seed_first => Index.createInitialAdmin es d
               | _ => d
               end),
     Index.createInitialAdmin es d).
Proof.
  intros H. unfold Index.first_middleware. destruct s.
  - rewrite <- (H (Index.createInitialAdmin es d)) at 3.
    destruct (next _); reflexivity.
  - specialize (H d). destruct (next d) as [res d']. cbn [fst snd] in *.
    subst d'. reflexivity.
  - specialize (H d). destruct (next d) as [res d']. cbn [fst snd] in *.
    subst d'. reflexivity.
Qed.



(** What the routers answer to a request that [authMiddleware] or
    [requireAdmin] stops, whatever the database. *)
Lemma handle_refuses (e : env) (r : Index.request) (d : db) :
  (authorization_of r = Some Auth.NoHeader ->
   Index.handle e r d = (json 401 (Message "No token"), d))
  /\ (authorization_of r = Some Auth.Unreadable ->
      Index.handle e r d = (json 401 (Message "Invalid token"), d))
  /\ (forall t,
        authorization_of r = Some (Auth.Bearer t) ->
        Auth.jwt_verify t (JWT_SECRET e) (now e) = None ->
        Index.handle e r d = (json 401 (Message "Invalid token"), d))
  /\ (forall t user,
        authorization_of r = Some (Auth.Bearer t) ->
        Auth.jwt_verify t (JWT_SECRET e) (now e) = Some user ->
        admin_route r = true ->
        role user <> "admin" ->
        Index.handle e r d = (json 403 (Message "Admin access only"), d)).
Proof.
  repeat match goal with |- _ /\ _ => split end.
  - intros A. destruct r; cbn [authorization_of] in A; try discriminate;
      injection A as ->; reflexivity.
  - intros A. destruct r; cbn [authorization_of] in A; try discriminate;
      injection A as ->; reflexivity.
  - intros t A V.
    destruct r; cbn [authorization_of] in A; try discriminate;
      injection A as ->; cbn [Index.handle];
      unfold Index.admin, Auth.authMiddleware; rewrite V; reflexivity.
  - intros t user A V Ha Hr.
    assert (R : negb (String.eqb (role user) "admin") = true).
    { destruct (String.eqb_spec (role user) "admin"); [contradiction|].
      reflexivity. }
    destruct r; cbn [authorization_of admin_route] in A, Ha;
      try discriminate; injection A as ->; cbn [Index.handle];
      unfold Index.admin, Auth.authMiddleware, AdminRoutes.requireAdmin;
      rewrite V, R; reflexivity.
Qed.

(** The application stops a request before its handler on each of the
    seventeen routes behind [authMiddleware]: the route answers 401 when
    the request has no Authorization header or a token that does not
    verify (unreadable, signed with another secret, or issued seven days
    ago or more), and each of the nine admin routes answers 403 to a
    verified token whose role is not "admin". The route writes nothing:
    the database after the request is what the seed of the first
    middleware alone makes of it. The routes without [authMiddleware]
    are "/", the two public reads and the login. *)
Theorem protected_routes_refuse (s : Index.schedule) (es e : env)
  (r : Index.request) (d : db) :
  (authorization_of r = Some Auth.NoHeader ->
   Index.app s es e r d
   = (json 401 (Message "No token"), Index.createInitialAdmin es d))
  /\ (authorization_of r = Some Auth.Unreadable ->
      Index.app s es e r d
      = (json 401 (Message "Invalid token"), Index.createInitialAdmin es d))
  /\ (forall t,
        authorization_of r = Some (Auth.Bearer t) ->
        tok_key t <> JWT_SECRET e ->
        Index.app s es e r d
        = (json 401 (Message "Invalid token"), Index.createInitialAdmin es d))
  /\ (forall e0 uid account,
        authorization_of r
        = Some (Auth.Bearer (Auth.generateToken e0 uid account)) ->
        (now e0 / 1000 + 604800 <= now e / 1000)%Z ->
        Index.app s es e r d
        = (json 401 (Message "Invalid token"), Index.createInitialAdmin es d))
  /\ (forall t user,
        authorization_of r = Some (Auth.Bearer t) ->
        Auth.jwt_verify t (JWT_SECRET e) (now e) = Some user ->
        admin_route r = true ->
        role user <> "admin" ->
        Index.app s es e r d
        = (json 403 (Message "Admin access only"),
           Index.createInitialAdmin es d))
  /\ (authorization_of r = None <->
      r = Index.GET_root
      \/ (exists category search, r = Index.GET_public_articles category search)
      \/ (exists param_id, r = Index.GET_public_article param_id)
      \/ (exists b, r = Index.POST_auth_login b)).
Proof.
  assert (Stop : forall res,
             (forall d', Index.handle e r d' = (res, d')) ->
             Index.app s es e r d = (res, Index.createInitialAdmin es d)).
  { intros res H. unfold Index.app. rewrite first_middleware_read.
    - rewrite H. reflexivity.
    - intros d'. rewrite H. reflexivity. }
  repeat match goal with |- _ /\ _ => split end.
  - intros A. apply Stop. intros d'.
    apply (proj1 (handle_refuses e r d') A).
  - intros A. apply Stop. intros d'.
    apply (proj1 (proj2 (handle_refuses e r d')) A).
  - intros t A K. apply Stop. intros d'.
    apply (proj1 (proj2 (proj2 (handle_refuses e r d'))) t A).
    unfold Auth.jwt_verify.
    destruct (String.eqb_spec (tok_key t) (JWT_SECRET e)); [contradiction|].
    reflexivity.
  - intros e0 uid account A T. apply Stop. intros d'.
    apply (proj1 (proj2 (proj2 (handle_refuses e r d'))) _ A).
    unfold Auth.jwt_verify, Auth.generateToken, Auth.jwt_sign,
      Auth.JWT_EXPIRES_IN. cbn [tok_key tok_exp].
    replace (now e / 1000 <? now e0 / 1000 + 604800)%Z with false
      by (symmetry; apply Z.ltb_ge; exact T).
    rewrite andb_false_r. reflexivity.
  - intros t user A V Ha Hr. apply Stop. intros d'.
    apply (proj2 (proj2 (proj2 (handle_refuses e r d'))) t user A V Ha Hr).
  - split.
    + intros A. destruct r; cbn [authorization_of] in A; try discriminate;
        eauto 6.
    + intros [->|[(category & search & ->)|[(param_id & ->)|(b & ->)]]];
        reflexivity.
Qed.

Lemma protected_routes_refuse_witness :
  Index.app Index.seed_first Sample.e Sample.e
    (Index.GET_admin_editors
       (Auth.Bearer (Auth.generateToken Sample.e 3%N Sample.bob)) None)
    Sample.db0
  = (json 403 (Message "Admin access only"), Sample.db0)
  /\ Index.app Index.seed_last Sample.e Sample.e
       (Index.POST_editor_articles Auth.NoHeader Sample.no_fields)
       (mkDb ∅ ∅)
     = (json 401 (Message "No token"),
        mkDb (<[32%N := Editor.mk "Super Admin" "admin@newsone.live"
                          (Sample.bcrypt "Admin@123") "admin"
                          2000000%Z 2000000%Z]> ∅) ∅).
Proof.
  split.
  - pose proof (protected_routes_refuse Index.seed_first Sample.e Sample.e
                  (Index.GET_admin_editors
                     (Auth.Bearer (Auth.generateToken Sample.e 3%N Sample.bob))
                     None)
                  Sample.db0) as (_ & _ & _ & _ & H & _).
    rewrite (H (Auth.generateToken Sample.e 3%N Sample.bob) Sample.as_bob).
    + f_equal.
    + reflexivity.
    + reflexivity.
    + reflexivity.
    + simpl. discriminate.
  - pose proof (protected_routes_refuse Index.seed_last Sample.e Sample.e
                  (Index.POST_editor_articles Auth.NoHeader Sample.no_fields)
                  (mkDb ∅ ∅)) as (H & _).
    rewrite H; [|reflexivity]. f_equal.
Defined.


(** The login answers 200 only for an account whose stored email is the
    trimmed lowercase form of the email sent and whose stored hash
    matches the password sent, with a token that carries the id, email
    and role of that account; an unknown email and a wrong password are
    answered alike, with 401 "Invalid credentials"; a body without email
    gives 500; the login writes nothing. *)
Theorem login_answers (e : env) (b : profile_body) (d : db) :
  (code (fst (AuthRoutes.login e b d)) = 200 ->
   exists email password k account,
     p_email b = Some email /\ p_password b = Some password
     /\ editors d !! k = Some account
     /\ Editor.email account = JS.trim (JS.toLowerCase email)
     /\ JS.is_lowercase (Editor.email account) = true
     /\ comparePassword e password (Editor.password account) = true
     /\ fst (AuthRoutes.login e b d)
        = json 200 (LoggedIn (Auth.generateToken e k account)
                      (view_of k account false))
     /\ tok_claims (Auth.generateToken e k account)
        = mkClaims (ObjectId.toString k) (Editor.email account)
            (Editor.role account))
  /\ (forall email,
        p_email b = Some email ->
        (forall k account, editors d !! k = Some account ->
                           Editor.email account
                           <> JS.trim (JS.toLowerCase email)) ->
        fst (AuthRoutes.login e b d)
        = json 401 (Message "Invalid credentials"))
  /\ (forall email password,
        p_email b = Some email -> p_password b = Some password ->
        (forall k account, editors d !! k = Some account ->
                           Editor.email account
                           = JS.trim (JS.toLowerCase email) ->
                           comparePassword e password (Editor.password account)
                           = false) ->
        fst (AuthRoutes.login e b d)
        = json 401 (Message "Invalid credentials"))
  /\ (p_email b = None ->
      fst (AuthRoutes.login e b d) = json 500 (Message "Server error"))
  /\ snd (AuthRoutes.login e b d) = d.
Proof.
  repeat match goal with |- _ /\ _ => split end.
  - unfold AuthRoutes.login.
    destruct (p_email b) as [email|]; cbn [catch500 fst code json];
      [|discriminate].
    destruct (Mongoose.findOne _ (editors d)) as [[k account]|] eqn:F;
      cbn [catch500 fst code json]; [|discriminate].
    destruct (p_password b) as [password|]; cbn [catch500 fst code json];
      [|discriminate].
    destruct (comparePassword e password (Editor.password account)) eqn:C;
      cbn [negb catch500 fst code json]; [|discriminate].
    intros _. apply findOne_Some in F as [Hk He]. apply String.eqb_eq in He.
    exists email, password, k, account.
    repeat match goal with |- _ /\ _ => split end; try reflexivity;
      try assumption.
    rewrite He. apply trim_lowercase, toLowerCase_is_lowercase.
  - intros email He Hnone. unfold AuthRoutes.login. rewrite He.
    assert (F : Mongoose.findOne
                  (fun _ x => String.eqb (Editor.email x)
                                (JS.trim (JS.toLowerCase email)))
                  (editors d) = None).
    { apply findOne_None. intros k account Hk.
      destruct (String.eqb_spec (Editor.email account)
                  (JS.trim (JS.toLowerCase email))) as [E|_]; [|reflexivity].
      exfalso. exact (Hnone k account Hk E). }
    rewrite F. reflexivity.
  - intros email password He Hp Hwrong. unfold AuthRoutes.login. rewrite He.
    destruct (Mongoose.findOne _ (editors d)) as [[k account]|] eqn:F;
      [|reflexivity].
    apply findOne_Some in F as [Hk Hm]. apply String.eqb_eq in Hm.
    rewrite Hp, (Hwrong k account Hk Hm). reflexivity.
  - intros He. unfold AuthRoutes.login. rewrite He. reflexivity.
  - apply login_reads.
Qed.

Lemma login_answers_witness :
  fst (AuthRoutes.login Sample.e
         (mkProfileBody None (Some "nobody@x.com") (Some "pw") None)
         Sample.db0)
  = json 401 (Message "Invalid credentials")
  /\ fst (AuthRoutes.login Sample.e
            (mkProfileBody None (Some "a@x.com") (Some "guess") None)
            Sample.db0)
     = json 401 (Message "Invalid credentials").
Proof.
  split.
  - pose proof (login_answers Sample.e
                  (mkProfileBody None (Some "nobody@x.com") (Some "pw") None)
                  Sample.db0) as (_ & H & _).
    apply (H "nobody@x.com").
    + reflexivity.
    + apply (bool_decide_unpack
               (map_Forall
                  (fun _ account =>
                     Editor.email account
                     <> JS.trim (JS.toLowerCase "nobody@x.com"))
                  (editors Sample.db0))).
      vm_compute. reflexivity.
  - pose proof (login_answers Sample.e
                  (mkProfileBody None (Some "a@x.com") (Some "guess") None)
                  Sample.db0) as (_ & _ & H & _).
    apply (H "a@x.com" "guess").
    + reflexivity.
    + reflexivity.
    + apply (bool_decide_unpack
               (map_Forall
                  (fun _ account =>
                     Editor.email account = JS.trim (JS.toLowerCase "a@x.com") ->
                     comparePassword Sample.e "guess" (Editor.password account)
                     = false)
                  (editors Sample.db0))).
      vm_compute. reflexivity.
Defined.






(** ** The seed *)

(** [createInitialAdmin] changes nothing when some account is an admin;
    otherwise it adds at most the one account "Super Admin" with the
    email admin@newsone.live, the role "admin" and the hash of the fixed
    password, and it does add it when the email and the new id are free;
    run again after it added the account, it changes nothing. *)
Theorem createInitialAdmin_once (e : env) (d : db) :
  (forall k x, editors d !! k = Some x -> Editor.role x = "admin" ->
               Index.createInitialAdmin e d = d)
  /\ (Index.createInitialAdmin e d = d
      \/ Index.createInitialAdmin e d
         = with_editors
             (<[freshId e :=
                  Editor.mk "Super Admin" "admin@newsone.live"
                    (hashPassword e "Admin@123") "admin" (now e) (now e)]>
                (editors d)) d
         /\ editors d !! freshId e = None)
  /\ (forall e',
        Index.createInitialAdmin e d <> d ->
        Index.createInitialAdmin e' (Index.createInitialAdmin e d)
        = Index.createInitialAdmin e d)
  /\ ((forall k x, editors d !! k = Some x -> Editor.role x <> "admin") ->
      (forall k x, editors d !! k = Some x ->
                   Editor.email x <> "admin@newsone.live") ->
      editors d !! freshId e = None ->
      JS.truthy (hashPassword e "Admin@123") = true ->
      Index.createInitialAdmin e d
      = with_editors
          (<[freshId e :=
               Editor.mk "Super Admin" "admin@newsone.live"
                 (hashPassword e "Admin@123") "admin" (now e) (now e)]>
             (editors d)) d).
Proof.
  assert (Hshape :
    Index.createInitialAdmin e d = d
    \/ Index.createInitialAdmin e d
       = with_editors
           (<[freshId e :=
                Editor.mk "Super Admin" "admin@newsone.live"
                  (hashPassword e "Admin@123") "admin" (now e) (now e)]>
              (editors d)) d
       /\ editors d !! freshId e = None).
  { unfold Index.createInitialAdmin.
    destruct (Mongoose.findOne _ (editors d)); [left; reflexivity|].
    unfold Mongoose.createEditor.
    destruct (negb (Editor.validate _)); [left; reflexivity|].
    destruct (editors d !! freshId e) eqn:F; [left; reflexivity|].
    destruct (Mongoose.emailTaken _ _ _); [left; reflexivity|].
    right. split; reflexivity. }
  assert (Hadmin : forall d0 k x,
             editors d0 !! k = Some x -> Editor.role x = "admin" ->
             forall e0, Index.createInitialAdmin e0 d0 = d0).
  { intros d0 k x Hk Hr e0. unfold Index.createInitialAdmin.
    destruct (Mongoose.findOne _ (editors d0)) eqn:F; [reflexivity|].
    exfalso. exact (proj1 (findOne_admin_None (editors d0)) F k x Hk Hr). }
  split; [intros k x Hk Hr; eapply Hadmin; eauto|].
  split; [exact Hshape|].
  split.
  - intros e' Hne. destruct Hshape as [E|[E _]]; [contradiction|].
    rewrite E.
    apply (Hadmin _ (freshId e)
             (Editor.mk "Super Admin" "admin@newsone.live"
                (hashPassword e "Admin@123") "admin" (now e) (now e)));
      [|reflexivity].
    cbn [editors with_editors]. apply lookup_insert_eq.
  - intros Hnone Hmail Hfresh Hhash. unfold Index.createInitialAdmin.
    rewrite (proj2 (findOne_admin_None (editors d)) Hnone).
    unfold Mongoose.createEditor, Editor.validate.
    cbn [Editor.name Editor.email Editor.password Editor.role].
    rewrite Hhash. cbn. rewrite Hfresh.
    assert (T : Mongoose.emailTaken (freshId e) "admin@newsone.live"
                  (editors d) = false).
    { apply emailTaken_false. intros k' x' Hk' _. eapply Hmail, Hk'. }
    rewrite T. reflexivity.
Qed.

(** ** The account routes *)

Lemma saveEditor_inv (now : Z) (k : ObjectId.t) (loaded x : Editor.doc) (d : db) :
  editors d !! k = Some loaded ->
  Editor.email x = Editor.email loaded
  \/ Mongoose.emailTaken k (Editor.email x) (editors d) = false ->
  match Mongoose.saveEditor now k loaded x d with
  | Throw _ => Editor.validate x = false
  | Ok (x', d') =>
      Editor.validate x = true
      /\ (exists t, x' = Editor.set_updatedAt t x)
      /\ editors d' !! k = Some x'
      /\ articles d' = articles d
      /\ (forall k', k' <> k -> editors d' !! k' = editors d !! k')
  end.
Proof.
  intros Hk Hmail. unfold Mongoose.saveEditor.
  destruct (Editor.validate x) eqn:V; cbn [negb]; [|reflexivity].
  destruct (decide (x = loaded)) as [->|Hne].
  - split; [reflexivity|]. split.
    + exists (Editor.updatedAt loaded). destruct loaded; reflexivity.
    + repeat split; auto.
  - assert (G : negb (String.eqb (Editor.email x) (Editor.email loaded))
                && Mongoose.emailTaken k (Editor.email x) (editors d) = false).
    { destruct Hmail as [->| ->].
      - rewrite String.eqb_refl. reflexivity.
      - apply andb_false_r. }
    rewrite G. split; [reflexivity|]. split; [eauto|].
    cbn [editors articles with_editors].
    split; [apply lookup_insert_eq|]. split; [reflexivity|].
    intros k' Hk'. apply lookup_insert_ne. congruence.
Qed.

(** DELETE /api/admin/editors/:id removes the account with that id and
    nothing else: the other accounts and every article stay, the articles
    of the removed account too, which the public read then shows without
    an author; a second call answers 404. *)
Theorem deleteEditor_effect (user : claims) (param_id : string) (d : db)
  (k : ObjectId.t) (account : Editor.doc) :
  param_id <> "undefined" ->
  ObjectId.cast param_id = Some k ->
  editors d !! k = Some account ->
  AdminRoutes.deleteEditor user param_id d
  = (json 200 (Message "Editor deleted successfully"),
     with_editors (delete k (editors d)) d)
  /\ editors (snd (AdminRoutes.deleteEditor user param_id d)) !! k = None
  /\ (forall k', k' <> k ->
                 editors (snd (AdminRoutes.deleteEditor user param_id d)) !! k'
                 = editors d !! k')
  /\ articles (snd (AdminRoutes.deleteEditor user param_id d)) = articles d
  /\ (forall article_id k' a,
        ObjectId.cast article_id = Some k' ->
        articles d !! k' = Some a ->
        Article.author a = k ->
        Article.status a = "published" ->
        PublicRoutes.getArticle article_id
          (snd (AdminRoutes.deleteEditor user param_id d))
        = (json 200 (OnePopulated k' a None),
           snd (AdminRoutes.deleteEditor user param_id d)))
  /\ AdminRoutes.deleteEditor user param_id
       (snd (AdminRoutes.deleteEditor user param_id d))
     = (json 404 (Message "Editor not found"),
        snd (AdminRoutes.deleteEditor user param_id d)).
Proof.
  intros Hne Hc Hk.
  assert (E : AdminRoutes.deleteEditor user param_id d
              = (json 200 (Message "Editor deleted successfully"),
                 with_editors (delete k (editors d)) d)).
  { rewrite deleteEditor_guard by exact Hne.
    rewrite (castObjectId_Some _ _ Hc). cbn [bind]. unfold Mongoose.findById.
    rewrite Hk. reflexivity. }
  rewrite E. cbn [snd editors articles with_editors].
  split; [reflexivity|]. split; [apply lookup_delete_eq|].
  split; [intros k' Hk'; apply lookup_delete_ne; congruence|].
  split; [reflexivity|]. split.
  - intros article_id k' a Hc' Ha Hauth Hst. unfold PublicRoutes.getArticle.
    rewrite (castObjectId_Some _ _ Hc'). cbn [bind].
    unfold Mongoose.findOneWithId. cbn [articles with_editors]. rewrite Ha, Hst.
    cbn [String.eqb Ascii.eqb Bool.eqb andb].
    unfold PublicRoutes.populate_name. cbn [editors with_editors].
    rewrite Hauth, lookup_delete_eq. reflexivity.
  - rewrite deleteEditor_guard by exact Hne.
    rewrite (castObjectId_Some _ _ Hc). cbn [bind]. unfold Mongoose.findById.
    cbn [editors with_editors]. rewrite lookup_delete_eq. reflexivity.
Qed.

Lemma deleteEditor_effect_witness :
  AdminRoutes.deleteEditor Sample.as_admin Sample.alice_id Sample.db0
  = (json 200 (Message "Editor deleted successfully"),
     with_editors (delete 2%N (editors Sample.db0)) Sample.db0)
  /\ PublicRoutes.getArticle Sample.story_id
       (snd (AdminRoutes.deleteEditor Sample.as_admin Sample.alice_id
               Sample.db0))
     = (json 200 (OnePopulated 16%N Sample.story None),
        snd (AdminRoutes.deleteEditor Sample.as_admin Sample.alice_id
               Sample.db0)).
Proof.
  pose proof (deleteEditor_effect Sample.as_admin Sample.alice_id Sample.db0
                2%N Sample.alice) as H.
  destruct H as (H1 & _ & _ & _ & H5 & _).
  - discriminate.
  - reflexivity.
  - vm_compute. reflexivity.
  - split; [exact H1|].
    apply (H5 Sample.story_id 16%N Sample.story).
    + reflexivity.
    + vm_compute. reflexivity.
    + reflexivity.
    + reflexivity.
Defined.

(** PUT /api/editor/change-password: a wrong current password answers
    400 and writes nothing; the right one stores the hash of the new
    password in the caller's own account and changes no other field, no
    other account and no article. *)
Theorem changePassword_effect (e : env) (user : claims) (b : password_body)
  (d : db) (k : ObjectId.t) (account : Editor.doc) (current new : string) :
  ObjectId.cast (id user) = Some k ->
  editors d !! k = Some account ->
  currentPassword b = Some current ->
  newPassword b = Some new ->
  JS.truthy current = true ->
  JS.truthy new = true ->
  (comparePassword e current (Editor.password account) = false ->
   EditorRoutes.changePassword e user b d
   = (json 400 (Message "Current password is incorrect"), d))
  /\ (comparePassword e current (Editor.password account) = true ->
      Editor.validate account = true ->
      JS.truthy (hashPassword e new) = true ->
      fst (EditorRoutes.changePassword e user b d)
      = json 200 (Message "Password updated successfully")
      /\ exists account',
           editors (snd (EditorRoutes.changePassword e user b d)) !! k
           = Some account'
           /\ Editor.password account' = hashPassword e new
           /\ Editor.name account' = Editor.name account
           /\ Editor.email account' = Editor.email account
           /\ Editor.role account' = Editor.role account
           /\ Editor.createdAt account' = Editor.createdAt account
           /\ articles (snd (EditorRoutes.changePassword e user b d))
              = articles d
           /\ forall k', k' <> k ->
                editors (snd (EditorRoutes.changePassword e user b d)) !! k'
                = editors d !! k').
Proof.
  intros Hc Hk Hcur Hnew Tc Tn. unfold EditorRoutes.changePassword.
  rewrite Hcur, Hnew, Tc, Tn. cbn [negb orb].
  rewrite (castObjectId_Some _ _ Hc). cbn [bind]. unfold Mongoose.findById.
  rewrite Hk. split.
  - intros ->. reflexivity.
  - intros -> V Th. cbn [negb].
    pose proof (saveEditor_inv (now e) k account
                  (Editor.set_password (hashPassword e new) account) d Hk
                  (or_introl eq_refl)) as S.
    destruct (Mongoose.saveEditor _ _ _ _ _) as [[x d1]|].
    + cbn [bind catch500 fst snd].
      destruct S as (_ & [t ->] & S1 & S2 & S3).
      split; [reflexivity|]. eexists. split; [exact S1|].
      repeat split; try reflexivity; assumption.
    + exfalso. unfold Editor.validate in *.
      cbn [Editor.set_password Editor.name Editor.email Editor.password
           Editor.role] in S.
      apply andb_prop in V as [V V4]. apply andb_prop in V as [V V3].
      apply andb_prop in V as [V1 V2].
      rewrite V1, V2, Th, V4 in S. discriminate.
Qed.

Lemma changePassword_effect_witness :
  EditorRoutes.changePassword Sample.e Sample.as_bob
    (mkPasswordBody (Some "guess") (Some "next-pw")) Sample.db0
  = (json 400 (Message "Current password is incorrect"), Sample.db0)
  /\ fst (EditorRoutes.changePassword Sample.e Sample.as_bob
            (mkPasswordBody (Some "bob-pw") (Some "next-pw")) Sample.db0)
     = json 200 (Message "Password updated successfully").
Proof.
  split.
  - pose proof (changePassword_effect Sample.e Sample.as_bob
                  (mkPasswordBody (Some "guess") (Some "next-pw")) Sample.db0
                  3%N Sample.bob "guess" "next-pw") as H.
    destruct H as (H & _);
      [reflexivity|vm_compute; reflexivity|reflexivity|reflexivity
      |reflexivity|reflexivity|].
    apply H. reflexivity.
  - pose proof (changePassword_effect Sample.e Sample.as_bob
                  (mkPasswordBody (Some "bob-pw") (Some "next-pw")) Sample.db0
                  3%N Sample.bob "bob-pw" "next-pw") as H.
    destruct H as (_ & H);
      [reflexivity|vm_compute; reflexivity|reflexivity|reflexivity
      |reflexivity|reflexivity|].
    apply H; reflexivity.
Defined.

(** PUT /api/admin/editors/:id/reset-password answers with the generated
    password in clear and stores its hash, for any account, leaving its
    name, email and role; an id no account has answers 404 and writes
    nothing. *)
Theorem resetPassword_effect (e : env) (param_id : string) (d : db)
  (k : ObjectId.t) :
  ObjectId.cast param_id = Some k ->
  (editors d !! k = None ->
   AdminRoutes.resetPassword e param_id d
   = (json 404 (Message "Editor not found"), d))
  /\ (forall account,
        editors d !! k = Some account ->
        Editor.validate account = true ->
        JS.truthy (hashPassword e (randomPassword e)) = true ->
        fst (AdminRoutes.resetPassword e param_id d)
        = json 200 (PasswordReset "Password reset successfully"
                      (Editor.email account) (randomPassword e))
        /\ exists account',
             editors (snd (AdminRoutes.resetPassword e param_id d)) !! k
             = Some account'
             /\ Editor.password account' = hashPassword e (randomPassword e)
             /\ Editor.name account' = Editor.name account
             /\ Editor.email account' = Editor.email account
             /\ Editor.role account' = Editor.role account
             /\ forall k', k' <> k ->
                  editors (snd (AdminRoutes.resetPassword e param_id d)) !! k'
                  = editors d !! k').
Proof.
  intros Hc. unfold AdminRoutes.resetPassword.
  rewrite (castObjectId_Some _ _ Hc). cbn [bind]. unfold Mongoose.findById.
  split.
  - intros ->. reflexivity.
  - intros account Hk V Th. rewrite Hk.
    pose proof (saveEditor_inv (now e) k account
                  (Editor.set_password (hashPassword e (randomPassword e))
                     account) d Hk (or_introl eq_refl)) as S.
    destruct (Mongoose.saveEditor _ _ _ _ _) as [[x d1]|].
    + cbn [bind catch500 fst snd].
      destruct S as (_ & [t ->] & S1 & S2 & S3).
      split; [reflexivity|]. eexists. split; [exact S1|].
      repeat split; try reflexivity; assumption.
    + exfalso. unfold Editor.validate in *.
      cbn [Editor.set_password Editor.name Editor.email Editor.password
           Editor.role] in S.
      apply andb_prop in V as [V V4]. apply andb_prop in V as [V V3].
      apply andb_prop in V as [V1 V2].
      rewrite V1, V2, Th, V4 in S. discriminate.
Qed.

Lemma resetPassword_effect_witness :
  AdminRoutes.resetPassword Sample.e "0000000000000000000000ff" Sample.db0
  = (json 404 (Message "Editor not found"), Sample.db0)
  /\ fst (AdminRoutes.resetPassword Sample.e Sample.bob_id Sample.db0)
     = json 200 (PasswordReset "Password reset successfully" "bob@x.com"
                   "Tq7#mK2x!a").
Proof.
  split.
  - pose proof (resetPassword_effect Sample.e "0000000000000000000000ff"
                  Sample.db0 255%N) as H.
    destruct H as (H & _); [reflexivity|].
    apply H. vm_compute. reflexivity.
  - pose proof (resetPassword_effect Sample.e Sample.bob_id Sample.db0 3%N)
      as H.
    destruct H as (_ & H); [reflexivity|].
    apply (H Sample.bob); [vm_compute; reflexivity|reflexivity|reflexivity].
Defined.

Lemma changeEmail_inv (k : ObjectId.t) (v : option string)
  (loaded x : Editor.doc) (m : gmap N Editor.doc) :
  changeEmail k v loaded m = Some x ->
  x = match v with
      | Some em =>
          if JS.truthy em && negb (String.eqb em (Editor.email loaded))
          then Editor.set_email em loaded
          else loaded
      | None => loaded
      end
  /\ (Editor.email x = Editor.email loaded
      \/ Mongoose.emailTaken k (Editor.email x) m = false).
Proof.
  unfold changeEmail. destruct v as [em|]; [|intros [= <-]; auto].
  destruct (JS.truthy em && negb (String.eqb em (Editor.email loaded)));
    [|intros [= <-]; auto].
  destruct (Mongoose.findOne _ m) eqn:F; [discriminate|].
  intros [= <-]. split; [reflexivity|]. right.
  apply emailTaken_false. intros k' x' Hk' Hne E.
  rewrite findOne_None in F. specialize (F k' x' Hk'). cbn in F, E.
  rewrite E, String.eqb_refl in F.
  destruct (N.eqb_spec k' k); [contradiction|discriminate].
Qed.

(** PUT /api/admin/editors/:id: an accepted update stores the name, email
    and role that the request sends non-empty (name and email trimmed)
    and keeps what it omits or sends empty, the password and every other
    account and article; a refused one writes nothing, and a role other
    than "admin" and "user" is refused; an update of a valid account is
    accepted when the name and the email it sends are not blank, no
    other account holds the email, and the role it sends is "admin" or
    "user". *)
Theorem updateEditor_effect (e : env) (param_id : string) (b : profile_body)
  (d : db) (k : ObjectId.t) (account : Editor.doc) :
  ObjectId.cast param_id = Some k ->
  editors d !! k = Some account ->
  (code (fst (AdminRoutes.updateEditor e param_id b d)) = 200 ->
   exists account',
     editors (snd (AdminRoutes.updateEditor e param_id b d)) !! k
     = Some account'
     /\ Editor.validate account' = true
     /\ Editor.name account'
        = match p_name b with
          | Some v => if JS.truthy v then JS.trim v else Editor.name account
          | None => Editor.name account
          end
     /\ Editor.email account'
        = match p_email b with
          | Some v =>
              if JS.truthy v && negb (String.eqb v (Editor.email account))
              then JS.trim v
              else Editor.email account
          | None => Editor.email account
          end
     /\ Editor.role account'
        = match p_role b with
          | Some v => if JS.truthy v then v else Editor.role account
          | None => Editor.role account
          end
     /\ Editor.password account' = Editor.password account
     /\ Editor.createdAt account' = Editor.createdAt account
     /\ articles (snd (AdminRoutes.updateEditor e param_id b d)) = articles d
     /\ forall k', k' <> k ->
          editors (snd (AdminRoutes.updateEditor e param_id b d)) !! k'
          = editors d !! k')
  /\ (code (fst (AdminRoutes.updateEditor e param_id b d)) <> 200 ->
      snd (AdminRoutes.updateEditor e param_id b d) = d)
  /\ (forall v, p_role b = Some v -> JS.truthy v = true ->
                JS.includes Editor.ROLES v = false ->
                code (fst (AdminRoutes.updateEditor e param_id b d)) <> 200)
  /\ (Editor.validate account = true ->
      (forall v, p_name b = Some v -> JS.truthy v = true ->
                 JS.truthy (JS.trim v) = true) ->
      (forall v, p_email b = Some v -> JS.truthy v = true ->
                 v <> Editor.email account ->
                 JS.truthy (JS.trim v) = true
                 /\ forall k' x, editors d !! k' = Some x -> k' <> k ->
                                 Editor.email x <> JS.trim v) ->
      (forall v, p_role b = Some v -> JS.truthy v = true ->
                 JS.includes Editor.ROLES v = true) ->
      code (fst (AdminRoutes.updateEditor e param_id b d)) = 200).
Proof.
  intros Hc Hk.
  assert (Hsome :
    (forall v, p_email b = Some v -> JS.truthy v = true ->
               v <> Editor.email account ->
               JS.truthy (JS.trim v) = true
               /\ forall k' x, editors d !! k' = Some x -> k' <> k ->
                               Editor.email x <> JS.trim v) ->
    changeEmail k (p_email b) account (editors d) <> None).
  { intros He. unfold changeEmail. destruct (p_email b) as [em|]; [|discriminate].
    destruct (JS.truthy em) eqn:T; cbn [andb]; [|discriminate].
    destruct (String.eqb_spec em (Editor.email account)) as [E|E];
      cbn [negb]; [discriminate|].
    destruct (He em eq_refl T E) as [_ Hfree].
    assert (F : Mongoose.findOne
                  (fun k' x => String.eqb (Editor.email x) (JS.trim em)
                               && negb (N.eqb k' k)) (editors d) = None).
    { apply findOne_None. intros k' x Hk'.
      destruct (String.eqb_spec (Editor.email x) (JS.trim em)) as [Ex|_];
        [|reflexivity].
      destruct (N.eqb_spec k' k) as [_|Hne]; [reflexivity|].
      exfalso. exact (Hfree k' x Hk' Hne Ex). }
    rewrite F. discriminate. }
  assert (Hfields : forall x,
    changeEmail k (p_email b) account (editors d) = Some x ->
    let y := assign_truthy (p_role b) Editor.set_role
               (assign_truthy (p_name b) Editor.set_name x) in
    Editor.name y
    = match p_name b with
      | Some v => if JS.truthy v then JS.trim v else Editor.name account
      | None => Editor.name account
      end
    /\ Editor.email y
       = match p_email b with
         | Some v =>
             if JS.truthy v && negb (String.eqb v (Editor.email account))
             then JS.trim v
             else Editor.email account
         | None => Editor.email account
         end
    /\ Editor.role y
       = match p_role b with
         | Some v => if JS.truthy v then v else Editor.role account
         | None => Editor.role account
         end
    /\ Editor.password y = Editor.password account
    /\ Editor.createdAt y = Editor.createdAt account
    /\ (Editor.email y = Editor.email account
        \/ Mongoose.emailTaken k (Editor.email y) (editors d) = false)).
  { intros x C. apply changeEmail_inv in C as [-> Hm]. cbv zeta.
    unfold assign_truthy.
    destruct (p_name b) as [n|], (p_role b) as [ro|], (p_email b) as [em|];
      try destruct (JS.truthy n); try destruct (JS.truthy ro);
      try destruct (JS.truthy em && negb (String.eqb em (Editor.email account)));
      cbn in *; repeat split; try reflexivity; exact Hm. }
  unfold AdminRoutes.updateEditor.
  rewrite (castObjectId_Some _ _ Hc). cbn [bind]. unfold Mongoose.findById.
  rewrite Hk.
  destruct (changeEmail k (p_email b) account (editors d)) as [x|] eqn:C.
  - destruct (Hfields x eq_refl) as (F1 & F2 & F3 & F4 & F5 & F6).
    pose proof (saveEditor_inv (now e) k account _ d Hk F6) as S.
    destruct (Mongoose.saveEditor _ _ _ _ _) as [[y d1]|];
      cbn [bind catch500 fst snd code json].
    + destruct S as (V & [t ->] & S1 & S2 & S3).
      split.
      * intros _. eexists. split; [exact S1|].
        cbn [Editor.set_updatedAt Editor.name Editor.email Editor.role
             Editor.password Editor.createdAt].
        split; [exact V|]. repeat split; assumption.
      * split; [intros H; contradiction|].
        split; [|reflexivity].
        intros v Hv Tv Hi. exfalso. unfold Editor.validate in V.
        apply andb_prop in V as [_ V]. rewrite F3, Hv, Tv in V. congruence.
    + split; [discriminate|]. split; [reflexivity|].
      split; [intros; discriminate|].
      intros V Hn He Hr. exfalso.
      unfold Editor.validate in S, V. rewrite F1, F2, F3, F4 in S.
      apply andb_prop in V as [V V4]. apply andb_prop in V as [V V3].
      apply andb_prop in V as [V1 V2].
      assert (T : (JS.truthy
                     match p_name b with
                     | Some v =>
                         if JS.truthy v then JS.trim v else Editor.name account
                     | None => Editor.name account
                     end
                   && JS.truthy
                        match p_email b with
                        | Some v =>
                            if JS.truthy v
                               && negb (String.eqb v (Editor.email account))
                            then JS.trim v
                            else Editor.email account
                        | None => Editor.email account
                        end
                   && JS.truthy (Editor.password account)
                   && JS.includes Editor.ROLES
                        match p_role b with
                        | Some v =>
                            if JS.truthy v then v else Editor.role account
                        | None => Editor.role account
                        end) = true).
      { repeat (apply andb_true_intro; split).
        - destruct (p_name b) as [v|]; [|exact V1].
          destruct (JS.truthy v) eqn:Tv; [apply (Hn v eq_refl Tv)|exact V1].
        - destruct (p_email b) as [v|]; [|exact V2].
          destruct (JS.truthy v) eqn:Tv; cbn [andb]; [|exact V2].
          destruct (String.eqb_spec v (Editor.email account)) as [E|E];
            cbn [negb]; [exact V2|].
          apply (He v eq_refl Tv E).
        - exact V3.
        - destruct (p_role b) as [v|]; [|exact V4].
          destruct (JS.truthy v) eqn:Tv; [apply (Hr v eq_refl Tv)|exact V4]. }
      congruence.
  - cbn [catch500 fst snd code json].
    split; [discriminate|]. split; [reflexivity|].
    split; [intros; discriminate|].
    intros _ _ He _. exfalso. exact (Hsome He eq_refl).
Qed.

Lemma updateEditor_effect_witness :
  (exists account',
      editors (snd (AdminRoutes.updateEditor Sample.e Sample.bob_id
                      (mkProfileBody (Some " Robert ") (Some "") None
                         (Some "admin"))
                      Sample.db0)) !! 3%N = Some account'
      /\ Editor.name account' = "Robert"
      /\ Editor.email account' = "bob@x.com"
      /\ Editor.role account' = "admin"
      /\ Editor.password account' = Editor.password Sample.bob)
  /\ code (fst (AdminRoutes.updateEditor Sample.e Sample.bob_id
                  (mkProfileBody (Some "Bob") None None (Some "root"))
                  Sample.db0))
     <> 200
  /\ snd (AdminRoutes.updateEditor Sample.e Sample.bob_id
            (mkProfileBody (Some "Bob") None None (Some "root")) Sample.db0)
     = Sample.db0.
Proof.
  split.
  - pose proof (updateEditor_effect Sample.e Sample.bob_id
                  (mkProfileBody (Some " Robert ") (Some "") None
                     (Some "admin"))
                  Sample.db0 3%N Sample.bob) as H.
    destruct H as (Hyes & _ & _ & Hacc); [reflexivity|vm_compute; reflexivity|].
    destruct Hyes as (x & H1 & _ & H2 & H3 & H4 & H5 & _).
    { apply Hacc.
      - vm_compute. reflexivity.
      - simpl. intros v [= <-] _. vm_compute. reflexivity.
      - simpl. intros v [= <-] T. discriminate T.
      - simpl. intros v [= <-] _. vm_compute. reflexivity. }
    exists x. split; [exact H1|]. split; [exact H2|]. split; [exact H3|].
    split; [exact H4|exact H5].
  - pose proof (updateEditor_effect Sample.e Sample.bob_id
                  (mkProfileBody (Some "Bob") None None (Some "root"))
                  Sample.db0 3%N Sample.bob) as H.
    destruct H as (_ & Hno & Hrole & _); [reflexivity|vm_compute; reflexivity|].
    assert (Hc : code (fst (AdminRoutes.updateEditor Sample.e Sample.bob_id
                              (mkProfileBody (Some "Bob") None None
                                 (Some "root"))
                              Sample.db0)) <> 200)
      by (apply (Hrole "root"); reflexivity).
    split; [exact Hc|apply Hno, Hc].
Defined.

(** ** The article routes *)

(** PUT /api/admin/articles/:id/status tests the status first: a missing
    or unknown status answers 400 whatever the identifier; on an article
    that satisfies its schema a valid status is stored whoever the author
    is, [publishedAt] is kept unless the status is "published", and
    title, summary, content, categories, image, source and author are
    not touched. *)
Theorem setStatus_effect (e : env) (param_id : string) (d : db) :
  AdminRoutes.setStatus e param_id None d
  = (json 400 (Message "Invalid status value supplied"), d)
  /\ (forall status,
        JS.includes Article.STATUSES status = false ->
        AdminRoutes.setStatus e param_id (Some status) d
        = (json 400 (Message "Invalid status value supplied"), d))
  /\ (forall status k,
        JS.includes Article.STATUSES status = true ->
        ObjectId.cast param_id = Some k ->
        articles d !! k = None ->
        AdminRoutes.setStatus e param_id (Some status) d
        = (json 404 (Message "Article not found"), d))
  /\ (forall status k a,
        JS.includes Article.STATUSES status = true ->
        ObjectId.cast param_id = Some k ->
        articles d !! k = Some a ->
        Article.validate a = true ->
        exists a',
          AdminRoutes.setStatus e param_id (Some status) d
          = (json 200 (MessageArticle "Article status updated" k a'),
             snd (AdminRoutes.setStatus e param_id (Some status) d))
          /\ articles (snd (AdminRoutes.setStatus e param_id (Some status) d))
               !! k = Some a'
          /\ Article.status a' = status
          /\ Article.publishedAt a'
             = (if String.eqb status "published" then Some (now e)
                else Article.publishedAt a)
          /\ Article.title a' = Article.title a
          /\ Article.summary a' = Article.summary a
          /\ Article.content a' = Article.content a
          /\ Article.categories a' = Article.categories a
          /\ Article.imageUrl a' = Article.imageUrl a
          /\ Article.source a' = Article.source a
          /\ Article.author a' = Article.author a
          /\ Article.createdAt a' = Article.createdAt a
          /\ editors (snd (AdminRoutes.setStatus e param_id (Some status) d))
             = editors d
          /\ forall k', k' <> k ->
               articles (snd (AdminRoutes.setStatus e param_id (Some status) d))
                 !! k'
               = articles d !! k').
Proof.
  split; [reflexivity|]. split.
  { intros status H. unfold AdminRoutes.setStatus. rewrite H. reflexivity. }
  split.
  { intros status k Hs Hc Hk. unfold AdminRoutes.setStatus. rewrite Hs.
    assert (Hi : ObjectId.isValid param_id = true)
      by (apply isValid_cast; eauto).
    rewrite Hi. cbn [negb]. rewrite (castObjectId_Some _ _ Hc). cbn [bind].
    unfold Mongoose.findById. rewrite Hk. reflexivity. }
  intros status k a Hs Hc Hk V. unfold AdminRoutes.setStatus. rewrite Hs.
  assert (Hi : ObjectId.isValid param_id = true) by (apply isValid_cast; eauto).
  rewrite Hi. cbn [negb]. rewrite (castObjectId_Some _ _ Hc). cbn [bind].
  unfold Mongoose.findById. rewrite Hk.
  match goal with
  | |- context [Mongoose.saveArticle ?n k a ?x d] =>
      pose proof (saveArticle_inv n k a x d Hk) as S;
      assert (Hx : Article.validate x = true);
      [|destruct (Mongoose.saveArticle n k a x d) as [[a' d']|]]
  end.
  - unfold Article.validate in *.
    apply andb_prop in V as [V _].
    destruct (String.eqb status "published"); cbn; rewrite V; exact Hs.
  - cbn [bind catch500 fst snd]. destruct S as (_ & [t ->] & S1 & S2 & S3).
    eexists. split; [reflexivity|]. split; [exact S1|].
    destruct (String.eqb status "published"); cbn;
      repeat split; try reflexivity; assumption.
  - congruence.
Qed.

Lemma setStatus_effect_witness :
  AdminRoutes.setStatus Sample.e "xyz" (Some "archived") Sample.db0
  = (json 400 (Message "Invalid status value supplied"), Sample.db0)
  /\ exists a',
       AdminRoutes.setStatus Sample.e Sample.draft_id (Some "in_review")
         Sample.db0
       = (json 200 (MessageArticle "Article status updated" 17%N a'),
          snd (AdminRoutes.setStatus Sample.e Sample.draft_id
                 (Some "in_review") Sample.db0))
       /\ Article.status a' = "in_review"
       /\ Article.publishedAt a' = None
       /\ Article.author a' = 3%N.
Proof.
  pose proof (setStatus_effect Sample.e "xyz" Sample.db0) as (_ & H400 & _).
  pose proof (setStatus_effect Sample.e Sample.draft_id Sample.db0)
    as (_ & _ & _ & H200).
  split; [apply H400; reflexivity|].
  destruct (H200 "in_review" 17%N Sample.draft)
    as (a' & E & _ & Hs & Hp & _ & _ & _ & _ & _ & _ & Ha & _).
  - reflexivity.
  - reflexivity.
  - vm_compute. reflexivity.
  - reflexivity.
  - exists a'. repeat split; assumption.
Defined.

(** Who reads an article by its id: the admin whatever its status and
    author, its author whatever its status, the public only when it is
    published; everyone else gets the 404 of an id no article has. No
    read writes. *)
Theorem article_reads (user : claims) (param_id : string) (d : db)
  (k uid : ObjectId.t) :
  ObjectId.cast param_id = Some k ->
  ObjectId.cast (id user) = Some uid ->
  (articles d !! k = None ->
   AdminRoutes.getArticle param_id d
   = (json 404 (Message "Article not found"), d)
   /\ EditorRoutes.getArticle user param_id d
      = (json 404 (Message "Article not found"), d)
   /\ PublicRoutes.getArticle param_id d
      = (json 404 (Message "Article not found"), d))
  /\ (forall a,
        articles d !! k = Some a ->
        AdminRoutes.getArticle param_id d
        = (json 200 (OnePopulated k a (AdminRoutes.populate_name_email a d)), d)
        /\ EditorRoutes.getArticle user param_id d
           = (if N.eqb (Article.author a) uid
              then (json 200 (OneArticle k a), d)
              else (json 404 (Message "Article not found"), d))
        /\ PublicRoutes.getArticle param_id d
           = (if String.eqb (Article.status a) "published"
              then (json 200 (OnePopulated k a (PublicRoutes.populate_name a d)),
                    d)
              else (json 404 (Message "Article not found"), d))).
Proof.
  intros Hc Hu.
  assert (Hi : ObjectId.isValid param_id = true) by (apply isValid_cast; eauto).
  unfold AdminRoutes.getArticle, EditorRoutes.getArticle,
    PublicRoutes.getArticle, Mongoose.findById, Mongoose.findOneWithId.
  rewrite Hi, (castObjectId_Some _ _ Hc), (castObjectId_Some _ _ Hu).
  cbn [negb bind]. split.
  - intros ->. repeat split.
  - intros a ->. split; [reflexivity|]. split.
    + destruct (N.eqb (Article.author a) uid); reflexivity.
    + destruct (String.eqb (Article.status a) "published"); reflexivity.
Qed.

Lemma article_reads_witness :
  EditorRoutes.getArticle Sample.as_alice Sample.draft_id Sample.db0
  = (json 404 (Message "Article not found"), Sample.db0)
  /\ EditorRoutes.getArticle Sample.as_bob Sample.draft_id Sample.db0
     = (json 200 (OneArticle 17%N Sample.draft), Sample.db0).
Proof.
  pose proof (article_reads Sample.as_alice Sample.draft_id Sample.db0 17%N 2%N
                eq_refl eq_refl) as (_ & Ha).
  pose proof (article_reads Sample.as_bob Sample.draft_id Sample.db0 17%N 3%N
                eq_refl eq_refl) as (_ & Hb).
  split.
  - apply (Ha Sample.draft). vm_compute. reflexivity.
  - apply (Hb Sample.draft). vm_compute. reflexivity.
Defined.

(** Creating and then reading: with an id that no article has, a created
    article is at once readable by its author under that id, and by the
    public exactly when it was created as published. *)
Theorem createArticle_then_read (e : env) (user : claims) (b : article_body)
  (d : db) (a : Article.doc) :
  fst (EditorRoutes.createArticle e user b d)
  = json 201 (MessageArticle "Article created successfully" (freshId e) a) ->
  (freshId e < ObjectId.bound)%N ->
  EditorRoutes.getArticle user (ObjectId.toString (freshId e))
    (snd (EditorRoutes.createArticle e user b d))
  = (json 200 (OneArticle (freshId e) a),
     snd (EditorRoutes.createArticle e user b d))
  /\ code (fst (PublicRoutes.getArticle (ObjectId.toString (freshId e))
                  (snd (EditorRoutes.createArticle e user b d))))
     = (if String.eqb (or_else (b_status b) "draft") "published"
        then 200 else 404).
Proof.
  intros H Hb. unfold EditorRoutes.createArticle in *.
  destruct (b_title b) as [title|], (b_content b) as [content|];
    try discriminate H.
  destruct (_ || _); [discriminate H|].
  destruct (Mongoose.castObjectId (id user)) as [uid|] eqn:Cu; cbn [bind] in *;
    [|discriminate H].
  unfold Mongoose.createArticle in *.
  destruct (negb (Article.validate _)); cbn [bind] in *; [discriminate H|].
  destruct (articles d !! freshId e); cbn [bind] in *; [discriminate H|].
  cbn [catch500 fst snd] in *. injection H as <-.
  unfold EditorRoutes.getArticle, PublicRoutes.getArticle.
  rewrite (castObjectId_Some _ _ (cast_toString _ Hb)), Cu. cbn [bind].
  unfold Mongoose.findOneWithId. cbn [articles with_articles].
  rewrite lookup_insert_eq. cbn [Article.author Article.status].
  rewrite N.eqb_refl. split; [reflexivity|].
  destruct (String.eqb (or_else (b_status b) "draft") "published"); reflexivity.
Qed.

Lemma createArticle_then_read_witness :
  code (fst (PublicRoutes.getArticle (ObjectId.toString 32%N)
               (snd (EditorRoutes.createArticle Sample.e Sample.as_alice
                       (mkArticleBody (Some "A") None (Some "B") CatUndefined
                          None None (Some "published"))
                       Sample.db0))))
  = 200.
Proof.
  apply (createArticle_then_read Sample.e Sample.as_alice
           (mkArticleBody (Some "A") None (Some "B") CatUndefined None None
              (Some "published"))
           Sample.db0
           (Article.mk "A" "" "B" ["latest"] "" "" "published" 2%N
              (Some 2000000%Z) 2000000%Z 2000000%Z)).
  - vm_compute. reflexivity.
  - vm_compute. reflexivity.
Defined.

(** ** The overviews *)

Lemma filter_length_le {A : Type} (p q : A -> bool) (l : list A) :
  (forall x, p x = true -> q x = true) ->
  length (List.filter p l) <= length (List.filter q l).
Proof.
  intros H. induction l as [|x r IH]; simpl; [lia|].
  destruct (p x) eqn:P.
  - rewrite (H x P). simpl. lia.
  - destruct (q x); simpl; lia.
Qed.

Lemma filter_length_all {A : Type} (l : list A) :
  length (List.filter (fun _ => true) l) = length l.
Proof. induction l as [|x r IH]; simpl; congruence. Qed.

Lemma status_cases (s : string) :
  JS.includes Article.STATUSES s = true ->
  s = "draft" \/ s = "in_review" \/ s = "published".
Proof.
  intros H. apply includes_elem in H. unfold Article.STATUSES in H.
  rewrite !elem_of_cons in H. destruct H as [H|[H|[H|H]]]; auto.
  inversion H.
Qed.

Lemma filter_length_status {A : Type} (p : A -> bool) (status : A -> string)
  (l : list A) :
  (forall x, In x l -> p x = true ->
             JS.includes Article.STATUSES (status x) = true) ->
  length (List.filter p l)
  = length (List.filter (fun x => p x && String.eqb (status x) "draft") l)
    + length (List.filter (fun x => p x && String.eqb (status x) "published") l)
    + length (List.filter (fun x => p x && String.eqb (status x) "in_review") l).
Proof.
  induction l as [|x r IH]; intros H; [reflexivity|].
  assert (IH' := IH (fun y Hy => H y (or_intror Hy))). simpl.
  destruct (p x) eqn:P; cbn [andb]; [|exact IH'].
  destruct (status_cases _ (H x (or_introl eq_refl) P)) as [E|[E|E]];
    rewrite E; cbn; lia.
Qed.

(** The counts of the two overviews, when every stored article has one
    of the three statuses: the total of the admin is the number of
    articles and the sum of its three counts by status; the counts of an
    editor are those of the caller's own articles, their total again the
    sum of the three, and none exceeds the admin's count. *)
Theorem overview_counts (user : claims) (d : db) (uid : ObjectId.t) :
  (forall k a, articles d !! k = Some a ->
               JS.includes Article.STATUSES (Article.status a) = true) ->
  ObjectId.cast (id user) = Some uid ->
  exists totalEditors totalArticles publishedArticles draftArticles
         pendingReviews total drafts published inReview,
    AdminRoutes.overview d
    = (json 200 (AdminOverview totalEditors totalArticles publishedArticles
                   draftArticles pendingReviews), d)
    /\ EditorRoutes.overview user d
       = (json 200 (EditorOverview total drafts published inReview), d)
    /\ totalArticles = size (articles d)
    /\ totalArticles = publishedArticles + draftArticles + pendingReviews
    /\ totalEditors <= size (editors d)
    /\ total = drafts + published + inReview
    /\ total <= totalArticles
    /\ drafts <= draftArticles
    /\ published <= publishedArticles
    /\ inReview <= pendingReviews.
Proof.
  intros Hst Hc. unfold AdminRoutes.overview, EditorRoutes.overview.
  rewrite (castObjectId_Some _ _ Hc). cbn [bind catch500].
  do 9 eexists. split; [reflexivity|]. split; [reflexivity|].
  unfold Mongoose.countDocuments, Mongoose.find. cbn [fst snd].
  assert (Hin : forall kv : N * Article.doc,
             In kv (map_to_list (articles d)) ->
             JS.includes Article.STATUSES (Article.status (snd kv)) = true).
  { intros [k a] H. apply list_elem_of_In, elem_of_map_to_list in H.
    eapply Hst, H. }
  pose proof (filter_length_status (fun _ : N * Article.doc => true)
                (fun kv => Article.status (snd kv))
                (map_to_list (articles d)) (fun kv H _ => Hin kv H)) as Hall.
  pose proof (filter_length_status
                (fun kv : N * Article.doc => N.eqb (Article.author (snd kv)) uid)
                (fun kv => Article.status (snd kv))
                (map_to_list (articles d)) (fun kv H _ => Hin kv H)) as Hown.
  cbn [andb] in Hall.
  assert (Hle : forall (A : Type) (p : A -> bool) (l : list A),
             length (List.filter p l) <= length l).
  { intros A p l. rewrite <- (filter_length_all l).
    apply filter_length_le. reflexivity. }
  repeat match goal with |- _ /\ _ => split end.
  - rewrite filter_length_all. apply length_map_to_list.
  - rewrite Hall. lia.
  - rewrite <- (length_map_to_list (editors d)). apply Hle.
  - rewrite Hown. reflexivity.
  - rewrite filter_length_all. apply Hle.
  - apply filter_length_le. intros kv H. apply andb_prop in H as [_ H]. exact H.
  - apply filter_length_le. intros kv H. apply andb_prop in H as [_ H]. exact H.
  - apply filter_length_le. intros kv H. apply andb_prop in H as [_ H]. exact H.
Qed.

Lemma overview_counts_witness :
  exists totalEditors totalArticles publishedArticles draftArticles
         pendingReviews total drafts published inReview,
    AdminRoutes.overview Sample.db0
    = (json 200 (AdminOverview totalEditors totalArticles publishedArticles
                   draftArticles pendingReviews), Sample.db0)
    /\ EditorRoutes.overview Sample.as_alice Sample.db0
       = (json 200 (EditorOverview total drafts published inReview),
          Sample.db0)
    /\ totalArticles = size (articles Sample.db0)
    /\ totalArticles = publishedArticles + draftArticles + pendingReviews
    /\ totalEditors <= size (editors Sample.db0)
    /\ total = drafts + published + inReview
    /\ total <= totalArticles
    /\ drafts <= draftArticles
    /\ published <= publishedArticles
    /\ inReview <= pendingReviews.
Proof.
  apply (overview_counts Sample.as_alice Sample.db0 2%N).
  - apply (bool_decide_unpack
             (map_Forall
                (fun _ a =>
                   JS.includes Article.STATUSES (Article.status a) = true)
                (articles Sample.db0))).
    vm_compute. reflexivity.
  - reflexivity.
Defined.

(** ** The public list *)

Lemma sorts_before_total (x y : N * Article.doc) :
  PublicRoutes.sorts_before x y = false -> PublicRoutes.sorts_before y x = true.
Proof.
  unfold PublicRoutes.sorts_before.
  destruct (Article.publishedAt (snd x)), (Article.publishedAt (snd y));
    try discriminate; try reflexivity; intros H.
  - apply orb_false_iff in H as [H1 H2].
    apply Z.ltb_ge in H1.
    destruct (Z.eqb_spec z0 z) as [->|Hne].
    + cbn [andb] in H2. apply Z.leb_gt in H2.
      rewrite Z.eqb_refl. cbn [andb]. apply orb_true_iff. right.
      apply Z.leb_le. lia.
    + apply orb_true_iff. left. apply Z.ltb_lt. lia.
  - apply Z.leb_gt in H. apply Z.leb_le. lia.
Qed.

Lemma sorts_before_trans (x y z : N * Article.doc) :
  PublicRoutes.sorts_before x y = true ->
  PublicRoutes.sorts_before y z = true ->
  PublicRoutes.sorts_before x z = true.
Proof.
  unfold PublicRoutes.sorts_before.
  destruct (Article.publishedAt (snd x)) as [p|],
    (Article.publishedAt (snd y)) as [q|],
    (Article.publishedAt (snd z)) as [r|];
    try discriminate; try reflexivity; intros H1 H2.
  - apply orb_true_iff in H1. apply orb_true_iff in H2.
    apply orb_true_iff.
    destruct H1 as [H1|H1], H2 as [H2|H2].
    + left. apply Z.ltb_lt in H1, H2. apply Z.ltb_lt. lia.
    + apply andb_prop in H2 as [E _]. apply Z.eqb_eq in E. subst. auto.
    + apply andb_prop in H1 as [E _]. apply Z.eqb_eq in E. subst. auto.
    + apply andb_prop in H1 as [E1 L1]. apply andb_prop in H2 as [E2 L2].
      apply Z.eqb_eq in E1, E2. apply Z.leb_le in L1, L2. subst.
      right. rewrite Z.eqb_refl. apply Z.leb_le. lia.
  - apply Z.leb_le in H1, H2. apply Z.leb_le. lia.
Qed.

Lemma insert_sorted_strongly (x : N * Article.doc) (l : list (N * Article.doc)) :
  StronglySorted (fun a b => PublicRoutes.sorts_before a b = true) l ->
  StronglySorted (fun a b => PublicRoutes.sorts_before a b = true)
    (PublicRoutes.insert_sorted x l).
Proof.
  induction l as [|y r IH]; intros S; simpl.
  - constructor; constructor.
  - inversion S as [|? ? Sr Fr]; subst.
    destruct (PublicRoutes.sorts_before x y) eqn:B.
    + constructor; [exact S|]. constructor; [exact B|].
      eapply Forall_impl; [exact Fr|]. intros z Hz.
      eapply sorts_before_trans; eauto.
    + constructor; [apply IH, Sr|].
      apply Forall_forall. intros z Hz.
      apply insert_sorted_elem in Hz as [->|Hz].
      * apply sorts_before_total, B.
      * rewrite Forall_forall in Fr. apply Fr, Hz.
Qed.

Lemma sort_strongly (l : list (N * Article.doc)) :
  StronglySorted (fun a b => PublicRoutes.sorts_before a b = true)
    (PublicRoutes.sort l).
Proof.
  induction l as [|x r IH]; simpl; [constructor|].
  apply insert_sorted_strongly, IH.
Qed.

Lemma insert_sorted_perm (x : N * Article.doc) (l : list (N * Article.doc)) :
  PublicRoutes.insert_sorted x l ≡ₚ x :: l.
Proof.
  induction l as [|y r IH]; simpl; [reflexivity|].
  destruct (PublicRoutes.sorts_before x y); [reflexivity|].
  rewrite IH. apply Permutation_swap.
Qed.

Lemma sort_perm (l : list (N * Article.doc)) : PublicRoutes.sort l ≡ₚ l.
Proof.
  induction l as [|x r IH]; simpl; [reflexivity|].
  rewrite insert_sorted_perm, IH. reflexivity.
Qed.

Lemma find_NoDup {A : Type} (f : N -> A -> bool) (m : gmap N A) :
  NoDup (List.map fst (Mongoose.find f m)).
Proof.
  unfold Mongoose.find.
  pose proof (NoDup_fst_map_to_list m) as H.
  induction (map_to_list m) as [|[k a] r IH]; simpl; [constructor|].
  cbn in H. apply NoDup_cons in H as [Hk Hr].
  destruct (f k a); simpl; [|apply IH, Hr].
  apply NoDup_cons. split; [|apply IH, Hr].
  intros Hin. apply Hk.
  apply list_elem_of_In, in_map_iff in Hin as ([k' a'] & E & Hin).
  cbn in E. subst k'. apply filter_In in Hin as [Hin _].
  apply list_elem_of_In, in_map_iff. exists (k, a'). split; [reflexivity|].
  exact Hin.
Qed.

Lemma StronglySorted_map {A B : Type} (R : A -> A -> Prop) (S : B -> B -> Prop)
  (g : A -> B) (l : list A) :
  (forall x y, R x y -> S (g x) (g y)) ->
  StronglySorted R l -> StronglySorted S (List.map g l).
Proof.
  intros H. induction 1 as [|x r Sr IH Fr]; simpl; constructor; [exact IH|].
  apply Forall_forall. intros z Hz.
  apply list_elem_of_In, in_map_iff in Hz as (y & <- & Hy).
  rewrite Forall_forall in Fr. apply H, Fr, list_elem_of_In, Hy.
Qed.

(** GET /api/public/articles answers 200 with a list whenever the
    expressions of the category and of the search compile, and never
    writes; the list holds published articles only, each at most once,
    newest publication first (a missing [publishedAt] last, ties by the
    later creation), and without category and search it holds every
    published article. *)
Theorem listArticles_newest_first (e : env) (category search : option string)
  (d : db) :
  (forall found,
      fst (PublicRoutes.listArticles e category search d)
      = json 200 (PublicArticles found) ->
      NoDup (List.map pv_id found)
      /\ StronglySorted (fun v w => newer_first v w = true) found
      /\ (forall v, v ∈ found ->
                    exists k a, articles d !! k = Some a
                                /\ Article.status a = "published"
                                /\ v = PublicRoutes.select d (k, a))
      /\ (JS.truthy_opt category = false -> JS.truthy_opt search = false ->
          forall k a, articles d !! k = Some a ->
                      Article.status a = "published" ->
                      PublicRoutes.select d (k, a) ∈ found))
  /\ ((forall s, category = Some s -> JS.truthy s = true ->
                 RegExp_i e (String.append "^" (String.append s "$")) <> None) ->
      (forall s, search = Some s -> JS.truthy s = true ->
                 RegExp_i e s <> None) ->
      exists found,
        PublicRoutes.listArticles e category search d
        = (json 200 (PublicArticles found), d))
  /\ snd (PublicRoutes.listArticles e category search d) = d.
Proof.
  split; [|split; [|apply listArticles_reads]].
  - intros found. unfold PublicRoutes.listArticles.
    destruct (PublicRoutes.compile e category _) as [catRegex|] eqn:Cc;
      cbn [bind catch500 fst]; [|discriminate].
    destruct (PublicRoutes.compile e search _) as [searchRegex|] eqn:Cs;
      cbn [bind catch500 fst]; [|discriminate].
    intros [= <-]. split; [|split; [|split]].
    + rewrite map_map. cbn [PublicRoutes.select pv_id].
      change (fun x : N * Article.doc => fst x) with (@fst N Article.doc).
      rewrite (sort_perm _). apply find_NoDup.
    + eapply StronglySorted_map; [|apply sort_strongly].
      intros x y H. exact H.
    + intros v Hv. apply list_elem_of_In, in_map_iff in Hv as ([k a] & <- & Hin).
      apply list_elem_of_In, sort_elem, find_elem in Hin as [Hk Hf].
      exists k, a. split; [exact Hk|]. split; [|reflexivity].
      apply andb_prop in Hf as [Hf _]. apply andb_prop in Hf as [Hf _].
      apply String.eqb_eq, Hf.
    + intros Tc Ts k a Hk Hs.
      apply list_elem_of_In, in_map. apply list_elem_of_In, sort_elem, find_elem.
      split; [exact Hk|].
      assert (catRegex = None).
      { unfold PublicRoutes.compile in Cc. destruct category as [c|].
        - cbn in Tc. rewrite Tc in Cc. congruence.
        - congruence. }
      assert (searchRegex = None).
      { unfold PublicRoutes.compile in Cs. destruct search as [c|].
        - cbn in Ts. rewrite Ts in Cs. congruence.
        - congruence. }
      subst. rewrite Hs. reflexivity.
  - intros Hc Hs. unfold PublicRoutes.listArticles.
    assert (Cc : exists r, PublicRoutes.compile e category
                             (fun c => String.append "^" (String.append c "$"))
                           = Ok r).
    { unfold PublicRoutes.compile. destruct category as [c|]; [|eauto].
      destruct (JS.truthy c) eqn:T; [|eauto].
      specialize (Hc c eq_refl T).
      destruct (RegExp_i e _); [eauto|contradiction]. }
    assert (Cs : exists r, PublicRoutes.compile e search (fun s => s) = Ok r).
    { unfold PublicRoutes.compile. destruct search as [c|]; [|eauto].
      destruct (JS.truthy c) eqn:T; [|eauto].
      specialize (Hs c eq_refl T).
      destruct (RegExp_i e _); [eauto|contradiction]. }
    destruct Cc as [catRegex ->], Cs as [searchRegex ->].
    cbn [bind catch500]. eexists. reflexivity.
Qed.

Lemma listArticles_newest_first_witness :
  PublicRoutes.listArticles Sample.e None (Some "") Sample.db1
  = (json 200
       (PublicArticles
          [PublicRoutes.select Sample.db1 (18%N, Sample.scoop);
           PublicRoutes.select Sample.db1 (16%N, Sample.story)]),
     Sample.db1)
  /\ NoDup (List.map pv_id
              [PublicRoutes.select Sample.db1 (18%N, Sample.scoop);
               PublicRoutes.select Sample.db1 (16%N, Sample.story)])
  /\ StronglySorted (fun v w => newer_first v w = true)
       [PublicRoutes.select Sample.db1 (18%N, Sample.scoop);
        PublicRoutes.select Sample.db1 (16%N, Sample.story)].
Proof.
  pose proof (listArticles_newest_first Sample.e None (Some "") Sample.db1)
    as (H & _ & _).
  split; [vm_compute; reflexivity|].
  destruct (H [PublicRoutes.select Sample.db1 (18%N, Sample.scoop);
               PublicRoutes.select Sample.db1 (16%N, Sample.story)])
    as (H1 & H2 & _).
  - vm_compute. reflexivity.
  - split; [exact H1|exact H2].
Defined.

(** ** The list routes *)

Section SortDesc.

Context {A : Type} (field : A -> Z).

Lemma insert_desc_perm (x : A) (l : list A) :
  Lists.insert_desc field x l ≡ₚ x :: l.
Proof.
  induction l as [|y r IH]; simpl; [reflexivity|].
  destruct (field y <=? field x)%Z; [reflexivity|].
  rewrite IH. apply Permutation_swap.
Qed.

Lemma sort_desc_perm (l : list A) : Lists.sort_desc field l ≡ₚ l.
Proof.
  induction l as [|x r IH]; simpl; [reflexivity|].
  rewrite insert_desc_perm, IH. reflexivity.
Qed.

Lemma insert_desc_strongly (x : A) (l : list A) :
  StronglySorted (fun a b => (field b <= field a)%Z) l ->
  StronglySorted (fun a b => (field b <= field a)%Z)
    (Lists.insert_desc field x l).
Proof.
  induction l as [|y r IH]; intros S; simpl.
  - constructor; constructor.
  - inversion S as [|? ? Sr Fr]; subst.
    destruct (Z.leb_spec (field y) (field x)) as [B|B].
    + constructor; [exact S|]. constructor; [exact B|].
      eapply Forall_impl; [exact Fr|]. intros z Hz. cbn in Hz. lia.
    + constructor; [apply IH, Sr|].
      apply Forall_forall. intros z Hz.
      rewrite insert_desc_perm in Hz. apply elem_of_cons in Hz as [->|Hz].
      * lia.
      * rewrite Forall_forall in Fr. apply Fr, Hz.
Qed.

Lemma sort_desc_strongly (l : list A) :
  StronglySorted (fun a b => (field b <= field a)%Z) (Lists.sort_desc field l).
Proof.
  induction l as [|x r IH]; simpl; [constructor|].
  apply insert_desc_strongly, IH.
Qed.

End SortDesc.

Lemma firstn_prefix {A : Type} (n : nat) (l : list A) : firstn n l `prefix_of` l.
Proof. exists (skipn n l). symmetry. apply firstn_skipn. Qed.

Lemma limited_prefix {A : Type} (count : string -> result (option nat))
  (limit : option string) (l items : list A) :
  Lists.limited count limit l = Ok items ->
  items `prefix_of` l /\ (JS.truthy_opt limit = false -> items = l).
Proof.
  unfold Lists.limited. destruct limit as [s|]; cbn [JS.truthy_opt].
  - destruct (JS.truthy s).
    + destruct (count s) as [[n|]|]; intros [= <-]; split;
        try discriminate; [apply firstn_prefix|reflexivity].
    + intros [= <-]. split; reflexivity.
  - intros [= <-]. split; reflexivity.
Qed.

(** GET /api/editor/articles lists articles of the caller only, each at
    most once, the last updated first, all with the status asked for
    when one is; whatever the limit, the answer is a beginning of the
    list without limit (the store putting documents of equal time in the
    same order in both), which holds every article of the caller that
    has the status. *)
Theorem editorArticles_scope (count : string -> result (option nat))
  (user : claims) (status limit : option string) (d : db)
  (items : list (N * Article.doc)) :
  Lists.editorArticles count user status limit d = (200, Lists.Listed items) ->
  exists uid all,
    ObjectId.cast (id user) = Some uid
    /\ Lists.editorArticles count user status None d = (200, Lists.Listed all)
    /\ items `prefix_of` all
    /\ (JS.truthy_opt limit = false -> items = all)
    /\ NoDup (List.map fst all)
    /\ StronglySorted
         (fun x y => (Article.updatedAt (snd y) <= Article.updatedAt (snd x))%Z)
         all
    /\ forall k a,
         (k, a) ∈ all <->
         articles d !! k = Some a
         /\ Article.author a = uid
         /\ forall s, status = Some s -> JS.truthy s = true ->
                      Article.status a = s.
Proof.
  unfold Lists.editorArticles, Mongoose.castObjectId.
  destruct (ObjectId.cast (id user)) as [uid|]; cbn [bind Lists.answer];
    [|discriminate].
  destruct (Lists.limited count limit _) as [found|] eqn:L;
    cbn [Lists.answer]; [|discriminate].
  intros [= <-]. apply limited_prefix in L as [Hp Hall].
  exists uid. eexists. split; [reflexivity|]. split; [reflexivity|].
  split; [exact Hp|]. split; [exact Hall|]. split; [|split].
  - rewrite (sort_desc_perm _). apply find_NoDup.
  - apply (sort_desc_strongly (fun kv : N * Article.doc =>
                                 Article.updatedAt (snd kv))).
  - intros k a. rewrite (sort_desc_perm _), find_elem.
    split.
    + intros [Hk Hf]. apply andb_prop in Hf as [Ha Hs].
      apply N.eqb_eq in Ha. repeat split; try assumption.
      intros s -> Ts. rewrite Ts in Hs. apply String.eqb_eq, Hs.
    + intros (Hk & Ha & Hs). split; [exact Hk|]. rewrite Ha, N.eqb_refl.
      destruct status as [s|]; [|reflexivity].
      destruct (JS.truthy s) eqn:Ts; [|reflexivity].
      rewrite (Hs s eq_refl Ts). apply String.eqb_refl.
Qed.

Lemma editorArticles_scope_witness :
  exists uid all,
    ObjectId.cast (id Sample.as_bob) = Some uid
    /\ Lists.editorArticles (fun _ => Ok (Some 1)) Sample.as_bob (Some "draft")
         None Sample.db0
       = (200, Lists.Listed all)
    /\ [(17%N, Sample.draft)] `prefix_of` all
    /\ (JS.truthy_opt (Some "1") = false -> [(17%N, Sample.draft)] = all)
    /\ NoDup (List.map fst all)
    /\ StronglySorted
         (fun x y => (Article.updatedAt (snd y) <= Article.updatedAt (snd x))%Z)
         all
    /\ forall k a,
         (k, a) ∈ all <->
         articles Sample.db0 !! k = Some a
         /\ Article.author a = uid
         /\ forall s, Some "draft" = Some s -> JS.truthy s = true ->
                      Article.status a = s.
Proof.
  apply (editorArticles_scope (fun _ => Ok (Some 1)) Sample.as_bob
           (Some "draft") (Some "1") Sample.db0 [(17%N, Sample.draft)]).
  vm_compute. reflexivity.
Defined.

(** GET /api/admin/editors lists accounts of the collection, each at most
    once with its own name, email and role, the last created first;
    whatever the limit, the answer is a beginning of the list without
    limit (the store putting documents of equal time in the same order
    in both), which holds every account. *)
Theorem adminEditors_lists_accounts (count : string -> result (option nat))
  (limit : option string) (d : db) (items : list Lists.listed_editor) :
  Lists.adminEditors count limit d = (200, Lists.Listed items) ->
  exists all,
    Lists.adminEditors count None d = (200, Lists.Listed all)
    /\ items `prefix_of` all
    /\ (JS.truthy_opt limit = false -> items = all)
    /\ NoDup (List.map Lists.le_id all)
    /\ StronglySorted
         (fun v w => (Lists.le_createdAt w <= Lists.le_createdAt v)%Z) all
    /\ length all = size (editors d)
    /\ forall v,
         v ∈ all <->
         exists x, editors d !! Lists.le_id v = Some x
                   /\ v = Lists.select (Lists.le_id v, x).
Proof.
  unfold Lists.adminEditors.
  destruct (Lists.limited count limit _) as [found|] eqn:L;
    cbn [bind Lists.answer]; [|discriminate].
  intros [= <-]. apply limited_prefix in L as [[rest Hp] Hall].
  eexists. split; [reflexivity|].
  split; [exists (List.map Lists.select rest); rewrite Hp; apply map_app|].
  split; [intros T; rewrite (Hall T); reflexivity|].
  assert (Hfind : forall k x,
             (k, x) ∈ Mongoose.find (fun _ _ => true) (editors d) <->
             editors d !! k = Some x).
  { intros k x. rewrite find_elem. tauto. }
  split; [|split; [|split]].
  - rewrite map_map. cbn [Lists.select Lists.le_id].
    change (fun x : N * Editor.doc => fst x) with (@fst N Editor.doc).
    rewrite (sort_desc_perm _). apply find_NoDup.
  - eapply StronglySorted_map;
      [|apply (sort_desc_strongly
                 (fun kv : N * Editor.doc => Editor.createdAt (snd kv)))].
    intros x y H. exact H.
  - rewrite length_map, (sort_desc_perm _). unfold Mongoose.find.
    rewrite filter_length_all. apply length_map_to_list.
  - intros v. split.
    + intros Hv. apply list_elem_of_In, in_map_iff in Hv as ([k x] & <- & Hx).
      apply list_elem_of_In in Hx. rewrite (sort_desc_perm _), Hfind in Hx.
      exists x. split; [exact Hx|reflexivity].
    + intros (x & Hx & ->). apply list_elem_of_In, in_map, list_elem_of_In.
      rewrite (sort_desc_perm _). apply Hfind, Hx.
Qed.

Lemma adminEditors_lists_accounts_witness :
  exists all,
    Lists.adminEditors (fun _ => Ok (Some 2)) None Sample.db0
    = (200, Lists.Listed all)
    /\ [Lists.select (3%N, Sample.bob); Lists.select (2%N, Sample.alice)]
         `prefix_of` all
    /\ (JS.truthy_opt (Some "2") = false ->
        [Lists.select (3%N, Sample.bob); Lists.select (2%N, Sample.alice)]
        = all)
    /\ NoDup (List.map Lists.le_id all)
    /\ StronglySorted
         (fun v w => (Lists.le_createdAt w <= Lists.le_createdAt v)%Z) all
    /\ length all = size (editors Sample.db0)
    /\ forall v,
         v ∈ all <->
         exists x, editors Sample.db0 !! Lists.le_id v = Some x
                   /\ v = Lists.select (Lists.le_id v, x).
Proof.
  apply (adminEditors_lists_accounts (fun _ => Ok (Some 2)) (Some "2")
           Sample.db0
           [Lists.select (3%N, Sample.bob); Lists.select (2%N, Sample.alice)]).
  vm_compute. reflexivity.
Defined.

(** ** More on the accounts and on the categories *)

(** POST /api/admin/editors: without a name, an email or a password the
    answer is 400; with all three, a name and an email that are not
    blank, an email no account holds and a free id, the account is
    created with the trimmed name and email and with the hash of the
    password, never the password itself, and the answer 201 shows it. *)
Theorem createEditor_effect (e : env) (b : profile_body) (d : db) :
  (JS.truthy_opt (p_name b) = false \/ JS.truthy_opt (p_email b) = false
   \/ JS.truthy_opt (p_password b) = false ->
   AdminRoutes.createEditor e b d
   = (json 400 (Message "Name, email and password are required"), d))
  /\ (forall name email password,
        p_name b = Some name -> p_email b = Some email ->
        p_password b = Some password ->
        JS.truthy (JS.trim name) = true ->
        JS.truthy (JS.trim email) = true ->
        JS.truthy password = true ->
        JS.truthy (hashPassword e password) = true ->
        (forall k x, editors d !! k = Some x ->
                     Editor.email x <> JS.trim email) ->
        editors d !! freshId e = None ->
        AdminRoutes.createEditor e b d
        = (json 201
             (MessageEditor "Editor created successfully"
                (mkEditorView (freshId e) (JS.trim name) (JS.trim email) "user"
                   (Some (now e)))),
           with_editors
             (<[freshId e :=
                  Editor.mk (JS.trim name) (JS.trim email)
                    (hashPassword e password) "user" (now e) (now e)]>
                (editors d)) d)).
Proof.
  split.
  - unfold AdminRoutes.createEditor, JS.truthy_opt.
    destruct (p_name b) as [name|], (p_email b) as [email|],
      (p_password b) as [password|]; try reflexivity.
    intros [H|[H|H]]; rewrite H; cbn [negb orb];
      rewrite ?orb_true_r; reflexivity.
  - intros name email password Hn He Hp Tn Te Tp Th Hfree Hid.
    unfold AdminRoutes.createEditor.
    rewrite Hn, He, Hp, (trim_truthy _ Tn), (trim_truthy _ Te), Tp.
    cbn [negb orb].
    assert (F : Mongoose.findOne
                  (fun _ x => String.eqb (Editor.email x) (JS.trim email))
                  (editors d) = None).
    { apply findOne_None. intros k x Hk.
      destruct (String.eqb_spec (Editor.email x) (JS.trim email));
        [exfalso; eapply Hfree; eauto|reflexivity]. }
    rewrite F. unfold Mongoose.createEditor, Editor.validate.
    cbn [Editor.name Editor.email Editor.password Editor.role].
    rewrite Tn, Te, Th. cbn. rewrite Hid.
    assert (T : Mongoose.emailTaken (freshId e) (JS.trim email) (editors d)
                = false).
    { apply emailTaken_false. intros k' x' Hk' _. eapply Hfree, Hk'. }
    rewrite T. reflexivity.
Qed.

Lemma createEditor_effect_witness :
  AdminRoutes.createEditor Sample.e
    (mkProfileBody (Some " Carol ") (Some "carol@x.com ") (Some "carol-pw")
       None)
    Sample.db0
  = (json 201
       (MessageEditor "Editor created successfully"
          (mkEditorView 32%N "Carol" "carol@x.com" "user" (Some 2000000%Z))),
     with_editors
       (<[32%N := Editor.mk "Carol" "carol@x.com" (Sample.bcrypt "carol-pw")
                    "user" 2000000%Z 2000000%Z]>
          (editors Sample.db0)) Sample.db0).
Proof.
  pose proof (createEditor_effect Sample.e
                (mkProfileBody (Some " Carol ") (Some "carol@x.com ")
                   (Some "carol-pw") None)
                Sample.db0) as (_ & H).
  apply (H " Carol " "carol@x.com " "carol-pw"); try reflexivity.
  apply (bool_decide_unpack
           (map_Forall
              (fun _ x => Editor.email x <> JS.trim "carol@x.com ")
              (editors Sample.db0))).
  vm_compute. reflexivity.
Defined.

(** PUT /api/editor/me: an accepted update stores the name and the email
    that the request sends non-empty, trimmed, and keeps what it omits or
    sends empty; the role and the password stay whatever the request
    holds, and so does every other account and every article; a refused
    update writes nothing. *)
Theorem updateMe_effect (e : env) (user : claims) (b : profile_body) (d : db)
  (k : ObjectId.t) (account : Editor.doc) :
  ObjectId.cast (id user) = Some k ->
  editors d !! k = Some account ->
  (code (fst (EditorRoutes.updateMe e user b d)) = 200 ->
   exists account',
     editors (snd (EditorRoutes.updateMe e user b d)) !! k = Some account'
     /\ Editor.name account'
        = match p_name b with
          | Some v => if JS.truthy v then JS.trim v else Editor.name account
          | None => Editor.name account
          end
     /\ Editor.email account'
        = match p_email b with
          | Some v =>
              if JS.truthy v && negb (String.eqb v (Editor.email account))
              then JS.trim v
              else Editor.email account
          | None => Editor.email account
          end
     /\ Editor.role account' = Editor.role account
     /\ Editor.password account' = Editor.password account
     /\ Editor.createdAt account' = Editor.createdAt account
     /\ articles (snd (EditorRoutes.updateMe e user b d)) = articles d
     /\ forall k', k' <> k ->
          editors (snd (EditorRoutes.updateMe e user b d)) !! k'
          = editors d !! k')
  /\ (code (fst (EditorRoutes.updateMe e user b d)) <> 200 ->
      snd (EditorRoutes.updateMe e user b d) = d).
Proof.
  intros Hc Hk. unfold EditorRoutes.updateMe.
  rewrite (castObjectId_Some _ _ Hc). cbn [bind]. unfold Mongoose.findById.
  rewrite Hk.
  destruct (changeEmail k (p_email b) account (editors d)) as [x|] eqn:C.
  - apply changeEmail_inv in C as [-> Hm].
    assert (F6 : Editor.email
                   (assign_truthy (p_name b) Editor.set_name
                      match p_email b with
                      | Some em =>
                          if JS.truthy em
                             && negb (String.eqb em (Editor.email account))
                          then Editor.set_email em account
                          else account
                      | None => account
                      end)
                 = Editor.email
                     match p_email b with
                     | Some em =>
                         if JS.truthy em
                            && negb (String.eqb em (Editor.email account))
                         then Editor.set_email em account
                         else account
                     | None => account
                     end).
    { unfold assign_truthy. destruct (p_name b) as [n|]; [|reflexivity].
      destruct (JS.truthy n); reflexivity. }
    rewrite <- F6 in Hm.
    pose proof (saveEditor_inv (now e) k account _ d Hk Hm) as S.
    destruct (Mongoose.saveEditor _ _ _ _ _) as [[y d1]|];
      cbn [bind catch500 fst snd code json].
    + destruct S as (V & [t ->] & S1 & S2 & S3).
      split; [|intros H; contradiction].
      intros _. eexists. split; [exact S1|].
      cbn [Editor.set_updatedAt Editor.name Editor.email Editor.role
           Editor.password Editor.createdAt].
      unfold assign_truthy.
      destruct (p_name b) as [n|], (p_email b) as [em|];
        try destruct (JS.truthy n);
        try destruct (JS.truthy em
                      && negb (String.eqb em (Editor.email account)));
        cbn; repeat split; try reflexivity; assumption.
    + split; [discriminate|reflexivity].
  - cbn [catch500 fst snd code json]. split; [discriminate|reflexivity].
Qed.

Lemma updateMe_effect_witness :
  exists account',
    editors (snd (EditorRoutes.updateMe Sample.e Sample.as_bob
                    (mkProfileBody (Some " Robert ") (Some "") None
                       (Some "admin"))
                    Sample.db0)) !! 3%N = Some account'
    /\ Editor.name account' = "Robert"
    /\ Editor.email account' = "bob@x.com"
    /\ Editor.role account' = "user".
Proof.
  pose proof (updateMe_effect Sample.e Sample.as_bob
                (mkProfileBody (Some " Robert ") (Some "") None (Some "admin"))
                Sample.db0 3%N Sample.bob) as H.
  destruct H as (H & _); [reflexivity|vm_compute; reflexivity|].
  destruct H as (x & H1 & H2 & H3 & H4 & _); [vm_compute; reflexivity|].
  exists x. split; [exact H1|]. split; [exact H2|]. split; [exact H3|exact H4].
Defined.

Lemma set_spread_NoDup_id (seen l : list string) :
  NoDup l -> (forall x, x ∈ l -> x ∉ seen) -> JS.set_spread seen l = l.
Proof.
  revert seen. induction l as [|x r IH]; intros seen Hn Hd; simpl;
    [reflexivity|].
  apply NoDup_cons in Hn as [Hx Hr].
  destruct (existsb (String.eqb x) seen) eqn:E.
  - apply existsb_eqb_elem in E. exfalso. apply (Hd x); [left|exact E].
  - f_equal. apply IH; [exact Hr|].
    intros y Hy Hs. apply elem_of_cons in Hs as [->|Hs]; [contradiction|].
    apply (Hd y); [right; exact Hy|exact Hs].
Qed.

(** Normalising twice is normalising once: the categories an article
    stores, sent back as they are, are stored again as they are. *)
Theorem normalizeCategories_idempotent (input : cat_input) :
  normalizeCategories (CatArray (normalizeCategories input))
  = normalizeCategories input.
Proof.
  unfold normalizeCategories at 1. unfold category_candidates.
  change (fun c => JS.trim (JS.toLowerCase c)) with Article.set_category.
  rewrite set_category_normalizeCategories.
  rewrite set_spread_NoDup_id.
  - destruct (normalizeCategories input) eqn:E; [|reflexivity].
    exfalso. eapply normalizeCategories_nonempty, E.
  - apply normalizeCategories_NoDup.
  - intros x _ H. inversion H.
Qed.

(** ** The generated password *)

Lemma string_length_append (s t : string) :
  String.length (String.append s t) = String.length s + String.length t.
Proof. induction s as [|c s IH]; simpl; [reflexivity|rewrite IH; reflexivity]. Qed.

Lemma list_ascii_append (s t : string) :
  list_ascii_of_string (String.append s t)
  = list_ascii_of_string s ++ list_ascii_of_string t.
Proof. induction s as [|c s IH]; simpl; [reflexivity|rewrite IH; reflexivity]. Qed.

Lemma string_get_In (s : string) (i : nat) (c : ascii) :
  String.get i s = Some c -> In c (list_ascii_of_string s).
Proof.
  revert i. induction s as [|x s IH]; intros i; simpl; [discriminate|].
  destruct i as [|i]; [intros [= ->]; left; reflexivity|].
  intros H. right. eapply IH, H.
Qed.

Lemma string_get_lt (s : string) (i : nat) :
  i < String.length s -> exists c, String.get i s = Some c.
Proof.
  revert i. induction s as [|x s IH]; intros i; simpl; [lia|].
  destruct i as [|i]; [intros _; eexists; reflexivity|].
  intros H. apply IH. lia.
Qed.

Lemma loop_alphabet (random : nat -> nat) (n i : nat) (pwd : string) :
  (forall j, i <= j < i + n -> random j < String.length Password.chars) ->
  String.length (Password.loop random i n pwd) = String.length pwd + n
  /\ forall c, In c (list_ascii_of_string (Password.loop random i n pwd)) ->
               In c (list_ascii_of_string pwd)
               \/ In c (list_ascii_of_string Password.chars).
Proof.
  revert i pwd. induction n as [|n IH]; intros i pwd Hr; simpl.
  - split; [lia|]. intros c H. left. exact H.
  - destruct (IH (S i) (String.append pwd (Password.char_at (random i))))
      as [L M]; [intros j Hj; apply Hr; lia|].
    destruct (string_get_lt Password.chars (random i)) as [x Hx];
      [apply Hr; lia|].
    assert (Hc : Password.char_at (random i) = String x EmptyString)
      by (unfold Password.char_at; rewrite Hx; reflexivity).
    rewrite Hc in L, M |- *. split.
    + rewrite L, string_length_append. simpl. lia.
    + intros c H. destruct (M c H) as [H'|H']; [|right; exact H'].
      rewrite list_ascii_append in H'. apply in_app_or in H' as [H'|H'];
        [left; exact H'|].
      right. simpl in H'. destruct H' as [<-|[]].
      exact (string_get_In Password.chars (random i) x Hx).
Qed.

(** [generateRandomPassword(length)], whatever [Math.random] returns:
    the password has [length] characters, each one of [chars], so none
    of the look-alikes I, O, l, 0 and 1. *)
Theorem generateRandomPassword_alphabet (random : nat -> nat) (length : nat) :
  (forall i, i < length -> random i < String.length Password.chars) ->
  String.length (Password.generateRandomPassword random length) = length
  /\ forall c,
       In c (list_ascii_of_string
               (Password.generateRandomPassword random length)) ->
       In c (list_ascii_of_string Password.chars)
       /\ ~ In c Password.lookalikes.
Proof.
  intros Hr. unfold Password.generateRandomPassword.
  destruct (loop_alphabet random length 0 "") as [L M];
    [intros j Hj; apply Hr; lia|].
  split; [exact L|]. intros c H.
  assert (Hc : In c (list_ascii_of_string Password.chars))
    by (destruct (M c H) as [[]|H']; exact H').
  split; [exact Hc|].
  assert (A : forallb (fun x => negb (existsb (Ascii.eqb x) Password.lookalikes))
                (list_ascii_of_string Password.chars) = true)
    by (vm_compute; reflexivity).
  rewrite forallb_forall in A. specialize (A c Hc).
  intros Hl. apply negb_true_iff in A.
  assert (B : existsb (Ascii.eqb c) Password.lookalikes = true)
    by (apply existsb_exists; exists c; split; [exact Hl|apply Ascii.eqb_refl]).
  congruence.
Qed.

Lemma generateRandomPassword_alphabet_witness :
  Password.generateRandomPassword (fun i => 6 * i) 10 = "AGNUagntz7"
  /\ String.length (Password.generateRandomPassword (fun i => 6 * i) 10) = 10.
Proof.
  split; [vm_compute; reflexivity|].
  apply (generateRandomPassword_alphabet (fun i => 6 * i) 10).
  intros i Hi. change (String.length Password.chars) with 62. lia.
Defined.

(** ** The application, with the seed *)

Lemma createAdmin_writes (es : env) (d : db) : writes d (Index.createAdmin es d).
Proof.
  unfold Index.createAdmin.
  destruct (Mongoose.createEditor _ _ _ _) as [[x d1]|] eqn:S; [|constructor].
  eapply mongoose_createEditor_writes, S.
Qed.

Lemma createAdmin_articles (es : env) (d : db) :
  articles (Index.createAdmin es d) = articles d.
Proof.
  unfold Index.createAdmin.
  destruct (Mongoose.createEditor _ _ _ _) as [[x d1]|] eqn:S; [|reflexivity].
  eapply createEditor_articles, S.
Qed.

Lemma createInitialAdmin_articles (es : env) (d : db) :
  articles (Index.createInitialAdmin es d) = articles d.
Proof.
  unfold Index.createInitialAdmin.
  destruct (Mongoose.findOne _ _); [reflexivity|].
  apply (createAdmin_articles es d).
Qed.

Section AppInvariant.

Variable I : db -> Prop.

Hypothesis I_seed : forall es d, I d -> I (Index.createInitialAdmin es d).
Hypothesis I_create : forall es d, I d -> I (Index.createAdmin es d).

Lemma first_middleware_keeps (s : Index.schedule) (es : env)
  (next : db -> response * db) (d : db) :
  (forall d', I d' -> I (snd (next d'))) ->
  I d -> I (snd (Index.first_middleware s es next d)).
Proof.
  intros Hn Hd. unfold Index.first_middleware. destruct s.
  - apply Hn, I_seed, Hd.
  - specialize (Hn d Hd). destruct (next d) as [res d']. cbn [snd] in *.
    destruct (Mongoose.findOne _ _); [exact Hn|apply I_create, Hn].
  - specialize (Hn d Hd). destruct (next d) as [res d']. cbn [snd] in *.
    apply I_seed, Hn.
Qed.

End AppInvariant.

(** One request to the application, the seed of the first middleware
    included and however it is scheduled, keeps the four invariants:
    every document satisfies its schema, no two accounts hold the same
    email, every article has a category, and every published article
    has its [publishedAt]. *)
Theorem app_keeps_invariants (s : Index.schedule) (es e : env)
  (r : Index.request) (d : db) :
  (db_valid d -> db_valid (snd (Index.app s es e r d)))
  /\ (emails_unique d -> emails_unique (snd (Index.app s es e r d)))
  /\ (articles_all has_category d ->
      articles_all has_category (snd (Index.app s es e r d)))
  /\ (articles_all stamped d ->
      articles_all stamped (snd (Index.app s es e r d))).
Proof.
  unfold Index.app. repeat match goal with |- _ /\ _ => split end.
  - apply (first_middleware_keeps db_valid).
    + intros es' d' H. eapply writes_valid;
        [apply createInitialAdmin_writes|exact H].
    + intros es' d' H. eapply writes_valid; [apply createAdmin_writes|exact H].
    + intros d' H. eapply writes_valid; [apply handle_writes|exact H].
  - apply (first_middleware_keeps emails_unique).
    + intros es' d' H. eapply writes_unique;
        [apply createInitialAdmin_writes|exact H].
    + intros es' d' H. eapply writes_unique; [apply createAdmin_writes|exact H].
    + intros d' H. eapply writes_unique; [apply handle_writes|exact H].
  - apply (first_middleware_keeps (articles_all has_category)).
    + intros es' d' H. eapply same_articles_all; [|exact H].
      apply createInitialAdmin_articles.
    + intros es' d' H. eapply same_articles_all; [|exact H].
      apply createAdmin_articles.
    + intros d'. apply handle_all.
      * apply has_category_created.
      * intros a c u H. exact H.
      * apply has_category_staged.
      * apply has_category_status.
  - apply (first_middleware_keeps (articles_all stamped)).
    + intros es' d' H. eapply same_articles_all; [|exact H].
      apply createInitialAdmin_articles.
    + intros es' d' H. eapply same_articles_all; [|exact H].
      apply createAdmin_articles.
    + intros d'. apply handle_all.
      * apply stamped_created.
      * intros a c u H. exact H.
      * apply stamped_staged.
      * apply stamped_status.
Qed.

Lemma app_keeps_invariants_witness :
  editors (snd (Index.app Index.seed_around Sample.e Sample.e
                  (Index.PUT_admin_article_status
                     (Auth.Bearer
                        (Auth.generateToken Sample.e 1%N Sample.admin))
                     Sample.draft_id (Some "published"))
                  (with_editors (delete 1%N (editors Sample.db0)) Sample.db0)))
    !! 32%N
  = Some (Editor.mk "Super Admin" "admin@newsone.live"
            (Sample.bcrypt "Admin@123") "admin" 2000000%Z 2000000%Z)
  /\ db_valid
       (snd (Index.app Index.seed_around Sample.e Sample.e
               (Index.PUT_admin_article_status
                  (Auth.Bearer (Auth.generateToken Sample.e 1%N Sample.admin))
                  Sample.draft_id (Some "published"))
               (with_editors (delete 1%N (editors Sample.db0)) Sample.db0)))
  /\ articles_all stamped
       (snd (Index.app Index.seed_around Sample.e Sample.e
               (Index.PUT_admin_article_status
                  (Auth.Bearer (Auth.generateToken Sample.e 1%N Sample.admin))
                  Sample.draft_id (Some "published"))
               (with_editors (delete 1%N (editors Sample.db0)) Sample.db0))).
Proof.
  pose proof (app_keeps_invariants Index.seed_around Sample.e Sample.e
                (Index.PUT_admin_article_status
                   (Auth.Bearer (Auth.generateToken Sample.e 1%N Sample.admin))
                   Sample.draft_id (Some "published"))
                (with_editors (delete 1%N (editors Sample.db0)) Sample.db0))
    as (Hv & _ & _ & Hs).
  split; [vm_compute; reflexivity|]. split.
  - apply Hv. eapply writes_valid; [apply writes_removal|apply sample_valid].
  - apply Hs. eapply same_articles_all; [|apply sample_stamped]. reflexivity.
Defined.

(** ** The admin's list of articles *)

(** GET /api/admin/articles answers 500 when the query fails on the page
    and the limit, and otherwise 200 with the page and the limit it was
    asked for; the total is the number of stored articles that have the
    status asked for (of all articles when none is), whatever the page
    and the limit; every article of the answer is a stored one with that
    status, its author populated as in the admin's read of one article;
    the answer holds no more articles than the limit allows nor than are
    left after those skipped. The route writes nothing. *)
Theorem adminArticles_page (e : env) (status page limit : option string)
  (d : db) :
  (forall x,
      skip_limit e (JS.number_of 1 page) (JS.number_of 20 limit) = Throw x ->
      AdminRoutes.listArticles e status page limit d
      = (json 500 (Message "Server error"), d))
  /\ (forall skip limited,
        skip_limit e (JS.number_of 1 page) (JS.number_of 20 limit)
        = Ok (skip, limited) ->
        exists items total,
          AdminRoutes.listArticles e status page limit d
          = (json 200 (AdminArticles items total (JS.number_of 1 page)
                         (JS.number_of 20 limit)), d)
          /\ (exists all,
                 NoDup (List.map fst all)
                 /\ (forall k a,
                        (k, a) ∈ all <->
                        articles d !! k = Some a
                        /\ forall s, status = Some s -> JS.truthy s = true ->
                                     Article.status a = s)
                 /\ total = List.length all)
          /\ (forall k a au,
                 (k, a, au) ∈ items ->
                 articles d !! k = Some a
                 /\ (forall s, status = Some s -> JS.truthy s = true ->
                               Article.status a = s)
                 /\ au = AdminRoutes.populate_name_email a d)
          /\ List.length items <= total - skip
          /\ (forall n, limited = Some n -> List.length items <= n)
          /\ (limited = None -> List.length items = total - skip)).
Proof.
  unfold AdminRoutes.listArticles. split.
  - intros x ->. reflexivity.
  - intros skip limited ->. cbn [bind catch500].
    set (query := fun (_ : N) (a : Article.doc) =>
                    match status with
                    | Some s =>
                        if JS.truthy s then String.eqb (Article.status a) s
                        else true
                    | None => true
                    end).
    assert (Hq : forall (k : N) a,
               query k a = true <->
               forall s, status = Some s -> JS.truthy s = true ->
                         Article.status a = s).
    { intros k a. unfold query. destruct status as [s|].
      - destruct (JS.truthy s) eqn:T.
        + split.
          * intros H s' [= <-] _. apply String.eqb_eq, H.
          * intros H. apply String.eqb_eq, (H s eq_refl T).
        + split; [intros _ s' [= <-] T'; congruence|reflexivity].
      - split; [intros _ s' H; discriminate H|reflexivity]. }
    set (sorted := Lists.sort_desc
                     (fun kv : N * Article.doc => Article.updatedAt (snd kv))
                     (Mongoose.find query (articles d))).
    set (found := match limited with
                  | Some n => firstn n (skipn skip sorted)
                  | None => skipn skip sorted
                  end).
    assert (Hlen : List.length sorted
                   = Mongoose.countDocuments query (articles d)).
    { unfold Mongoose.countDocuments, sorted.
      apply Permutation_length, sort_desc_perm. }
    assert (Hsub : forall kv, kv ∈ found ->
                              kv ∈ Mongoose.find query (articles d)).
    { intros kv H.
      assert (H' : kv ∈ sorted).
      { unfold found in H. destruct limited as [n|].
        - apply (subseteq_drop skip), (subseteq_take n), H.
        - apply (subseteq_drop skip), H. }
      unfold sorted in H'. rewrite sort_desc_perm in H'. exact H'. }
    eexists. eexists. split; [reflexivity|].
    split; [|split; [|split; [|split]]].
    + exists (Mongoose.find query (articles d)).
      split; [apply find_NoDup|]. split; [|reflexivity].
      intros k a. rewrite find_elem, Hq. reflexivity.
    + intros k a au Hin.
      apply list_elem_of_In, in_map_iff in Hin as ([k' a'] & E & Hin).
      cbn [fst snd] in E. injection E as -> -> <-.
      apply list_elem_of_In, Hsub, find_elem in Hin as [Hk Hf].
      split; [exact Hk|]. split; [apply (Hq k), Hf|reflexivity].
    + rewrite length_map, <- Hlen. fold sorted. unfold found.
      destruct limited as [n|].
      * rewrite length_take, length_drop. lia.
      * rewrite length_drop. lia.
    + intros n ->. rewrite length_map. unfold found.
      rewrite length_take. lia.
    + intros ->. rewrite length_map, <- Hlen. unfold found.
      apply length_drop.
Qed.

Lemma adminArticles_page_witness :
  AdminRoutes.listArticles Sample.e (Some "published") None None Sample.db1
  = (json 200
       (AdminArticles
          [(18%N, Sample.scoop,
            Some (mkAuthor 3%N "Bob" (Some "bob@x.com")));
           (16%N, Sample.story,
            Some (mkAuthor 2%N "Alice" (Some "a@x.com")))]
          2 (JS.Lit 1) (JS.Lit 20)),
     Sample.db1)
  /\ exists items total,
       AdminRoutes.listArticles Sample.e (Some "draft") None None Sample.db1
       = (json 200 (AdminArticles items total (JS.Lit 1) (JS.Lit 20)),
          Sample.db1)
       /\ List.length items <= 20.
Proof.
  split; [vm_compute; reflexivity|].
  pose proof (adminArticles_page Sample.e (Some "draft") None None Sample.db1)
    as (_ & H).
  destruct (H 0 (Some 20) eq_refl) as (items & total & H1 & _ & _ & _ & H2 & _).
  exists items, total. split; [exact H1|]. apply (H2 20). reflexivity.
Defined.
